(** * aws4: AWS Signature Version 4 signing and challenge validation

    A shallow embedding of [src/aws4/__init__.py] and the properties of its
    canonicalisation, key derivation, signing and validation functions.

    Conventions of the embedding.
    - A Python [str] is a [string]: a sequence of characters with code points
      below 256, compared by code point as Python does.  [str.encode()] is
      UTF-8 on that range.
    - Python [bytes] are [list byte].  [bytes.decode()] is UTF-8: ill-formed
      bytes are a [UnicodeDecodeError], which [Py.utf8_valid] decides; the
      well-formed bytes of a text with a character from U+0100 on decode to
      a [str] that is not a [string], and are not in the domain of the
      embedding.
    - A function that may raise returns a [result]; the exception classes of
      the module and the built-in ones that the code can let escape are the
      constructors of [exn].
    - The header mapping ([multidict.CIMultiDict]) is an ordered list of
      entries with case-insensitive keys.  [sign_request] changes it in
      place: it returns the mapping at the end of the call together with its
      result.
    - [hashlib.sha256] and [hmac] are embedded in full, and checked on the
      standard test vectors and on the signatures of the repository's tests.
    - The functions of other packages that the module calls and that are not
      embedded ([urllib.parse.urlparse], [dateutil.parser.parse]) are the
      fields of the class [Collaborators]; the reading of the clock is the
      argument [now] of the functions that read it. *)

From Stdlib Require Import ZArith NArith Ascii String List Lia.
From Stdlib.Strings Require Import Byte.
From stdpp Require Import base option list gmap strings sorting.

Local Open Scope string_scope.
Local Open Scope list_scope.

(** ** Built-in string operations of Python *)

Module Py.

(** [strip_prefix p s] is [Some r] when [s = p ++ r]. *)
Fixpoint strip_prefix (p s : string) : option string :=
  match p, s with
  | EmptyString, _ => Some s
  | String a p', String b s' =>
      if Ascii.eqb a b then strip_prefix p' s' else None
  | String _ _, EmptyString => None
  end.

(** [s.partition(sep)] for a non-empty [sep]: the text before the first
    occurrence of [sep], the separator found, the text after it; when
    [sep] does not occur, [(s, "", "")]. *)
Fixpoint partition (sep s : string) : string * string * string :=
  match strip_prefix sep s with
  | Some rest => (EmptyString, sep, rest)
  | None =>
      match s with
      | EmptyString => (EmptyString, EmptyString, EmptyString)
      | String c s' =>
          let '(a, m, b) := partition sep s' in (String c a, m, b)
      end
  end.

(** [s.split(sep)] for a non-empty [sep].  The counter [skip] is the
    number of characters of a separator just found that are still to be
    passed over. *)
Fixpoint split_aux (sep : string) (skip : nat) (s : string) : list string :=
  match s with
  | EmptyString => [EmptyString]
  | String c s' =>
      match skip with
      | S k => split_aux sep k s'
      | O =>
          match strip_prefix sep s with
          | Some _ => EmptyString :: split_aux sep (String.length sep - 1) s'
          | None =>
              match split_aux sep 0 s' with
              | p :: ps => String c p :: ps
              | [] => [String c EmptyString]
              end
          end
      end
  end.

Definition split (sep s : string) : list string := split_aux sep 0 s.

(** [s.split(sep, maxsplit=1)]. *)
Definition split_max1 (sep s : string) : list string :=
  match partition sep s with
  | (a, EmptyString, _) => [a]
  | (a, String _ _, b) => [a; b]
  end.

(** [sep.join(l)]. *)
Fixpoint join (sep : string) (l : list string) : string :=
  match l with
  | [] => EmptyString
  | [x] => x
  | x :: l' => x ++ sep ++ join sep l'
  end.

(** [s.replace(old, new)] for a non-empty [old], by the same counter. *)
Fixpoint replace_aux (old new : string) (skip : nat) (s : string) : string :=
  match s with
  | EmptyString => EmptyString
  | String c s' =>
      match skip with
      | S k => replace_aux old new k s'
      | O =>
          match strip_prefix old s with
          | Some _ => new ++ replace_aux old new (String.length old - 1) s'
          | None => String c (replace_aux old new 0 s')
          end
      end
  end.

Definition replace (old new s : string) : string := replace_aux old new 0 s.

(** [c.lower()] on code points below 256: the letters A-Z and the
    Latin-1 capitals U+00C0-U+00DE other than the sign U+00D7. *)
Definition lower_char (c : ascii) : ascii :=
  let n := N_of_ascii c in
  if ((65 <=? n) && (n <=? 90))%N
     || ((192 <=? n) && (n <=? 222) && negb (n =? 215))%N
  then ascii_of_N (n + 32)
  else c.

Fixpoint lower (s : string) : string :=
  match s with
  | EmptyString => EmptyString
  | String c s' => String (lower_char c) (lower s')
  end.

(** [c in s] for a character. *)
Fixpoint has_char (c : ascii) (s : string) : bool :=
  match s with
  | EmptyString => false
  | String d s' => Ascii.eqb c d || has_char c s'
  end.

(** [sub in s] for a string. *)
Fixpoint contains (sub s : string) : bool :=
  match strip_prefix sub s with
  | Some _ => true
  | None =>
      match s with
      | EmptyString => false
      | String _ s' => contains sub s'
      end
  end.

(** [s.encode()]: UTF-8. *)
Definition byte_of_N (n : N) : byte :=
  match Byte.of_N (n mod 256) with
  | Some b => b
  | None => x00
  end.

Definition encode_char (c : ascii) : list byte :=
  let n := N_of_ascii c in
  if (n <? 128)%N then [byte_of_N n]
  else [byte_of_N (192 + N.shiftr n 6); byte_of_N (128 + N.land n 63)].

Fixpoint encode (s : string) : list byte :=
  match s with
  | EmptyString => []
  | String c s' => encode_char c ++ encode s'
  end.

(** Well-formed UTF-8, as the decoder of Python accepts it: one byte below
    0x80; a lead byte 0xC2 to 0xDF, 0xE0 to 0xEF or 0xF0 to 0xF4 followed by
    one, two or three bytes 0x80 to 0xBF, where the first byte after 0xE0 is
    from 0xA0, after 0xED up to 0x9F (no surrogates), after 0xF0 from 0x90
    and after 0xF4 up to 0x8F.  [b.decode()] raises [UnicodeDecodeError]
    exactly when [utf8_valid b] is [false]. *)
Definition in_range (lo hi : N) (x : byte) : bool :=
  let n := Byte.to_N x in ((lo <=? n) && (n <=? hi))%N.

Fixpoint utf8_valid (b : list byte) : bool :=
  match b with
  | [] => true
  | x :: b1 =>
      let n := Byte.to_N x in
      if (n <? 128)%N then utf8_valid b1
      else if in_range 194 223 x then
        match b1 with
        | y :: b2 => in_range 128 191 y && utf8_valid b2
        | _ => false
        end
      else if in_range 224 239 x then
        match b1 with
        | y :: z :: b3 =>
            in_range (if (n =? 224)%N then 160 else 128)
                     (if (n =? 237)%N then 159 else 191) y
            && in_range 128 191 z && utf8_valid b3
        | _ => false
        end
      else if in_range 240 244 x then
        match b1 with
        | y :: z :: w :: b4 =>
            in_range (if (n =? 240)%N then 144 else 128)
                     (if (n =? 244)%N then 143 else 191) y
            && in_range 128 191 z && in_range 128 191 w && utf8_valid b4
        | _ => false
        end
      else false
  end.

(** [b.decode()] on the bytes of the texts whose code points are below 256,
    which have the lead bytes 0xC2 and 0xC3 only.  [None] is for the
    ill-formed bytes, where Python raises [UnicodeDecodeError], and for the
    well-formed bytes of other texts, which are outside the domain of the
    embedding (Python returns a text with a character from U+0100 on). *)
Fixpoint decode_aux (pending : option N) (b : list byte) : option string :=
  match b with
  | [] => match pending with None => Some EmptyString | Some _ => None end
  | x :: b' =>
      let n := Byte.to_N x in
      match pending with
      | Some hi =>
          if ((128 <=? n) && (n <? 192))%N
          then s ← decode_aux None b';
               Some (String (ascii_of_N (hi * 64 + (n - 128))) s)
          else None
      | None =>
          if (n <? 128)%N
          then s ← decode_aux None b'; Some (String (ascii_of_N n) s)
          else if ((n =? 194) || (n =? 195))%N
          then decode_aux (Some (n - 192)%N) b'
          else None
      end
  end.

Definition decode (b : list byte) : option string := decode_aux None b.

End Py.

(** ** hashlib and hmac: SHA-256 (FIPS 180-4) and HMAC (RFC 2104)

    32-bit words are numbers of [N] reduced modulo 2^32 after every
    addition and left shift. *)

Module Hashlib.
Local Open Scope N_scope.

Definition w32 (x : N) : N := x mod 4294967296.
Definition add32 (x y : N) : N := w32 (x + y).
Definition rotr (n x : N) : N :=
  N.lor (N.shiftr x n) (w32 (N.shiftl x (32 - n))).
Definition not32 (x : N) : N := N.lxor x 0xffffffff.

Definition Ch (x y z : N) : N := N.lxor (N.land x y) (N.land (not32 x) z).
Definition Maj (x y z : N) : N :=
  N.lxor (N.lxor (N.land x y) (N.land x z)) (N.land y z).
Definition bsig0 (x : N) : N := N.lxor (N.lxor (rotr 2 x) (rotr 13 x)) (rotr 22 x).
Definition bsig1 (x : N) : N := N.lxor (N.lxor (rotr 6 x) (rotr 11 x)) (rotr 25 x).
Definition ssig0 (x : N) : N := N.lxor (N.lxor (rotr 7 x) (rotr 18 x)) (N.shiftr x 3).
Definition ssig1 (x : N) : N := N.lxor (N.lxor (rotr 17 x) (rotr 19 x)) (N.shiftr x 10).

(** The constants of FIPS 180-4 are fractional parts of roots of the first
    prime numbers, on 32 bits. *)
Definition is_prime (n : nat) : bool :=
  forallb (fun d => negb (n mod d =? 0)%nat) (seq 2 (n - 2)).

Definition primes_below (n : nat) : list N :=
  map N.of_nat (List.filter is_prime (seq 2 (n - 2))).

(** The largest [r] below [2 ^ bits] whose cube is at most [x], one bit at a
    time from the highest. *)
Fixpoint cube_root_bits (bits : nat) (x r : N) : N :=
  match bits with
  | O => r
  | S b =>
      let r' := r + N.shiftl 1 (N.of_nat b) in
      cube_root_bits b x (if r' * r' * r' <=? x then r' else r)
  end.

Definition cube_root_fraction (p : N) : N :=
  w32 (cube_root_bits 36 (N.shiftl p 96) 0).

Definition square_root_fraction (p : N) : N :=
  w32 (N.sqrt (N.shiftl p 64)).

(** Round constants: the cube roots of the first 64 primes. *)
Definition K256 : list N :=
  Eval vm_compute in map cube_root_fraction (primes_below 312).

(** The eight working variables, and the hash value between blocks. *)
Record state := State { sa : N; sb : N; sc : N; sd : N; se : N; sf : N; sg : N; sh : N }.

(** Initial hash value: the square roots of the first 8 primes. *)
Definition H0 : state :=
  Eval vm_compute in
    match map square_root_fraction (primes_below 20) with
    | [a; b; c; d; e; f; g; h] => State a b c d e f g h
    | _ => State 0 0 0 0 0 0 0 0
    end.

(** Message schedule.  [extend n w] adds [n] words to the schedule [w],
    kept most recent word first. *)
Fixpoint extend (n : nat) (w : list N) : list N :=
  match n with
  | O => w
  | S n' =>
      let x := add32 (add32 (ssig1 (nth 1 w 0)) (nth 6 w 0))
                     (add32 (ssig0 (nth 14 w 0)) (nth 15 w 0)) in
      extend n' (x :: w)
  end.

Definition schedule (block : list N) : list N := rev (extend 48 (rev block)).

Definition round (s : state) (kw : N * N) : state :=
  let t1 := add32 (add32 (add32 (sh s) (bsig1 (se s))) (Ch (se s) (sf s) (sg s)))
                  (add32 (fst kw) (snd kw)) in
  let t2 := add32 (bsig0 (sa s)) (Maj (sa s) (sb s) (sc s)) in
  State (add32 t1 t2) (sa s) (sb s) (sc s) (add32 (sd s) t1) (se s) (sf s) (sg s).

Definition compress (h : state) (block : list N) : state :=
  let s := fold_left round (combine K256 (schedule block)) h in
  State (add32 (sa h) (sa s)) (add32 (sb h) (sb s)) (add32 (sc h) (sc s))
        (add32 (sd h) (sd s)) (add32 (se h) (se s)) (add32 (sf h) (sf s))
        (add32 (sg h) (sg s)) (add32 (sh h) (sh s)).

(** Big-endian conversions. *)
Fixpoint be_word (bs : list byte) (acc : N) : N :=
  match bs with
  | [] => acc
  | b :: bs' => be_word bs' (acc * 256 + Byte.to_N b)
  end.

Fixpoint words_of (n : nat) (bs : list byte) : list N :=
  match n with
  | O => []
  | S n' => be_word (firstn 4 bs) 0 :: words_of n' (skipn 4 bs)
  end.

Definition bytes_of_word (w : N) : list byte :=
  [Py.byte_of_N (N.shiftr w 24); Py.byte_of_N (N.shiftr w 16);
   Py.byte_of_N (N.shiftr w 8); Py.byte_of_N w].

Definition bytes_of_len (bits : N) : list byte :=
  bytes_of_word (N.shiftr bits 32) ++ bytes_of_word bits.

(** Padding: the byte 0x80, zero bytes up to 56 modulo 64, and the length
    in bits on eight bytes. *)
Definition pad (m : list byte) : list byte :=
  let len := List.length m in
  m ++ [x80] ++ repeat x00 ((64 - (len + 9) mod 64) mod 64)%nat
    ++ bytes_of_len (8 * N.of_nat len).

Fixpoint blocks (n : nat) (bs : list byte) (h : state) : state :=
  match n with
  | O => h
  | S n' => blocks n' (skipn 64 bs) (compress h (words_of 16 (firstn 64 bs)))
  end.

(** [hashlib.sha256(m).digest()]. *)
Definition sha256 (m : list byte) : list byte :=
  let p := pad m in
  let s := blocks (List.length p / 64)%nat p H0 in
  bytes_of_word (sa s) ++ bytes_of_word (sb s) ++ bytes_of_word (sc s)
    ++ bytes_of_word (sd s) ++ bytes_of_word (se s) ++ bytes_of_word (sf s)
    ++ bytes_of_word (sg s) ++ bytes_of_word (sh s).

(** Lower-case hexadecimal text of a byte string. *)
Definition hex_digit (n : N) : ascii :=
  if n <? 10 then ascii_of_N (48 + n) else ascii_of_N (87 + n).

Fixpoint hex (bs : list byte) : string :=
  match bs with
  | [] => EmptyString
  | b :: bs' =>
      String (hex_digit (Byte.to_N b / 16))
        (String (hex_digit (Byte.to_N b mod 16)) (hex bs'))
  end.

(** [hashlib.sha256(m).hexdigest()]. *)
Definition sha256_hexdigest (m : list byte) : string := hex (sha256 m).

Definition xor_byte (c : N) (b : byte) : byte := Py.byte_of_N (N.lxor c (Byte.to_N b)).

(** [hmac.new(key, msg, hashlib.sha256).digest()]. *)
Definition hmac_sha256 (key msg : list byte) : list byte :=
  let k := if (64 <? List.length key)%nat then sha256 key else key in
  let k := k ++ repeat x00 (64 - List.length k)%nat in
  sha256 (map (xor_byte 0x5c) k ++ sha256 (map (xor_byte 0x36) k ++ msg)).

End Hashlib.

(** ** Exceptions and results *)

(** The three exception classes that the module raises (all subclasses of
    its [AWS4Exception]) and the built-in ones that escape from it. *)
Inductive exn : Type :=
| InvalidDateError (msg : string)
| MissingHeaderError (msg : string)
| InvalidSignatureError (msg : string)
| KeyError (key : string)
| ValueError
| TypeError
| AttributeError
| OverflowError
| UnicodeDecodeError
| ParserError.

(** [isinstance(e, AWS4Exception)]. *)
Definition is_AWS4Exception (e : exn) : bool :=
  match e with
  | InvalidDateError _ | MissingHeaderError _ | InvalidSignatureError _ => true
  | _ => false
  end.

Inductive result (A : Type) : Type :=
| Return (a : A)
| Raise (e : exn).
Arguments Return {A} a.
Arguments Raise {A} e.

#[global] Instance result_ret : MRet result := fun A a => Return a.
#[global] Instance result_bind : MBind result := fun A B f m =>
  match m with
  | Return a => f a
  | Raise e => Raise e
  end.

(** A value of type [bytes | str | None]. *)
Inductive bytes_or_str : Type :=
| IsNone
| IsBytes (b : list byte)
| IsStr (s : string).

(** ** The header mapping *)

(** A header value is a string or a list (or tuple) of strings. *)
Inductive header_value : Type :=
| Str (s : string)
| Seq (l : list string).

#[global] Instance header_value_eq_dec : EqDecision header_value.
Proof. solve_decision. Defined.

(** [multidict.CIMultiDict]: entries in insertion order, with the key as it
    was given; two keys are the same when their lower-case forms are. *)
Module CIMultiDict.

Definition t : Type := list (string * header_value).

Definition same_key (k1 k2 : string) : bool :=
  bool_decide (Py.lower k1 = Py.lower k2).

(** [h.get(key)]: the value of the first entry for [key]. *)
Fixpoint get (key : string) (h : t) : option header_value :=
  match h with
  | [] => None
  | (k, v) :: h' => if same_key k key then Some v else get key h'
  end.

(** [key in h]. *)
Definition contains (key : string) (h : t) : bool :=
  match get key h with
  | Some _ => true
  | None => false
  end.

(** [h[key]]. *)
Definition getitem (key : string) (h : t) : result header_value :=
  match get key h with
  | Some v => Return v
  | None => Raise (KeyError key)
  end.

(** The entries of [h] for other keys than [key]. *)
Definition others (key : string) (h : t) : t :=
  List.filter (fun kv => negb (same_key kv.1 key)) h.

(** [h[key] = v]: the first entry for [key] is replaced and the later ones
    are removed; without one, the entry is added at the end. *)
Fixpoint setitem (key : string) (v : header_value) (h : t) : t :=
  match h with
  | [] => [(key, v)]
  | (k, w) :: h' =>
      if same_key k key then (key, v) :: others key h'
      else (k, w) :: setitem key v h'
  end.

(** [h.items()]. *)
Definition items (h : t) : list (string * header_value) := h.

End CIMultiDict.

(** ** datetime *)

(** A [datetime.datetime]: the calendar fields and, for an aware value, the
    offset of its time zone from UTC, [utcoffset()], in microseconds (an
    offset is a [timedelta], of that resolution). *)
Record datetime : Type := Datetime {
  year : Z; month : Z; day : Z;
  hour : Z; minute : Z; second : Z; microsecond : Z;
  tzinfo : option Z
}.

Module DT.
Local Open Scope Z_scope.

(** Days from 1970-01-01 to a date of the proleptic Gregorian calendar, and
    back. *)
Definition days_from_civil (y m d : Z) : Z :=
  let y := if m <=? 2 then y - 1 else y in
  let era := y / 400 in
  let yoe := y - era * 400 in
  let mp := (m + 9) mod 12 in
  let doy := (153 * mp + 2) / 5 + d - 1 in
  let doe := yoe * 365 + yoe / 4 - yoe / 100 + doy in
  era * 146097 + doe - 719468.

Definition civil_from_days (z : Z) : Z * Z * Z :=
  let z := z + 719468 in
  let era := z / 146097 in
  let doe := z - era * 146097 in
  let yoe := (doe - doe / 1460 + doe / 36524 - doe / 146096) / 365 in
  let doy := doe - (365 * yoe + yoe / 4 - yoe / 100) in
  let mp := (5 * doy + 2) / 153 in
  let d := doy - (153 * mp + 2) / 5 + 1 in
  let m := if mp <? 10 then mp + 3 else mp - 9 in
  let y := yoe + era * 400 in
  (if m <=? 2 then y + 1 else y, m, d).

(** Seconds from 1970-01-01T00:00:00 to the calendar fields of [v], read
    without a time zone. *)
Definition wall_seconds (v : datetime) : Z :=
  days_from_civil (year v) (month v) (day v) * 86400
  + hour v * 3600 + minute v * 60 + second v.

(** [v.astimezone(datetime.timezone.utc)] for an aware [v] of offset [off]:
    the offset is taken from the fields of [v], to the microsecond; a year
    outside 1..9999 is an [OverflowError]. *)
Definition astimezone_utc (v : datetime) (off : Z) : result datetime :=
  let t := wall_seconds v * 1000000 + microsecond v - off in
  let s := t / 1000000 in
  let '(y, m, d) := civil_from_days (s / 86400) in
  let r := s mod 86400 in
  if (1 <=? y) && (y <=? 9999)
  then Return (Datetime y m d (r / 3600) (r mod 3600 / 60) (r mod 60)
                        (t mod 1000000) (Some 0))
  else Raise OverflowError.

(** [v.replace(tzinfo=None)]. *)
Definition replace_tzinfo_none (v : datetime) : datetime :=
  Datetime (year v) (month v) (day v) (hour v) (minute v) (second v)
           (microsecond v) None.

(** The decimal digits of [n] on [w] places, with leading zeros. *)
Fixpoint zfill (w : nat) (n : Z) : string :=
  match w with
  | O => EmptyString
  | S w' => zfill w' (n / 10) ++ String (ascii_of_N (48 + Z.to_N (n mod 10))) EmptyString
  end.

(** [%Y] of [strftime]: the year in decimal as the C library writes it,
    without padding, so that a year below 1000 has fewer than four digits
    (a year is between 1 and 9999). *)
Definition strftime_Y (y : Z) : string :=
  if y <? 10 then zfill 1 y
  else if y <? 100 then zfill 2 y
  else if y <? 1000 then zfill 3 y
  else zfill 4 y.

(** [v.strftime("%Y%m%d")] and [v.strftime("%Y%m%dT%H%M%SZ")]; [%m], [%d],
    [%H], [%M] and [%S] are two digits. *)
Definition strftime_Ymd (v : datetime) : string :=
  strftime_Y (year v) ++ zfill 2 (month v) ++ zfill 2 (day v).

Definition strftime_YmdTHMSZ (v : datetime) : string :=
  strftime_Ymd v ++ "T" ++ zfill 2 (hour v) ++ zfill 2 (minute v)
    ++ zfill 2 (second v) ++ "Z".

(** The instant of an aware datetime of offset [off], in microseconds from
    1970-01-01T00:00:00Z. *)
Definition instant (v : datetime) (off : Z) : Z :=
  wall_seconds v * 1000000 + microsecond v - off.

End DT.

(** ** Functions of other packages *)

(** The result of [urllib.parse.urlparse], as far as the module reads it. *)
Record ParseResult : Type := {
  scheme : string;
  path : string;
  query : bytes_or_str
}.

(** [urllib.parse.urlparse] and [dateutil.parser.parse], which the module
    calls and which are defined elsewhere. *)
Class Collaborators : Type := {
  urlparse : string -> result ParseResult;
  parser_parse : string -> result datetime
}.

(** [urllib.parse.quote(resource, safe=safe)]: the bytes of the UTF-8 text
    other than letters, digits, [_.-~] and the characters of [safe] become
    [%XX]. *)
Definition quote_safe_byte (safe : string) (n : N) : bool :=
  ((65 <=? n) && (n <=? 90) || (97 <=? n) && (n <=? 122)
   || (48 <=? n) && (n <=? 57)
   || (n =? 95) || (n =? 46) || (n =? 45) || (n =? 126))%N
  || ((n <? 128)%N && Py.has_char (ascii_of_N n) safe).

Definition upper_hex_digit (n : N) : ascii :=
  if (n <? 10)%N then ascii_of_N (48 + n) else ascii_of_N (55 + n).

Fixpoint quote_bytes (safe : string) (bs : list byte) : string :=
  match bs with
  | [] => EmptyString
  | b :: bs' =>
      let n := Byte.to_N b in
      if quote_safe_byte safe n
      then String (ascii_of_N n) (quote_bytes safe bs')
      else String "%" (String (upper_hex_digit (n / 16))
             (String (upper_hex_digit (n mod 16)) (quote_bytes safe bs')))
  end.

Definition urllib_parse_quote (resource safe : string) : string :=
  quote_bytes safe (Py.encode resource).

(** ** The module aws4 *)

(** [_MULTI_SPACE_REGEX.sub(" ", value)] for the pattern [( +)]: the scan
    copies characters up to a space; there the pattern matches the longest
    run of spaces, which is replaced by one space, and the scan goes on after
    the run. *)
Fixpoint _MULTI_SPACE_REGEX_sub (value : string) : string :=
  match value with
  | EmptyString => EmptyString
  | String c rest =>
      if Ascii.eqb c " "
      then String " " (skip_match rest)
      else String c (_MULTI_SPACE_REGEX_sub rest)
  end
with skip_match (value : string) : string :=
  match value with
  | EmptyString => EmptyString
  | String c rest =>
      if Ascii.eqb c " "
      then skip_match rest
      else String c (_MULTI_SPACE_REGEX_sub rest)
  end.

(** The newline character. *)
Definition LF : string := String "010" EmptyString.

(** Components of a challenge for validation. *)
Record Challenge : Type := {
  scope : string;
  string_to_sign : string;
  signature : string;
  access_key_id : option string
}.

(** Python's order on tuples of two strings and on lists of strings, by
    which [sorted] arranges them. *)
Definition tuple_leb (x y : string * string) : bool :=
  match String.compare x.1 y.1 with
  | Lt => true
  | Eq => String.leb x.2 y.2
  | Gt => false
  end.

Fixpoint list_leb (l1 l2 : list string) : bool :=
  match l1, l2 with
  | [], _ => true
  | _ :: _, [] => false
  | x :: l1', y :: l2' =>
      match String.compare x y with
      | Lt => true
      | Eq => list_leb l1' l2'
      | Gt => false
      end
  end.

Definition tuple_le (x y : string * string) : Prop := tuple_leb x y.
Definition list_le (l1 l2 : list string) : Prop := list_leb l1 l2.

#[global] Instance tuple_le_dec : RelDecision tuple_le.
Proof. intros x y. unfold tuple_le. apply _. Defined.
#[global] Instance list_le_dec : RelDecision list_le.
Proof. intros x y. unfold list_le. apply _. Defined.

(** [d[key]] for a dict. *)
Definition dict_getitem (d : gmap string string) (key : string) : result string :=
  match d !! key with
  | Some v => Return v
  | None => Raise (KeyError key)
  end.

(** Extract credentials from AWS4 authorization header. *)
Definition _parse_authorization (authorization : string)
  : result (string * string * string * string) :=
  let '(auth_type, _, credentials) := Py.partition " " authorization in
  let parts := Py.split ", " credentials in
  let data :=
    fold_left
      (fun (data : gmap string string) part =>
         let '(k, _, v) := Py.partition "=" part in
         <[Py.lower k := v]> data)
      parts ∅ in
  credential ← dict_getitem data "credential";
  signedheaders ← dict_getitem data "signedheaders";
  signature ← dict_getitem data "signature";
  mret (auth_type, credential, signedheaders, signature).

(** [abs(delta.total_seconds()) > n] for a difference of [delta_us]
    microseconds.  [total_seconds] is the correctly rounded quotient of the
    integer [delta_us] by 10^6, and a whole [n] is a floating-point number,
    so the comparison holds exactly when it holds of the integers. *)
Definition abs_total_seconds_gt (delta_us n : Z) : bool :=
  (n * 1000000 <? Z.abs delta_us)%Z.

(** Extract date header and check for drift/replay attacks.  [now] is the
    reading of the clock, [datetime.now(timezone.utc)], in microseconds from
    1970-01-01T00:00:00Z; subtracting a naive datetime from it is a
    [TypeError], as is parsing a value that is not a string. *)
Definition _parse_key_date `{Collaborators} (now : Z) (headers : CIMultiDict.t)
  : result string :=
  match CIMultiDict.get "x-amz-date" headers with
  | None => Raise (MissingHeaderError "Missing supported date header")
  | Some (Seq _) => Raise TypeError
  | Some (Str key_date) =>
      header ← parser_parse key_date;
      match tzinfo header with
      | None => Raise TypeError
      | Some off =>
          let delta := (now - DT.instant header off)%Z in
          if abs_total_seconds_gt delta 5
          then Raise (InvalidDateError "Replay/drift detected in date.")
          else Return key_date
      end
  end.

(** Compute SHA-256 of data and return hash as hex encoded value.
    [hexdigest] gives a [str], so the final conversion of the source leaves
    it as it is. *)
Definition sha256_hash (data : bytes_or_str) : string :=
  let data :=
    match data with
    | IsNone | IsBytes [] | IsStr EmptyString => IsBytes []
    | _ => data
    end in
  let data_ :=
    match data with
    | IsStr s => Py.encode s
    | IsBytes b => b
    | IsNone => []
    end in
  Hashlib.sha256_hexdigest data_.

(** Generate HMacSHA256 digest of given key and data: the digest, or its
    hexadecimal text when [hexdigest] is set. *)
Definition _hmac_hash (key data : list byte) (hexdigest : bool)
  : if hexdigest then string else list byte :=
  match hexdigest with
  | true => Hashlib.hex (Hashlib.hmac_sha256 key data)
  | false => Hashlib.hmac_sha256 key data
  end.

(** [urllib.parse.quote(resource, safe="/")], with every "%7E" put back to
    "~"; the module calls it with the default [safe], encoding and errors. *)
Definition _quote (resource : string) : string :=
  Py.replace "%7E" "~" (urllib_parse_quote resource "/").

(** Convert to UTC time if value is not naive. *)
Definition _to_utc (value : datetime) : result datetime :=
  match tzinfo value with
  | Some off => v ← DT.astimezone_utc value off; mret (DT.replace_tzinfo_none v)
  | None => Return value
  end.

(** Format datetime into AMZ date formatted string. *)
Definition to_amz_date (value : datetime) : result string :=
  v ← _to_utc value; mret (DT.strftime_YmdTHMSZ v).

(** Format datetime into SignatureV4 date formatted string. *)
Definition to_signer_date (value : datetime) : result string :=
  v ← _to_utc value; mret (DT.strftime_Ymd v).

(** [values if isinstance(values, (list, tuple)) else [values]]. *)
Definition values_list (values : header_value) : list string :=
  match values with
  | Seq l => l
  | Str s => [s]
  end.

(** The value of a canonical header: its values with their runs of spaces
    replaced, joined by commas. *)
Definition canonical_value (values : header_value) : string :=
  Py.join "," (map _MULTI_SPACE_REGEX_sub (values_list values)).

(** The names that full mode leaves out. *)
Definition excluded_headers : list string :=
  ["authorization"; "user-agent"; "accept"; "accept-encoding"; "connection"].

(** [sorted(d.items())] for a dict of strings. *)
Definition sorted_items (d : gmap string string) : list (string * string) :=
  merge_sort tuple_le (map_to_list d).

(** [f"{key}:{value}"]. *)
Definition header_line (kv : string * string) : string := kv.1 ++ ":" ++ kv.2.

(** The dict that the loop of [_generate_canonical_headers] fills. *)
Definition full_dict (headers : CIMultiDict.t) : gmap string string :=
  fold_left
    (fun (canonical_headers : gmap string string) kv =>
       let key_ := Py.lower kv.1 in
       if bool_decide (key_ ∉ excluded_headers)
       then <[key_ := canonical_value kv.2]> canonical_headers
       else canonical_headers)
    (CIMultiDict.items headers) ∅.

(** Get canonical headers: the canonical header block and the signed-header
    list. *)
Definition _generate_canonical_headers (headers : CIMultiDict.t) : string * string :=
  let canonical_headers := sorted_items (full_dict headers) in
  let signed_headers := Py.join ";" (map fst canonical_headers) in
  let canonical_headers := Py.join LF (map header_line canonical_headers) in
  (canonical_headers, signed_headers).

(** The dict that the loop of [_recreate_canonical_headers] fills. *)
Definition restricted_dict (headers : CIMultiDict.t) (signed_headers_ : list string)
  : gmap string string :=
  fold_left
    (fun (canonical_headers : gmap string string) kv =>
       let key_ := Py.lower kv.1 in
       if bool_decide (key_ ∈ signed_headers_)
       then <[key_ := canonical_value kv.2]> canonical_headers
       else canonical_headers)
    (CIMultiDict.items headers) ∅.

(** Generate canonical headers from SignedHeaders. *)
Definition _recreate_canonical_headers (headers : CIMultiDict.t) (signed_headers : string)
  : string :=
  let signed_headers_ := Py.split ";" signed_headers in
  let canonical_headers := sorted_items (restricted_dict headers signed_headers_) in
  Py.join LF (map header_line canonical_headers).

(** Get canonical query string.  A query in bytes is decoded first; see
    [Py.decode] for the bytes that the embedding reads. *)
Definition _generate_canonical_query_string (query : bytes_or_str) : result string :=
  let query :=
    match query with
    | IsNone | IsBytes [] | IsStr EmptyString => IsStr EmptyString
    | _ => query
    end in
  query_ ← match query with
            | IsBytes b =>
                match Py.decode b with
                | Some s => Return s
                | None => Raise UnicodeDecodeError
                end
            | IsStr s => Return s
            | IsNone => Return EmptyString
            end;
  mret (Py.join "&"
          (map (Py.join "=")
             (merge_sort list_le (map (Py.split "=") (Py.split "&" query_))))).

(** [url.path or "/"]. *)
Definition path_or_slash (url : ParseResult) : string :=
  match path url with
  | EmptyString => "/"
  | p => p
  end.

(** The canonical request, which both functions below build and hash. *)
Definition canonical_request (method path canonical_query_string canonical_headers
                              signed_headers content_sha256 : string) : string :=
  method ++ LF ++ path ++ LF ++ canonical_query_string ++ LF
    ++ canonical_headers ++ LF ++ LF ++ signed_headers ++ LF ++ content_sha256.

(** Get canonical request hash, and the signed-header list. *)
Definition _generate_canonical_request_hash (method : string) (url : ParseResult)
    (headers : CIMultiDict.t) (content_sha256 : string) : result (string * string) :=
  let '(canonical_headers, signed_headers) := _generate_canonical_headers headers in
  canonical_query_string ← _generate_canonical_query_string (query url);
  let path := _quote (path_or_slash url) in
  let canonical_request :=
    canonical_request method path canonical_query_string canonical_headers
      signed_headers content_sha256 in
  mret (sha256_hash (IsStr canonical_request), signed_headers).

(** Recreate canonical request hash. *)
Definition _recreate_canonical_request_hash (method : string) (url : ParseResult)
    (headers : CIMultiDict.t) (signed_headers content_sha256 : string) : result string :=
  let canonical_headers := _recreate_canonical_headers headers signed_headers in
  canonical_query_string ← _generate_canonical_query_string (query url);
  let path := _quote (path_or_slash url) in
  let canonical_request :=
    canonical_request method path canonical_query_string canonical_headers
      signed_headers content_sha256 in
  mret (sha256_hash (IsStr canonical_request)).

(** [a, b = l] and [a, b, c = l]: unpacking a list of another length is a
    [ValueError]. *)
Definition unpack2 (l : list string) : result (string * string) :=
  match l with
  | [a; b] => Return (a, b)
  | _ => Raise ValueError
  end.

Definition unpack3 (l : list string) : result (string * string * string) :=
  match l with
  | [a; b; c] => Return (a, b, c)
  | _ => Raise ValueError
  end.

(** Generate a challenge from request components.  [url] is a parsed URL;
    an [Authorization] value that is not a string has no [partition]. *)
Definition generate_challenge `{Collaborators} (now : Z) (method : string)
    (url : ParseResult) (headers : CIMultiDict.t) (content : bytes_or_str)
  : result Challenge :=
  authorization ← CIMultiDict.getitem "Authorization" headers;
  authorization ← match authorization with
                   | Str s => Return s
                   | Seq _ => Raise AttributeError
                   end;
  '(auth_type, credential, signed_headers, signature) ← _parse_authorization authorization;
  let content_sha256 :=
    if bool_decide (default (Str "UNSIGNED-PAYLOAD")
                      (CIMultiDict.get "x-amz-content-sha256" headers)
                    ≠ Str "UNSIGNED-PAYLOAD")
    then sha256_hash content
    else "UNSIGNED-PAYLOAD" in
  '(access_key_id, scope) ← unpack2 (Py.split_max1 "/" credential);
  '(date, region, service_name) ← unpack3 (removelast (Py.split "/" scope));
  key_date ← _parse_key_date now headers;
  canonical_request_hash ←
    _recreate_canonical_request_hash method url headers signed_headers content_sha256;
  let string_to_sign :=
    (auth_type ++ LF ++ key_date ++ LF ++ scope ++ LF ++ canonical_request_hash)%string in
  mret {| scope := scope; string_to_sign := string_to_sign;
          signature := signature; access_key_id := Some access_key_id |}.

(** Generate a signing key. *)
Definition generate_signing_key (secret_access_key date region service_name : string)
  : list byte :=
  let date_key :=
    _hmac_hash (Py.encode ("AWS4" ++ secret_access_key)) (Py.encode date) false in
  let date_region_key := _hmac_hash date_key (Py.encode region) false in
  let date_region_service_key :=
    _hmac_hash date_region_key (Py.encode service_name) false in
  _hmac_hash date_region_service_key (Py.encode "aws4_request") false.

(** Generate signature. *)
Definition generate_signature (signing_key : list byte) (string_to_sign : string)
  : string :=
  _hmac_hash signing_key (Py.encode string_to_sign) true.

(** Validate a provided challenge was signed by provided secret key. *)
Definition validate_challenge (challenge : Challenge) (secret_access_key : string)
  : result unit :=
  '(date, region, service_name) ← unpack3 (removelast (Py.split "/" (scope challenge)));
  let signing_key := generate_signing_key secret_access_key date region service_name in
  let signature_ := generate_signature signing_key (string_to_sign challenge) in
  if bool_decide (signature_ ≠ signature challenge)
  then Raise (InvalidSignatureError "Invalid signature")
  else Return ().

(** Sign request components with given access key pair.  The header mapping
    is changed in place: the first component of the result is the caller's
    mapping when the call ends, the second what the call returns or
    raises. *)
Definition sign_request `{Collaborators} (service_name method url region : string)
    (headers : CIMultiDict.t) (content : bytes_or_str)
    (access_key_id secret_access_key : string) (date : datetime)
  : CIMultiDict.t * result CIMultiDict.t :=
  match urlparse url with
  | Raise e => (headers, Raise e)
  | Return url =>
      let content_sha256 :=
        if bool_decide (scheme url = "http") then sha256_hash content
        else "UNSIGNED-PAYLOAD" in
      let content_header := "x-amz-content-sha256" in
      let headers :=
        if negb (CIMultiDict.contains content_header headers)
        then CIMultiDict.setitem content_header (Str content_sha256) headers
        else headers in
      let authorization :=
        signer_date ← to_signer_date date;
        let scope :=
          (signer_date ++ "/" ++ region ++ "/" ++ service_name ++ "/aws4_request")%string in
        '(canonical_request_hash, signed_headers) ←
          _generate_canonical_request_hash method url headers content_sha256;
        amz_date ← to_amz_date date;
        let string_to_sign :=
          ("AWS4-HMAC-SHA256" ++ LF ++ amz_date ++ LF ++ scope ++ LF
             ++ canonical_request_hash)%string in
        signer_date ← to_signer_date date;
        let signing_key :=
          generate_signing_key secret_access_key signer_date region service_name in
        let signature := generate_signature signing_key string_to_sign in
        mret ("AWS4-HMAC-SHA256 Credential=" ++ access_key_id ++ "/" ++ scope
                ++ ", SignedHeaders=" ++ signed_headers
                ++ ", Signature=" ++ signature)%string in
      match authorization with
      | Raise e => (headers, Raise e)
      | Return authorization =>
          let headers := CIMultiDict.setitem "Authorization" (Str authorization) headers in
          (headers, Return headers)
      end
  end.

(** ** Instances of the other packages' functions for the examples *)

(** URLs of the form [scheme://netloc/path?query]. *)
Definition simple_urlparse (url : string) : result ParseResult :=
  let '(scheme, _, rest) := Py.partition "://" url in
  let '(front, _, query) := Py.partition "?" rest in
  let '(_, slash, path) := Py.partition "/" front in
  Return {| scheme := scheme; path := slash ++ path; query := IsStr query |}.

Definition digit_value (c : ascii) : option Z :=
  let n := N_of_ascii c in
  if ((48 <=? n) && (n <=? 57))%N then Some (Z.of_N n - 48)%Z else None.

Fixpoint number (s : string) (acc : Z) : option Z :=
  match s with
  | EmptyString => Some acc
  | String c s' => d ← digit_value c; number s' (acc * 10 + d)%Z
  end.

(** Dates of the form [YYYYMMDDTHHMMSSZ], read as UTC. *)
Definition amz_parser_parse (s : string) : result datetime :=
  match String.length s, String.get 8 s, String.get 15 s with
  | 16%nat, Some "T"%char, Some "Z"%char =>
      match number (substring 0 4 s) 0, number (substring 4 2 s) 0,
            number (substring 6 2 s) 0, number (substring 9 2 s) 0,
            number (substring 11 2 s) 0, number (substring 13 2 s) 0 with
      | Some y, Some m, Some d, Some h, Some mi, Some se =>
          Return (Datetime y m d h mi se 0 (Some 0%Z))
      | _, _, _, _, _, _ => Raise ParserError
      end
  | _, _, _ => Raise ParserError
  end.

Definition simple_collaborators : Collaborators :=
  {| urlparse := simple_urlparse; parser_parse := amz_parser_parse |}.

(** ** Definitions of the statements *)

(** The chain of the key derivation: starting from the key [k0], each
    constant in turn is authenticated under the key obtained so far. *)
Definition hmac_chain (k0 : list byte) (constants : list string) : list byte :=
  fold_left (fun k c => Hashlib.hmac_sha256 k (Py.encode c)) constants k0.

(** The key, in lower case, and the value of a [key=value] pair cut at its
    first "=". *)
Definition key_value (part : string) : string * string :=
  let '(k, _, v) := Py.partition "=" part in (Py.lower k, v).

(** The value that a list of [key=value] pairs gives to [name]: that of the
    last pair whose key is [name] without regard to case. *)
Fixpoint field (name : string) (parts : list string) : option string :=
  match parts with
  | [] => None
  | part :: parts' =>
      match field name parts' with
      | Some v => Some v
      | None =>
          if bool_decide ((key_value part).1 = name)
          then Some (key_value part).2
          else None
      end
  end.

(** The values of the last entry of [headers] whose name in lower case is
    [name]. *)
Fixpoint last_value (name : string) (headers : CIMultiDict.t) : option header_value :=
  match headers with
  | [] => None
  | (key, values) :: headers' =>
      match last_value name headers' with
      | Some v => Some v
      | None => if bool_decide (Py.lower key = name) then Some values else None
      end
  end.

(** A run of [n] spaces. *)
Fixpoint spaces (n : nat) : string :=
  match n with
  | O => EmptyString
  | S n' => String " " (spaces n')
  end.

(** Strictly ascending order of strings by code point. *)
Definition string_lt (s1 s2 : string) : Prop := String.compare s1 s2 = Lt.

(** The canonical query string by the words of the specification: each pair
    is cut at its first "=" into a name and a value, the pairs are sorted by
    name and then by value, and joined again; an empty query gives the empty
    string. *)
Definition name_value (pair : string) : string * string :=
  let '(name, _, value) := Py.partition "=" pair in (name, value).

Definition claimed_canonical_query_string (query : string) : string :=
  match query with
  | EmptyString => EmptyString
  | _ =>
      Py.join "&"
        (map (fun nv : string * string => (nv.1 ++ "=" ++ nv.2)%string)
           (merge_sort tuple_le (map name_value (Py.split "&" query))))
  end.

(** The same with the pairs sorted as whole strings. *)
Definition whole_pair_canonical_query_string (query : string) : string :=
  Py.join "&" (merge_sort String.le (Py.split "&" query)).

(** The order in which [_generate_canonical_query_string] leaves two pairs:
    that of their lists of components between "=" signs. *)
Definition pair_le (p1 p2 : string) : Prop :=
  list_le (Py.split "=" p1) (Py.split "=" p2).

(** The entries of a header mapping for [key], in order, and its entries for
    other names than Authorization and x-amz-content-sha256. *)
Definition entries_for (key : string) (h : CIMultiDict.t) : CIMultiDict.t :=
  List.filter (fun kv => CIMultiDict.same_key kv.1 key) h.

Definition other_entries (h : CIMultiDict.t) : CIMultiDict.t :=
  List.filter
    (fun kv => negb (CIMultiDict.same_key kv.1 "Authorization")
               && negb (CIMultiDict.same_key kv.1 "x-amz-content-sha256"))
    h.

(** Signing a request, extracting the challenge of the signed request (with
    the URL parsed, as [generate_challenge] takes it) and validating it with
    the same secret; [now] is the time of the extraction. *)
Definition round_trip `{Collaborators} (now : Z)
    (service_name method url region : string)
    (headers : CIMultiDict.t) (content : bytes_or_str)
    (access_key_id secret_access_key : string) (date : datetime) : result unit :=
  signed ← (sign_request service_name method url region headers content
              access_key_id secret_access_key date).2;
  parsed_url ← urlparse url;
  challenge ← generate_challenge now method parsed_url signed content;
  validate_challenge challenge secret_access_key.

(** ** Data of the repository's tests *)

(** The challenge of [test_validate_challenge]. *)
Definition test_string_to_sign : string :=
  "AWS4-HMAC-SHA256" ++ LF ++ "20230809T010203Z" ++ LF
    ++ "20230809/ksa/service/aws4_request" ++ LF
    ++ "651c1a60e695ffb695a3eb972fe3a661c97d7fb573b8d0bbfb439a7879fd952e".

Definition test_challenge (access_key_id : option string) : Challenge :=
  {| scope := "20230809/ksa/service/aws4_request";
     string_to_sign := test_string_to_sign;
     signature := "342103018e8cccefa7bd30ec2f41cbb9f9c5e5c9e9e9b434b773b95dc7dd5cbc";
     access_key_id := access_key_id |}.

(** The request of [test_generate_challenge], and the time at which the test
    freezes the clock, 2023-08-09T01:02:03Z. *)
Definition test_now : Z := 1691542923000000.

Definition test_headers : CIMultiDict.t :=
  [("foo", Str "hello    world");
   ("BaZ", Str "wut");
   ("Authorization",
    Str "AWS4-HMAC-SHA256 Credential=access-key/20230809/ksa/service/aws4_request, SignedHeaders=baz;foo, Signature=342103018e8cccefa7bd30ec2f41cbb9f9c5e5c9e9e9b434b773b95dc7dd5cbc");
   ("x-amz-date", Str "20230809T010203Z");
   ("x-amz-content-sha256",
    Str "651c1a60e695ffb695a3eb972fe3a661c97d7fb573b8d0bbfb439a7879fd952e")].

Definition test_url : ParseResult :=
  {| scheme := "http"; path := "/my/path"; query := IsBytes (Py.encode "foo=bar") |}.

(** The headers of that request before it is signed, with its date, and the
    timestamp given to the signer. *)
Definition unsigned_headers : CIMultiDict.t :=
  [("foo", Str "hello    world");
   ("BaZ", Str "wut");
   ("x-amz-date", Str "20230809T010203Z")].

Definition test_date : datetime := Datetime 2023 8 9 1 2 3 0 None.

(** [all(p(c) for c in s)]. *)
Fixpoint all_chars (p : ascii -> bool) (s : string) : bool :=
  match s with
  | EmptyString => true
  | String c s' => p c && all_chars p s'
  end.

(** The characters of lower-case hexadecimal text, and decimal digits. *)
Definition is_lower_hex (c : ascii) : bool :=
  let n := N_of_ascii c in
  ((48 <=? n) && (n <=? 57) || (97 <=? n) && (n <=? 102))%N.

Definition is_digit (c : ascii) : bool :=
  let n := N_of_ascii c in ((48 <=? n) && (n <=? 57))%N.

(** The characters that [_quote] keeps: letters, digits, [_.-~] and "/";
    and the characters of its results, which add "%" and the capital
    hexadecimal digits (these are letters and digits already). *)
Definition quote_kept (c : ascii) : bool :=
  let n := N_of_ascii c in
  ((65 <=? n) && (n <=? 90) || (97 <=? n) && (n <=? 122)
   || (48 <=? n) && (n <=? 57)
   || (n =? 95) || (n =? 46) || (n =? 45) || (n =? 126) || (n =? 47))%N.

Definition quote_result_char (c : ascii) : bool :=
  quote_kept c || Ascii.eqb c "%".

(** The dates of the calendar, as [datetime] accepts them. *)
Definition is_leap (y : Z) : bool :=
  ((y mod 4 =? 0) && (negb (y mod 100 =? 0) || (y mod 400 =? 0)))%Z.

Definition days_in_month (y m : Z) : Z :=
  if (m =? 2)%Z then (if is_leap y then 29 else 28)%Z
  else if ((m =? 4) || (m =? 6) || (m =? 9) || (m =? 11))%Z then 30%Z
  else 31%Z.

Definition valid_date (y m d : Z) : Prop :=
  (1 <= m <= 12 /\ 1 <= d <= days_in_month y m)%Z.

Definition valid_datetime (v : datetime) : Prop :=
  (1 <= year v <= 9999)%Z
  /\ valid_date (year v) (month v) (day v)
  /\ (0 <= hour v < 24 /\ 0 <= minute v < 60 /\ 0 <= second v < 60
      /\ 0 <= microsecond v < 1000000)%Z.

(** [p] holds of the [n] integers from [lo] on. *)
Fixpoint forall_range (p : Z -> bool) (lo : Z) (n : positive) : bool :=
  match n with
  | xH => p lo
  | xO n' => forall_range p lo n' && forall_range p (lo + Zpos n')%Z n'
  | xI n' =>
      p lo && forall_range p (lo + 1)%Z n' && forall_range p (lo + 1 + Zpos n')%Z n'
  end.

(** The two conversions of the calendar undo each other, on a day of the
    400 years from 0000-03-01 and on a date of the years 0 to 399. *)
Definition day_round_trip (z : Z) : bool :=
  let '(y, m, d) := DT.civil_from_days z in
  (DT.days_from_civil y m d =? z)%Z
  && (1 <=? m)%Z && (m <=? 12)%Z && (1 <=? d)%Z && (d <=? days_in_month y m)%Z.

Definition date_round_trip (y m d : Z) : bool :=
  negb (d <=? days_in_month y m)%Z
  || match DT.civil_from_days (DT.days_from_civil y m d) with
     | (y', m', d') => ((y' =? y) && (m' =? m) && (d' =? d))%Z
     end.

(** The Authorization value that [sign_request] computes from the parsed
    URL, the canonical query string, the timestamp in UTC, the payload hash
    and the dict of the canonical headers. *)
Definition signer_authorization (service_name method region access_key secret_key : string)
    (u : ParseResult) (canonical_query_string : string) (utc : datetime)
    (content_sha256 : string) (d : gmap string string) : string :=
  let items := sorted_items d in
  let signed_headers := Py.join ";" (map fst items) in
  let scope :=
    (DT.strftime_Ymd utc ++ "/" ++ region ++ "/" ++ service_name ++ "/aws4_request")%string in
  let canonical_request_hash :=
    sha256_hash
      (IsStr (canonical_request method (_quote (path_or_slash u)) canonical_query_string
                (Py.join LF (map header_line items)) signed_headers content_sha256)) in
  let string_to_sign :=
    ("AWS4-HMAC-SHA256" ++ LF ++ DT.strftime_YmdTHMSZ utc ++ LF ++ scope ++ LF
       ++ canonical_request_hash)%string in
  let signature :=
    generate_signature
      (generate_signing_key secret_key (DT.strftime_Ymd utc) region service_name)
      string_to_sign in
  ("AWS4-HMAC-SHA256 Credential=" ++ (access_key ++ "/" ++ scope)
     ++ ", SignedHeaders=" ++ signed_headers ++ ", Signature=" ++ signature)%string.

(** The payload hash of the signer, and the mapping after it has set the
    x-amz-content-sha256 header. *)
Definition signer_content_sha256 (u : ParseResult) (content : bytes_or_str) : string :=
  if bool_decide (scheme u = "http") then sha256_hash content else "UNSIGNED-PAYLOAD".

Definition signer_headers (u : ParseResult) (content : bytes_or_str)
    (headers : CIMultiDict.t) : CIMultiDict.t :=
  if CIMultiDict.contains "x-amz-content-sha256" headers then headers
  else CIMultiDict.setitem "x-amz-content-sha256" (Str (signer_content_sha256 u content))
         headers.

(** * Properties *)

(** ** SHA-256 and HMAC *)

Lemma sha256_length (m : list byte) : List.length (Hashlib.sha256 m) = 32%nat.
Proof.
  unfold Hashlib.sha256.
  generalize (Hashlib.blocks (List.length (Hashlib.pad m) / 64) (Hashlib.pad m) Hashlib.H0).
  intros s. rewrite !length_app. reflexivity.
Qed.

Lemma hmac_sha256_length (key msg : list byte) :
  List.length (Hashlib.hmac_sha256 key msg) = 32%nat.
Proof. unfold Hashlib.hmac_sha256. apply sha256_length. Qed.

Lemma hex_length (bs : list byte) :
  String.length (Hashlib.hex bs) = (2 * List.length bs)%nat.
Proof. induction bs as [|b bs IH]; simpl; [reflexivity | rewrite IH; lia]. Qed.

Example sha256_of_empty :
  Hashlib.sha256_hexdigest [] = "e3b0c44298fc1c149afbf4c8996fb92427ae41e4649b934ca495991b7852b855".
Proof. vm_compute. reflexivity. Qed.

Example sha256_of_abc :
  Hashlib.sha256_hexdigest (Py.encode "abc")
  = "ba7816bf8f01cfea414140de5dae2223b00361a396177a9cb410ff61f20015ad".
Proof. vm_compute. reflexivity. Qed.

Example sha256_of_two_blocks :
  Hashlib.sha256_hexdigest
    (Py.encode "abcdbcdecdefdefgefghfghighijhijkijkljklmklmnlmnomnopnopq")
  = "248d6a61d20638b8e5c026930c3e6039a33ce45964ff2167f6ecedd419db06c1".
Proof. vm_compute. reflexivity. Qed.

Example hmac_sha256_of_fox :
  Hashlib.hex (Hashlib.hmac_sha256 (Py.encode "key")
                 (Py.encode "The quick brown fox jumps over the lazy dog"))
  = "f7bc83f430538424b13298e6aa6fb143ef4d59a14946175997479dbc2d1a3cd8".
Proof. vm_compute. reflexivity. Qed.

(** ** Key derivation *)

(** C2.  For every secret, date, region and service name,
    [generate_signing_key] is the four-step HMAC-SHA256 chain
    k1 = HMAC("AWS4" + secret, date), k2 = HMAC(k1, region),
    k3 = HMAC(k2, service), result = HMAC(k3, "aws4_request"): the chain
    from the key "AWS4" + secret through the constants date, region, service
    and, last, the literal "aws4_request"; the result has 32 bytes. *)
Theorem generate_signing_key_chain (secret date region service : string) :
  let k1 := Hashlib.hmac_sha256 (Py.encode ("AWS4" ++ secret)) (Py.encode date) in
  let k2 := Hashlib.hmac_sha256 k1 (Py.encode region) in
  let k3 := Hashlib.hmac_sha256 k2 (Py.encode service) in
  generate_signing_key secret date region service
    = Hashlib.hmac_sha256 k3 (Py.encode "aws4_request")
  /\ generate_signing_key secret date region service
    = hmac_chain (Py.encode ("AWS4" ++ secret)) [date; region; service; "aws4_request"]
  /\ List.length (generate_signing_key secret date region service) = 32%nat.
Proof.
  intros k1 k2 k3. split; [reflexivity | split; [reflexivity |]].
  unfold generate_signing_key, _hmac_hash. apply hmac_sha256_length.
Qed.

(** ** Validation of a challenge *)

Lemma validate_challenge_unfold (challenge : Challenge) (secret : string) :
  validate_challenge challenge secret =
    match removelast (Py.split "/" (scope challenge)) with
    | [date; region; service_name] =>
        if bool_decide
             (generate_signature
                (generate_signing_key secret date region service_name)
                (string_to_sign challenge) <> signature challenge)
        then Raise (InvalidSignatureError "Invalid signature")
        else Return ()
    | _ => Raise ValueError
    end.
Proof.
  unfold validate_challenge, unpack3.
  destruct (removelast _) as [|a [|b [|c [|d l]]]]; reflexivity.
Qed.

Lemma removelast_length {A} (l : list A) :
  List.length (removelast l) = (List.length l - 1)%nat.
Proof.
  induction l as [|x [|y l] IH]; simpl in *; [reflexivity | reflexivity | lia].
Qed.

(** C8, as amended.  When [challenge.scope] splits on "/" into exactly four
    components date, region, service and a last one, [validate_challenge]
    raises [InvalidSignatureError] exactly when the signature derived again
    from the secret, those three components and [challenge.string_to_sign]
    differs from [challenge.signature], and returns (no value) exactly when
    they are equal.  When the scope has another number of components, it
    raises [ValueError] and derives nothing. *)
Theorem validate_challenge_raises_iff (challenge : Challenge) (secret : string) :
  (forall date region service last,
      Py.split "/" (scope challenge) = [date; region; service; last] ->
      let signature_ :=
        generate_signature (generate_signing_key secret date region service)
          (string_to_sign challenge) in
      (validate_challenge challenge secret = Raise (InvalidSignatureError "Invalid signature")
       <-> signature_ <> signature challenge)
      /\ (validate_challenge challenge secret = Return ()
          <-> signature_ = signature challenge))
  /\ (List.length (Py.split "/" (scope challenge)) <> 4%nat ->
      validate_challenge challenge secret = Raise ValueError).
Proof.
  rewrite validate_challenge_unfold. split.
  - intros date region service last Hsplit signature_. rewrite Hsplit. simpl.
    fold signature_. destruct (decide (signature_ = signature challenge)) as [Heq|Hne].
    + rewrite bool_decide_eq_false_2 by (intros Hne; exact (Hne Heq)).
      split; split; intros; try done.
    + rewrite bool_decide_eq_true_2 by exact Hne.
      split; split; intros; try done.
  - intros Hlen.
    pose proof (removelast_length (Py.split "/" (scope challenge))) as Hrl.
    destruct (removelast _) as [|a [|b [|c [|d l]]]]; try reflexivity.
    simpl in Hrl. lia.
Qed.

Lemma validate_challenge_raises_iff_witness :
  Py.split "/" (scope (test_challenge None)) = ["20230809"; "ksa"; "service"; "aws4_request"]
  /\ validate_challenge (test_challenge None) "secret-key" = Return ().
Proof.
  split; [reflexivity |].
  apply (proj1 (validate_challenge_raises_iff (test_challenge None) "secret-key")
           "20230809" "ksa" "service" "aws4_request" eq_refl).
  vm_compute. reflexivity.
Defined.

(** A challenge whose scope has a single component: the unpacking of the
    split scope fails before any signature is derived, so the call neither
    returns nor raises [InvalidSignatureError]. *)
Lemma validate_challenge_scope_counterexample :
  let challenge :=
    {| scope := "x"; string_to_sign := ""; signature := ""; access_key_id := None |} in
  validate_challenge challenge "secret-key" = Raise ValueError
  /\ validate_challenge challenge "secret-key" <> Return ()
  /\ validate_challenge challenge "secret-key" <> Raise (InvalidSignatureError "Invalid signature").
Proof. vm_compute. repeat split; discriminate. Qed.

(** C10.  [validate_challenge] does not read [access_key_id]: two challenges
    with the same scope, string to sign and signature have the same outcome
    under every secret, whatever their access key ids. *)
Theorem validate_challenge_ignores_access_key_id (c1 c2 : Challenge) (secret : string) :
  scope c1 = scope c2 ->
  string_to_sign c1 = string_to_sign c2 ->
  signature c1 = signature c2 ->
  validate_challenge c1 secret = validate_challenge c2 secret.
Proof.
  intros Hscope Hsts Hsig. rewrite !validate_challenge_unfold.
  rewrite Hscope, Hsts, Hsig. reflexivity.
Qed.

Lemma validate_challenge_ignores_access_key_id_witness :
  validate_challenge (test_challenge None) "secret-key"
  = validate_challenge (test_challenge (Some "access-key")) "secret-key".
Proof.
  apply (validate_challenge_ignores_access_key_id
           (test_challenge None) (test_challenge (Some "access-key")) "secret-key");
    reflexivity.
Defined.

(** ** Parsing of the Authorization header *)

Lemma parse_authorization_data (parts : list string) (d0 : gmap string string) (name : string) :
  fold_left
    (fun (data : gmap string string) part =>
       let '(k, _, v) := Py.partition "=" part in <[Py.lower k := v]> data)
    parts d0 !! name
  = match field name parts with
    | Some v => Some v
    | None => d0 !! name
    end.
Proof.
  revert d0. induction parts as [|part parts IH]; intros d0; simpl; [reflexivity |].
  rewrite IH. destruct (field name parts) as [v|]; [reflexivity |].
  unfold key_value. destruct (Py.partition "=" part) as [[k m] v]. simpl.
  case_bool_decide as Hk.
  - subst name. apply lookup_insert_eq.
  - apply lookup_insert_ne. exact Hk.
Qed.

Lemma parse_authorization_by_fields (authorization : string) :
  _parse_authorization authorization =
    let pairs := Py.split ", " (Py.partition " " authorization).2 in
    match field "credential" pairs, field "signedheaders" pairs, field "signature" pairs with
    | Some credential, Some signedheaders, Some signature =>
        Return ((Py.partition " " authorization).1.1, credential, signedheaders, signature)
    | None, _, _ => Raise (KeyError "credential")
    | Some _, None, _ => Raise (KeyError "signedheaders")
    | Some _, Some _, None => Raise (KeyError "signature")
    end.
Proof.
  unfold _parse_authorization, dict_getitem.
  destruct (Py.partition " " authorization) as [[a m] credentials]. simpl.
  rewrite !parse_authorization_data. rewrite !lookup_empty.
  destruct (field "credential" _); simpl; [|reflexivity].
  destruct (field "signedheaders" _); simpl; [|reflexivity].
  destruct (field "signature" _); simpl; reflexivity.
Qed.

(** C5, as amended.  [_parse_authorization] cuts the header at its first
    space into [auth_type] and a list of [key=value] pairs separated by a
    comma and a space, whose keys are read without regard to case (the last
    pair of a key counts).  With the keys credential, signedheaders and
    signature all present it returns the auth type and their three values;
    without one of them it raises Python's [KeyError] for the first that is
    missing, which is not an exception of the module's own classes. *)
Theorem _parse_authorization_fields (authorization : string) :
  let auth_type := (Py.partition " " authorization).1.1 in
  let pairs := Py.split ", " (Py.partition " " authorization).2 in
  _parse_authorization authorization =
    match field "credential" pairs, field "signedheaders" pairs, field "signature" pairs with
    | Some credential, Some signedheaders, Some signature =>
        Return (auth_type, credential, signedheaders, signature)
    | None, _, _ => Raise (KeyError "credential")
    | Some _, None, _ => Raise (KeyError "signedheaders")
    | Some _, Some _, None => Raise (KeyError "signature")
    end
  /\ (forall e, _parse_authorization authorization = Raise e ->
        is_AWS4Exception e = false
        /\ exists key, e = KeyError key /\ field key pairs = None
                       /\ key ∈ ["credential"; "signedheaders"; "signature"]).
Proof.
  intros auth_type pairs.
  pose proof (parse_authorization_by_fields authorization) as Heq.
  fold auth_type pairs in Heq. cbv zeta in Heq.
  split; [exact Heq |].
  intros e He. rewrite Heq in He.
  destruct (field "credential" pairs) eqn:H1.
  - destruct (field "signedheaders" pairs) eqn:H2.
    + destruct (field "signature" pairs) eqn:H3; [discriminate |].
      inversion He; subst e. split; [reflexivity |].
      exists "signature". repeat split; [exact H3 | set_solver].
    + inversion He; subst e. split; [reflexivity |].
      exists "signedheaders". repeat split; [exact H2 | set_solver].
  - inversion He; subst e. split; [reflexivity |].
    exists "credential". repeat split; [exact H1 | set_solver].
Qed.

Lemma _parse_authorization_fields_witness :
  _parse_authorization "AWS4-HMAC-SHA256 Credential=ak/20230809/ksa/iam/aws4_request, Signature=00"
  = Raise (KeyError "signedheaders")
  /\ is_AWS4Exception (KeyError "signedheaders") = false.
Proof.
  split; [reflexivity |].
  apply (proj2 (_parse_authorization_fields
                  "AWS4-HMAC-SHA256 Credential=ak/20230809/ksa/iam/aws4_request, Signature=00")
           (KeyError "signedheaders")).
  reflexivity.
Defined.

(** A header without its [SignedHeaders] pair: the failure is a [KeyError],
    none of the exceptions that the module defines. *)
Lemma _parse_authorization_counterexample :
  exists e,
    _parse_authorization "AWS4-HMAC-SHA256 Credential=ak/20230809/ksa/iam/aws4_request, Signature=00"
    = Raise e
    /\ is_AWS4Exception e = false.
Proof. exists (KeyError "signedheaders"). split; reflexivity. Qed.

(** The repository's [test_parse_authorization]. *)
Example test_parse_authorization :
  _parse_authorization
    "AWS4-HMAC-SHA256 Credential=AKIA0SYLV9QT8A6LKRD6/20230809/ksa/iam/aws4_request, SignedHeaders=host;x-amz-content-sha256;x-amz-date, Signature=297e52e0243a99ef3fd140f1c8a605593be6b742bd92b19a23acc97e0a2053bb"
  = Return ("AWS4-HMAC-SHA256",
            "AKIA0SYLV9QT8A6LKRD6/20230809/ksa/iam/aws4_request",
            "host;x-amz-content-sha256;x-amz-date",
            "297e52e0243a99ef3fd140f1c8a605593be6b742bd92b19a23acc97e0a2053bb").
Proof. vm_compute. reflexivity. Qed.

(** ** The clock-drift check *)

Lemma abs_total_seconds_gt_spec (delta_us n : Z) :
  abs_total_seconds_gt delta_us n = true <-> (Z.abs delta_us > n * 1000000)%Z.
Proof. unfold abs_total_seconds_gt. rewrite Z.ltb_lt. lia. Qed.

Lemma generate_challenge_date_step `{Collaborators} (now : Z) (method : string)
    (url : ParseResult) (headers : CIMultiDict.t) (content : bytes_or_str) (c : Challenge) :
  generate_challenge now method url headers content = Return c ->
  exists key_date, _parse_key_date now headers = Return key_date.
Proof.
  unfold generate_challenge. intros Hc.
  destruct (CIMultiDict.getitem "Authorization" headers) as [[a|l]|e]; simpl in Hc;
    try discriminate.
  destruct (_parse_authorization a) as [[[[auth_type credential] signed_headers] sig]|e];
    simpl in Hc; try discriminate.
  destruct (unpack2 _) as [[access_key scope0]|e]; simpl in Hc; try discriminate.
  destruct (unpack3 _) as [[[date region] service]|e]; simpl in Hc; try discriminate.
  destruct (_parse_key_date now headers) as [key_date|e]; simpl in Hc; try discriminate.
  exists key_date. reflexivity.
Qed.

Lemma _parse_key_date_fresh `{Collaborators} (now : Z) (headers : CIMultiDict.t)
    (key_date : string) (parsed : datetime) (off : Z) :
  CIMultiDict.get "x-amz-date" headers = Some (Str key_date) ->
  parser_parse key_date = Return parsed ->
  tzinfo parsed = Some off ->
  (Z.abs (now - DT.instant parsed off) <= 5 * 1000000)%Z ->
  _parse_key_date now headers = Return key_date.
Proof.
  intros Hget Hparse Htz Hd. unfold _parse_key_date. rewrite Hget, Hparse. simpl.
  rewrite Htz. destruct (abs_total_seconds_gt _ 5) eqn:Hgt; [|reflexivity].
  apply abs_total_seconds_gt_spec in Hgt. lia.
Qed.

(** C3.  The drift check of challenge extraction, [_parse_key_date]: without
    an [x-amz-date] header it raises [MissingHeaderError]; with one that
    parses to an instant, it raises [InvalidDateError] when that instant and
    the current time differ by more than 5 seconds in absolute value, on
    either side, and lets extraction go on with the header's text when they
    differ by 5 seconds or less.  A challenge is extracted only when the
    header is present and within these 5 seconds. *)
Theorem clock_drift_check `{Collaborators} (now : Z) (headers : CIMultiDict.t) :
  (CIMultiDict.get "x-amz-date" headers = None ->
   _parse_key_date now headers = Raise (MissingHeaderError "Missing supported date header"))
  /\ (forall key_date parsed off,
        CIMultiDict.get "x-amz-date" headers = Some (Str key_date) ->
        parser_parse key_date = Return parsed ->
        tzinfo parsed = Some off ->
        let delta := (now - DT.instant parsed off)%Z in
        ((Z.abs delta > 5 * 1000000)%Z ->
         _parse_key_date now headers = Raise (InvalidDateError "Replay/drift detected in date."))
        /\ ((Z.abs delta <= 5 * 1000000)%Z ->
            _parse_key_date now headers = Return key_date))
  /\ (forall method url content c,
        generate_challenge now method url headers content = Return c ->
        exists key_date parsed off,
          CIMultiDict.get "x-amz-date" headers = Some (Str key_date)
          /\ parser_parse key_date = Return parsed
          /\ tzinfo parsed = Some off
          /\ (Z.abs (now - DT.instant parsed off) <= 5 * 1000000)%Z).
Proof.
  split; [|split].
  - intros Hget. unfold _parse_key_date. rewrite Hget. reflexivity.
  - intros key_date parsed off Hget Hparse Htz delta.
    unfold _parse_key_date. rewrite Hget, Hparse. simpl. rewrite Htz. fold delta.
    split; intros Hd.
    + apply abs_total_seconds_gt_spec in Hd. rewrite Hd. reflexivity.
    + destruct (abs_total_seconds_gt delta 5) eqn:Hgt; [|reflexivity].
      apply abs_total_seconds_gt_spec in Hgt. lia.
  - intros method url content c Hc.
    destruct (generate_challenge_date_step _ _ _ _ _ _ Hc) as [key_date Hk].
    unfold _parse_key_date in Hk.
    destruct (CIMultiDict.get "x-amz-date" headers) as [[kd|l]|]; try discriminate.
    destruct (parser_parse kd) as [parsed|e] eqn:Hparse; simpl in Hk; try discriminate.
    destruct (tzinfo parsed) as [off|] eqn:Htz; try discriminate.
    destruct (abs_total_seconds_gt _ 5) eqn:Hgt; try discriminate.
    exists kd, parsed, off. repeat split; try reflexivity; try assumption.
    destruct (Z_le_gt_dec (Z.abs (now - DT.instant parsed off)) (5 * 1000000)) as [Hle|Hgt'];
      [exact Hle |].
    apply abs_total_seconds_gt_spec in Hgt'. congruence.
Qed.

Lemma clock_drift_check_witness :
  let parse := _parse_key_date (H := simple_collaborators) in
  parse (test_now + 5000000)%Z test_headers = Return "20230809T010203Z"
  /\ parse (test_now - 5000000)%Z test_headers = Return "20230809T010203Z"
  /\ parse (test_now + 6000000)%Z test_headers
     = Raise (InvalidDateError "Replay/drift detected in date.")
  /\ parse (test_now - 6000000)%Z test_headers
     = Raise (InvalidDateError "Replay/drift detected in date.")
  /\ parse test_now [("foo", Str "hello    world")]
     = Raise (MissingHeaderError "Missing supported date header").
Proof.
  pose (parsed := Datetime 2023 8 9 1 2 3 0 (Some 0%Z)).
  intros parse. refine (conj _ (conj _ (conj _ (conj _ _)))).
  - apply (proj1 (proj2 (clock_drift_check (H := simple_collaborators)
                           (test_now + 5000000)%Z test_headers))
             "20230809T010203Z" parsed 0%Z eq_refl eq_refl eq_refl).
    vm_compute. discriminate.
  - apply (proj1 (proj2 (clock_drift_check (H := simple_collaborators)
                           (test_now - 5000000)%Z test_headers))
             "20230809T010203Z" parsed 0%Z eq_refl eq_refl eq_refl).
    vm_compute. discriminate.
  - apply (proj1 (proj2 (clock_drift_check (H := simple_collaborators)
                           (test_now + 6000000)%Z test_headers))
             "20230809T010203Z" parsed 0%Z eq_refl eq_refl eq_refl).
    vm_compute. reflexivity.
  - apply (proj1 (proj2 (clock_drift_check (H := simple_collaborators)
                           (test_now - 6000000)%Z test_headers))
             "20230809T010203Z" parsed 0%Z eq_refl eq_refl eq_refl).
    vm_compute. reflexivity.
  - apply (proj1 (clock_drift_check (H := simple_collaborators)
                    test_now [("foo", Str "hello    world")])).
    reflexivity.
Defined.

(** The repository's [test_generate_challenge]. *)
Example test_generate_challenge :
  generate_challenge (H := simple_collaborators) test_now "PUT" test_url test_headers
    (IsBytes (Py.encode "somecontent"))
  = Return (test_challenge (Some "access-key")).
Proof. vm_compute. reflexivity. Qed.

(** The repository's [test_validate_challenge] and two cases of
    [test_validate_challenge_invalid]. *)
Example test_validate_challenge :
  validate_challenge (test_challenge None) "secret-key" = Return ().
Proof. vm_compute. reflexivity. Qed.

Example test_validate_challenge_invalid_signature :
  validate_challenge
    {| scope := scope (test_challenge None);
       string_to_sign := test_string_to_sign;
       signature := "invalid"; access_key_id := None |} "secret-key"
  = Raise (InvalidSignatureError "Invalid signature").
Proof. vm_compute. reflexivity. Qed.

Example test_validate_challenge_invalid_secret :
  validate_challenge (test_challenge None) "invalid"
  = Raise (InvalidSignatureError "Invalid signature").
Proof. vm_compute. reflexivity. Qed.

(** ** The orders of [sorted] *)

Lemma string_compare_refl (s : string) : String.compare s s = Eq.
Proof.
  induction s as [|c s IH]; simpl; [reflexivity |].
  unfold Ascii.compare. rewrite N.compare_refl. exact IH.
Qed.

Lemma string_compare_lt_le (s1 s2 : string) :
  String.compare s1 s2 = Lt -> String.le s1 s2 /\ s1 <> s2.
Proof.
  intros Hlt. split.
  - unfold String.le, String.leb. rewrite Hlt. exact I.
  - intros ->. rewrite string_compare_refl in Hlt. discriminate.
Qed.

Lemma string_le_compare (s1 s2 : string) :
  String.le s1 s2 -> s1 <> s2 -> String.compare s1 s2 = Lt.
Proof.
  unfold String.le, String.leb. intros Hle Hne.
  destruct (String.compare s1 s2) eqn:Hc; [|reflexivity|contradiction].
  apply String.compare_eq_iff in Hc. contradiction.
Qed.

Lemma string_lt_trans (s1 s2 s3 : string) :
  string_lt s1 s2 -> string_lt s2 s3 -> string_lt s1 s3.
Proof.
  unfold string_lt. intros H12 H23.
  apply string_compare_lt_le in H12 as [Hle12 Hne12].
  apply string_compare_lt_le in H23 as [Hle23 Hne23].
  apply string_le_compare.
  - etrans; eassumption.
  - intros ->. apply Hne12. apply (anti_symm String.le); assumption.
Qed.

Lemma tuple_le_spec (x y : string * string) :
  tuple_le x y <-> string_lt x.1 y.1 \/ (x.1 = y.1 /\ String.le x.2 y.2).
Proof.
  unfold tuple_le, tuple_leb, string_lt.
  destruct (String.compare x.1 y.1) eqn:Hc.
  - apply String.compare_eq_iff in Hc. split.
    + intros Hle. right. split; [exact Hc | exact Hle].
    + intros [Hlt | [_ Hle]]; [discriminate | exact Hle].
  - split; [intros _; left; reflexivity | intros _; exact I].
  - split; [intros [] |].
    intros [Hlt | [Heq _]]; [discriminate |].
    rewrite Heq, string_compare_refl in Hc. discriminate.
Qed.

#[global] Instance tuple_le_total : Total tuple_le.
Proof.
  intros x y. rewrite !tuple_le_spec. unfold string_lt.
  destruct (String.compare x.1 y.1) eqn:Hc.
  - apply String.compare_eq_iff in Hc.
    destruct (total String.le x.2 y.2) as [Hle | Hle]; [left | right]; right; split;
      congruence || assumption.
  - left. left. reflexivity.
  - right. left. rewrite String.compare_antisym, Hc. reflexivity.
Qed.

#[global] Instance tuple_le_trans : Transitive tuple_le.
Proof.
  intros x y z. rewrite !tuple_le_spec.
  intros [Hxy | [Hxy Hxy2]] [Hyz | [Hyz Hyz2]].
  - left. eapply string_lt_trans; eassumption.
  - left. rewrite <- Hyz. exact Hxy.
  - left. rewrite Hxy. exact Hyz.
  - right. split; [congruence | etrans; eassumption].
Qed.

(** ** Sorted items of a dict *)

Lemma sorted_items_lookup (d : gmap string string) (k v : string) :
  (k, v) ∈ sorted_items d <-> d !! k = Some v.
Proof.
  unfold sorted_items. rewrite merge_sort_Permutation. apply elem_of_map_to_list.
Qed.

Lemma sorted_items_keys (d : gmap string string) (k : string) :
  k ∈ map fst (sorted_items d) <-> is_Some (d !! k).
Proof.
  rewrite list_elem_of_fmap. split.
  - intros [[k' v] [-> Hin]]. apply sorted_items_lookup in Hin. simpl. eauto.
  - intros [v Hv]. exists (k, v). split; [reflexivity |]. apply sorted_items_lookup, Hv.
Qed.

Lemma sorted_items_ascending (d : gmap string string) :
  StronglySorted string_lt (map fst (sorted_items d)).
Proof.
  assert (Hnd : NoDup (map fst (sorted_items d))).
  { unfold sorted_items. rewrite merge_sort_Permutation. apply NoDup_fst_map_to_list. }
  assert (Hs : StronglySorted tuple_le (sorted_items d)).
  { unfold sorted_items. apply StronglySorted_merge_sort; apply _. }
  induction Hs as [|x l Hs IH Hall]; simpl; [constructor |].
  simpl in Hnd. apply NoDup_cons in Hnd as [Hx Hnd].
  constructor; [apply IH, Hnd |].
  apply Forall_forall. intros k Hk.
  apply list_elem_of_fmap in Hk as [y [-> Hy]].
  rewrite Forall_forall in Hall. specialize (Hall y Hy).
  apply tuple_le_spec in Hall as [Hlt | [Heq _]]; [exact Hlt |].
  exfalso. apply Hx. rewrite Heq. apply list_elem_of_fmap. exists y. split; [reflexivity | exact Hy].
Qed.

(** ** Canonical headers *)

Lemma lower_char_idemp (c : ascii) : Py.lower_char (Py.lower_char c) = Py.lower_char c.
Proof. destruct c as [[] [] [] [] [] [] [] []]; reflexivity. Qed.

Lemma lower_idemp (s : string) : Py.lower (Py.lower s) = Py.lower s.
Proof.
  induction s as [|c s IH]; simpl; [reflexivity |].
  rewrite lower_char_idemp, IH. reflexivity.
Qed.

Lemma last_value_elem (name : string) (headers : CIMultiDict.t) (values : header_value) :
  last_value name headers = Some values ->
  exists key, (key, values) ∈ headers /\ Py.lower key = name.
Proof.
  induction headers as [|[key w] headers IH]; simpl; [discriminate |].
  destruct (last_value name headers) as [v|].
  - intros Hv. destruct (IH Hv) as [key' [Hin Hlow]].
    exists key'. split; [right; exact Hin | exact Hlow].
  - case_bool_decide as Hk; [|discriminate].
    intros [= ->]. exists key. split; [left | exact Hk].
Qed.

Lemma last_value_is_Some (name : string) (headers : CIMultiDict.t) :
  is_Some (last_value name headers)
  <-> exists key values, (key, values) ∈ headers /\ Py.lower key = name.
Proof.
  split.
  - intros [values Hv]. destruct (last_value_elem _ _ _ Hv) as [key Hk]. eauto.
  - intros (key & values & Hin & Hlow).
    induction headers as [|[key' w] headers IH]; [inversion Hin |].
    simpl. destruct (last_value name headers) as [v|] eqn:Hl; [eauto |].
    apply elem_of_cons in Hin as [[= <- <-] | Hin].
    + rewrite bool_decide_eq_true_2 by exact Hlow. eauto.
    + destruct (IH Hin) as [v Hv]. discriminate.
Qed.

(** The dict that a canonicalisation loop fills: each name that the test
    [keep] lets in is bound to the canonical value of its last entry. *)
Lemma canonical_dict_lookup (keep : string -> bool) (headers : CIMultiDict.t)
    (d0 : gmap string string) (name : string) :
  fold_left
    (fun (canonical_headers : gmap string string) kv =>
       if keep (Py.lower kv.1)
       then <[Py.lower kv.1 := canonical_value kv.2]> canonical_headers
       else canonical_headers)
    headers d0 !! name
  = match last_value name headers with
    | Some values => if keep name then Some (canonical_value values) else d0 !! name
    | None => d0 !! name
    end.
Proof.
  revert d0. induction headers as [|[key w] headers IH]; intros d0; simpl; [reflexivity |].
  rewrite IH. destruct (last_value name headers) as [v|].
  - destruct (keep name) eqn:Hkeep; [reflexivity |].
    destruct (keep (Py.lower key)) eqn:Hk; [|reflexivity].
    apply lookup_insert_ne. intros Heq. congruence.
  - case_bool_decide as Hname.
    + subst name. destruct (keep (Py.lower key)); [apply lookup_insert_eq | reflexivity].
    + destruct (keep (Py.lower key)); [|reflexivity].
      apply lookup_insert_ne. exact Hname.
Qed.

Lemma full_dict_lookup (headers : CIMultiDict.t) (name : string) :
  full_dict headers !! name
  = if bool_decide (name ∉ excluded_headers)
    then canonical_value <$> last_value name headers
    else None.
Proof.
  unfold full_dict, CIMultiDict.items.
  etrans; [exact (canonical_dict_lookup (fun k => bool_decide (k ∉ excluded_headers))
                     headers ∅ name) |].
  rewrite lookup_empty.
  destruct (last_value name headers); destruct (bool_decide _); reflexivity.
Qed.

Lemma restricted_dict_lookup (headers : CIMultiDict.t) (names : list string) (name : string) :
  restricted_dict headers names !! name
  = if bool_decide (name ∈ names)
    then canonical_value <$> last_value name headers
    else None.
Proof.
  unfold restricted_dict, CIMultiDict.items.
  etrans; [exact (canonical_dict_lookup (fun k => bool_decide (k ∈ names))
                     headers ∅ name) |].
  rewrite lookup_empty.
  destruct (last_value name headers); destruct (bool_decide _); reflexivity.
Qed.

Lemma full_mode_names (headers : CIMultiDict.t) (name : string) :
  name ∈ map fst (sorted_items (full_dict headers))
  <-> (name ∉ excluded_headers)
      /\ exists key values, (key, values) ∈ headers /\ Py.lower key = name.
Proof.
  rewrite sorted_items_keys, full_dict_lookup.
  rewrite <- last_value_is_Some. case_bool_decide as Hex.
  - rewrite fmap_is_Some. tauto.
  - split; [intros [v Hv]; discriminate | tauto].
Qed.

(** C6.  In full mode the signed-header list and the canonical header block
    are made of the same entries, one per name: the names are in lower case,
    in strictly ascending order, and are exactly the lower-case forms of the
    names of the input mapping other than authorization, user-agent, accept,
    accept-encoding and connection; none of these five is among them, in any
    case. *)
Theorem header_exclusion (headers : CIMultiDict.t) :
  let items := sorted_items (full_dict headers) in
  let names := map fst items in
  _generate_canonical_headers headers
    = (Py.join LF (map header_line items), Py.join ";" names)
  /\ StronglySorted string_lt names
  /\ (forall name,
        name ∈ names
        <-> (name ∉ excluded_headers)
            /\ exists key values, (key, values) ∈ headers /\ Py.lower key = name)
  /\ (forall name,
        name ∈ names -> Py.lower name = name /\ Py.lower name ∉ excluded_headers).
Proof.
  intros items names.
  pose proof (full_mode_names headers) as Hmem. fold items names in Hmem.
  split; [reflexivity | split; [apply sorted_items_ascending | split; [exact Hmem |]]].
  intros name Hin. apply Hmem in Hin as [Hex (key & values & _ & Hlow)].
  assert (Hl : Py.lower name = name) by (rewrite <- Hlow; apply lower_idemp).
  rewrite Hl. split; [reflexivity | exact Hex].
Qed.

Lemma header_exclusion_witness :
  let headers : CIMultiDict.t :=
    [("Accept", Str "*/*"); ("BaZ", Str "wut"); ("AUTHORIZATION", Str "old");
     ("User-Agent", Str "curl"); ("Connection", Str "close");
     ("accept-encoding", Str "gzip"); ("foo", Str "hello    world")] in
  _generate_canonical_headers headers
  = (("baz:wut" ++ LF ++ "foo:hello world")%string, "baz;foo")
  /\ "baz" ∈ map fst (sorted_items (full_dict headers))
  /\ "authorization" ∉ map fst (sorted_items (full_dict headers)).
Proof.
  intros headers.
  destruct (header_exclusion headers) as (Heq & _ & Hmem & _).
  refine (conj _ (conj _ _)).
  - rewrite Heq. vm_compute. reflexivity.
  - apply Hmem. split.
    + vm_compute. intros Hin. repeat (apply elem_of_cons in Hin as [Hin | Hin]; [discriminate |]).
      inversion Hin.
    + exists "BaZ", (Str "wut"). split; [|reflexivity].
      right. left.
  - intros Hin. apply Hmem in Hin as [Hex _]. apply Hex. left.
Defined.

(** ** Strings *)

Lemma append_nil_l (s : string) : ("" ++ s)%string = s.
Proof. reflexivity. Qed.

Lemma append_cons (c : ascii) (s t : string) :
  (String c s ++ t)%string = String c (s ++ t).
Proof. reflexivity. Qed.

Lemma append_assoc (s t u : string) : ((s ++ t) ++ u)%string = (s ++ (t ++ u))%string.
Proof.
  induction s as [|c s IH]; [reflexivity |]. rewrite !append_cons, IH. reflexivity.
Qed.

#[local] Arguments Ascii.eqb : simpl never.

(** ** Whitespace in header values *)

Lemma skip_match_not_space (rest : string) :
  Py.strip_prefix " " rest = None ->
  skip_match rest = _MULTI_SPACE_REGEX_sub rest.
Proof.
  destruct rest as [|c rest]; [reflexivity |]. simpl.
  rewrite (Ascii.eqb_sym c " "). destruct (Ascii.eqb " " c); [discriminate | reflexivity].
Qed.

Lemma skip_match_spaces (n : nat) (rest : string) :
  Py.strip_prefix " " rest = None ->
  skip_match (spaces n ++ rest) = _MULTI_SPACE_REGEX_sub rest.
Proof.
  intros Hrest. induction n as [|n IH]; simpl.
  - rewrite ?append_nil_l. apply skip_match_not_space, Hrest.
  - rewrite ?append_cons. simpl. exact IH.
Qed.

Lemma sub_no_space (w : string) :
  Py.has_char " " w = false -> _MULTI_SPACE_REGEX_sub w = w.
Proof.
  induction w as [|c w IH]; [reflexivity |]. simpl.
  rewrite (Ascii.eqb_sym c " "). destruct (Ascii.eqb " " c); simpl; [discriminate |].
  intros Hw. rewrite (IH Hw). reflexivity.
Qed.

Lemma sub_run (w : string) (n : nat) (rest : string) :
  Py.has_char " " w = false ->
  Py.strip_prefix " " rest = None ->
  _MULTI_SPACE_REGEX_sub (w ++ spaces (S n) ++ rest) = (w ++ " " ++ _MULTI_SPACE_REGEX_sub rest)%string.
Proof.
  intros Hw Hrest. induction w as [|c w IH].
  - rewrite ?append_nil_l. simpl. rewrite ?append_cons. simpl.
    rewrite (skip_match_spaces n rest Hrest). reflexivity.
  - rewrite ?append_cons. simpl in *.
    rewrite (Ascii.eqb_sym c " "). destruct (Ascii.eqb " " c); simpl in *; [discriminate |].
    rewrite (IH Hw). reflexivity.
Qed.

Lemma sub_keeps_trailing_space (s : string) :
  (exists t, _MULTI_SPACE_REGEX_sub (s ++ " ") = (t ++ " ")%string)
  /\ (skip_match (s ++ " ") = "" \/ exists t, skip_match (s ++ " ") = (t ++ " ")%string).
Proof.
  induction s as [|c s [[t Ht] IHskip]].
  - split; [exists ""; reflexivity | left; reflexivity].
  - rewrite ?append_cons. simpl. destruct (Ascii.eqb c " ") eqn:Hc.
    + split.
      * destruct IHskip as [-> | [u ->]]; [exists ""; reflexivity |].
        exists (String " " u). reflexivity.
      * exact IHskip.
    + rewrite Ht. split; [| right]; exists (String c t); reflexivity.
Qed.

Lemma no_double_space_after_sub (s : string) :
  Py.contains "  " (_MULTI_SPACE_REGEX_sub s) = false
  /\ Py.contains "  " (String " " (skip_match s)) = false.
Proof.
  induction s as [|c s [IHsub IHskip]].
  - split; reflexivity.
  - simpl _MULTI_SPACE_REGEX_sub. simpl skip_match.
    destruct (Ascii.eqb c " ") eqn:Hc.
    + split; exact IHskip.
    + split.
      * change (Py.contains "  " (String c (_MULTI_SPACE_REGEX_sub s)))
          with (match Py.strip_prefix "  " (String c (_MULTI_SPACE_REGEX_sub s)) with
                | Some _ => true
                | None => Py.contains "  " (_MULTI_SPACE_REGEX_sub s)
                end).
        simpl.  rewrite (Ascii.eqb_sym " " c), Hc. exact IHsub.
      * change (Py.contains "  " (String " " (String c (_MULTI_SPACE_REGEX_sub s))))
          with (match Py.strip_prefix "  " (String " " (String c (_MULTI_SPACE_REGEX_sub s))) with
                | Some _ => true
                | None => Py.contains "  " (String c (_MULTI_SPACE_REGEX_sub s))
                end).
        simpl. rewrite (Ascii.eqb_sym " " c), Hc. exact IHsub.
Qed.

Lemma canonical_dict_value (keep : string -> bool) (headers : CIMultiDict.t)
    (d : gmap string string) (name v : string) :
  (forall k, d !! k = if keep k then canonical_value <$> last_value k headers else None) ->
  (name, v) ∈ sorted_items d ->
  exists key values,
    (key, values) ∈ headers /\ Py.lower key = name
    /\ v = Py.join "," (map _MULTI_SPACE_REGEX_sub (values_list values)).
Proof.
  intros Hd Hin. apply sorted_items_lookup in Hin. rewrite Hd in Hin.
  destruct (keep name); [|discriminate].
  destruct (last_value name headers) as [values|] eqn:Hl; [|discriminate].
  injection Hin as <-. destruct (last_value_elem _ _ _ Hl) as [key [Hkey Hlow]].
  exists key, values. split; [exact Hkey | split; [exact Hlow | reflexivity]].
Qed.

(** The items of a canonicalisation loop: one for each name that the test
    [keep] lets in and that has an entry, with the canonical value of the
    last entry of the name. *)
Lemma canonical_dict_items (keep : string -> bool) (headers : CIMultiDict.t)
    (d : gmap string string) (name v : string) :
  (forall k, d !! k = if keep k then canonical_value <$> last_value k headers else None) ->
  (name, v) ∈ sorted_items d
  <-> keep name = true
      /\ exists values,
           last_value name headers = Some values
           /\ v = Py.join "," (map _MULTI_SPACE_REGEX_sub (values_list values)).
Proof.
  intros Hd. rewrite sorted_items_lookup, Hd. split.
  - destruct (keep name); [|discriminate].
    destruct (last_value name headers) as [values|]; [|discriminate].
    intros [= <-]. split; [reflexivity |]. exists values. split; reflexivity.
  - intros [-> (values & -> & ->)]. reflexivity.
Qed.



Example canonical_headers_full_mode :
  _generate_canonical_headers
    [("foo", Str "hello    world"); ("X", Seq [" a  b "; "c   d"])]
  = (("foo:hello world" ++ LF ++ "x: a b ,c d")%string, "foo;x").
Proof. vm_compute. reflexivity. Qed.

Example canonical_headers_restricted_mode :
  _recreate_canonical_headers
    [("foo", Str "hello    world"); ("X", Seq [" a  b "; "c   d"]); ("y", Str "z")]
    "foo;x"
  = ("foo:hello world" ++ LF ++ "x: a b ,c d")%string.
Proof. vm_compute. reflexivity. Qed.

(** ** Splitting at a character *)

Lemma split_aux_nonempty (sep : string) (skip : nat) (s : string) :
  Py.split_aux sep skip s <> [].
Proof.
  revert skip. induction s as [|c s IH]; intros skip; simpl; [discriminate |].
  destruct skip as [|k]; [|apply IH].
  destruct (Py.strip_prefix sep (String c s)); [discriminate |].
  destruct (Py.split_aux sep 0 s); discriminate.
Qed.

Lemma split_char_cons (c d : ascii) (s : string) :
  Py.split (String c "") (String d s)
  = if Ascii.eqb c d
    then "" :: Py.split (String c "") s
    else match Py.split (String c "") s with
         | p :: ps => String d p :: ps
         | [] => [String d ""]
         end.
Proof.
  unfold Py.split. simpl. destruct (Ascii.eqb c d); reflexivity.
Qed.

Lemma join_cons_cons (sep x y : string) (l : list string) :
  Py.join sep (x :: y :: l) = (x ++ sep ++ Py.join sep (y :: l))%string.
Proof. reflexivity. Qed.

Lemma join_split_char (c : ascii) (s : string) :
  Py.join (String c "") (Py.split (String c "") s) = s.
Proof.
  induction s as [|d s IH]; [reflexivity |].
  rewrite split_char_cons.
  pose proof (split_aux_nonempty (String c "") 0 s) as Hne. fold (Py.split (String c "") s) in Hne.
  destruct (Py.split (String c "") s) as [|p ps]; [contradiction |].
  destruct (Ascii.eqb c d) eqn:Hcd.
  - apply Ascii.eqb_eq in Hcd as ->. rewrite join_cons_cons, IH. reflexivity.
  - destruct ps as [|q ps].
    + simpl in *. rewrite IH. reflexivity.
    + rewrite join_cons_cons in *. rewrite append_cons, IH. reflexivity.
Qed.

Lemma split_char_no_char (c : ascii) (p : string) :
  Py.has_char c p = false -> Py.split (String c "") p = [p].
Proof.
  induction p as [|d p IH]; [reflexivity |]. simpl. intros Hp.
  apply orb_false_iff in Hp as [Hcd Hp]. rewrite split_char_cons, Hcd, (IH Hp). reflexivity.
Qed.

Lemma split_char_app (c : ascii) (p rest : string) :
  Py.has_char c p = false ->
  Py.split (String c "") (p ++ String c rest) = p :: Py.split (String c "") rest.
Proof.
  induction p as [|d p IH]; intros Hp.
  - rewrite append_nil_l, split_char_cons, Ascii.eqb_refl. reflexivity.
  - simpl in Hp. apply orb_false_iff in Hp as [Hcd Hp].
    rewrite append_cons, split_char_cons, Hcd, (IH Hp). reflexivity.
Qed.

(** ** The canonical query string *)

Lemma list_le_nil (l : list string) : list_le [] l.
Proof. exact I. Qed.

Lemma list_le_cons (x y : string) (l1 l2 : list string) :
  list_le (x :: l1) (y :: l2) <-> string_lt x y \/ (x = y /\ list_le l1 l2).
Proof.
  unfold list_le, string_lt. simpl.
  destruct (String.compare x y) eqn:Hc.
  - apply String.compare_eq_iff in Hc. split.
    + intros Hle. right. split; [exact Hc | exact Hle].
    + intros [Hlt | [_ Hle]]; [discriminate | exact Hle].
  - split; [intros _; left; reflexivity | intros _; exact I].
  - split; [intros [] |].
    intros [Hlt | [Heq _]]; [discriminate |].
    rewrite Heq, string_compare_refl in Hc. discriminate.
Qed.

#[global] Instance list_le_total : Total list_le.
Proof.
  intros l1. induction l1 as [|x l1 IH]; intros l2; [left; apply list_le_nil |].
  destruct l2 as [|y l2]; [right; apply list_le_nil |].
  rewrite !list_le_cons. unfold string_lt.
  destruct (String.compare x y) eqn:Hc.
  - apply String.compare_eq_iff in Hc.
    destruct (IH l2) as [Hle | Hle]; [left | right]; right; split; congruence || assumption.
  - left. left. reflexivity.
  - right. left. rewrite String.compare_antisym, Hc. reflexivity.
Qed.

#[global] Instance list_le_trans : Transitive list_le.
Proof.
  intros l1. induction l1 as [|x l1 IH]; intros l2 l3 H12 H23; [apply list_le_nil |].
  destruct l2 as [|y l2]; [destruct H12 |].
  destruct l3 as [|z l3]; [destruct H23 |].
  apply list_le_cons in H12. apply list_le_cons in H23. apply list_le_cons.
  destruct H12 as [H12 | [-> H12]]; destruct H23 as [H23 | [-> H23]].
  - left. eapply string_lt_trans; eassumption.
  - left. exact H12.
  - left. exact H23.
  - right. split; [reflexivity | eapply IH; eassumption].
Qed.

#[global] Instance list_le_antisym : AntiSymm (=) list_le.
Proof.
  intros l1. induction l1 as [|x l1 IH]; intros l2 H12 H21.
  - destruct l2; [reflexivity | destruct H21].
  - destruct l2 as [|y l2]; [destruct H12 |].
    apply list_le_cons in H12. apply list_le_cons in H21. unfold string_lt in *.
    destruct H12 as [H12 | [-> H12]]; destruct H21 as [H21 | [Heq H21]].
    + rewrite String.compare_antisym, H12 in H21. discriminate.
    + subst y. rewrite string_compare_refl in H12. discriminate.
    + rewrite string_compare_refl in H21. discriminate.
    + f_equal. apply IH; assumption.
Qed.

#[global] Instance pair_le_trans : Transitive pair_le.
Proof. intros p1 p2 p3. unfold pair_le. apply list_le_trans. Qed.

#[global] Instance pair_le_antisym : AntiSymm (=) pair_le.
Proof.
  intros p1 p2 H12 H21.
  rewrite <- (join_split_char "=" p1), <- (join_split_char "=" p2).
  f_equal. apply (anti_symm list_le); assumption.
Qed.

Lemma canonical_query_string_str (q : string) :
  _generate_canonical_query_string (IsStr q)
  = Return (Py.join "&"
              (map (Py.join "=")
                 (merge_sort list_le (map (Py.split "=") (Py.split "&" q))))).
Proof. destruct q; reflexivity. Qed.

Lemma sorted_pairs_permutation (pairs : list string) :
  map (Py.join "=") (merge_sort list_le (map (Py.split "=") pairs)) ≡ₚ pairs.
Proof.
  rewrite merge_sort_Permutation.
  induction pairs as [|p pairs IH]; simpl; [reflexivity |].
  rewrite join_split_char. constructor. exact IH.
Qed.

Lemma sorted_pairs_sorted (pairs : list string) :
  StronglySorted pair_le
    (map (Py.join "=") (merge_sort list_le (map (Py.split "=") pairs))).
Proof.
  assert (Hs : StronglySorted list_le (merge_sort list_le (map (Py.split "=") pairs)))
    by (apply StronglySorted_merge_sort; apply _).
  assert (Hall : Forall (fun l => exists p, l = Py.split "=" p)
                   (merge_sort list_le (map (Py.split "=") pairs))).
  { rewrite merge_sort_Permutation. apply Forall_forall. intros l Hl.
    apply list_elem_of_fmap in Hl as [p [-> _]]. eauto. }
  induction Hs as [|l ls Hs IH Hl]; [constructor |].
  apply Forall_cons in Hall as [[p ->] Hall]. simpl. constructor; [apply IH, Hall |].
  apply Forall_forall. intros q Hq. apply list_elem_of_fmap in Hq as [l' [-> Hl']].
  rewrite Forall_forall in Hl, Hall. specialize (Hl l' Hl'). destruct (Hall l' Hl') as [p' ->].
  unfold pair_le. rewrite !join_split_char. exact Hl.
Qed.

Lemma string_le_lt_eq (s1 s2 : string) :
  String.le s1 s2 <-> string_lt s1 s2 \/ s1 = s2.
Proof.
  unfold String.le, String.leb, string_lt.
  destruct (String.compare s1 s2) eqn:Hc.
  - apply String.compare_eq_iff in Hc. split; [intros _; right; exact Hc | intros _; exact I].
  - split; [intros _; left; reflexivity | intros _; exact I].
  - split; [intros [] |]. intros [Hlt | Heq]; [discriminate |].
    rewrite Heq, string_compare_refl in Hc. discriminate.
Qed.

Lemma pair_le_single_equals (n1 v1 n2 v2 : string) :
  Py.has_char "=" n1 = false -> Py.has_char "=" v1 = false ->
  Py.has_char "=" n2 = false -> Py.has_char "=" v2 = false ->
  pair_le (n1 ++ "=" ++ v1) (n2 ++ "=" ++ v2) <-> tuple_le (n1, v1) (n2, v2).
Proof.
  intros Hn1 Hv1 Hn2 Hv2. unfold pair_le.
  change ("=" ++ v1)%string with (String "=" v1). change ("=" ++ v2)%string with (String "=" v2).
  rewrite !split_char_app, !split_char_no_char by assumption.
  rewrite tuple_le_spec, !list_le_cons, string_le_lt_eq. simpl.
  split.
  - intros [Hlt | [-> [Hlt | [-> _]]]]; auto.
  - intros [Hlt | [-> [Hlt | ->]]]; auto. right. split; [reflexivity |]. right.
    split; [reflexivity | apply list_le_nil].
Qed.

(** C4, as amended.  The canonical query string is the pairs of the raw
    query (cut at "&"), rearranged in the order of their lists of components
    between "=" signs: the name first, then every further component in turn.
    The result is the only arrangement of the pairs in that order; for pairs
    with one "=" the order is by name and then by value.  An absent or empty
    query gives the empty string. *)
Theorem canonical_query_string_sorted (q : string) :
  (exists sorted_pairs,
      _generate_canonical_query_string (IsStr q) = Return (Py.join "&" sorted_pairs)
      /\ sorted_pairs ≡ₚ Py.split "&" q
      /\ StronglySorted pair_le sorted_pairs
      /\ forall l, l ≡ₚ Py.split "&" q -> StronglySorted pair_le l -> l = sorted_pairs)
  /\ (forall n1 v1 n2 v2,
        Py.has_char "=" n1 = false -> Py.has_char "=" v1 = false ->
        Py.has_char "=" n2 = false -> Py.has_char "=" v2 = false ->
        pair_le (n1 ++ "=" ++ v1) (n2 ++ "=" ++ v2) <-> tuple_le (n1, v1) (n2, v2))
  /\ _generate_canonical_query_string IsNone = Return ""
  /\ _generate_canonical_query_string (IsStr "") = Return ""
  /\ _generate_canonical_query_string (IsBytes []) = Return "".
Proof.
  split; [| split; [exact pair_le_single_equals | repeat split]].
  exists (map (Py.join "=") (merge_sort list_le (map (Py.split "=") (Py.split "&" q)))).
  split; [apply canonical_query_string_str |].
  split; [apply sorted_pairs_permutation |].
  split; [apply sorted_pairs_sorted |].
  intros l Hperm Hsorted. apply (StronglySorted_unique pair_le); try assumption.
  - apply sorted_pairs_sorted.
  - rewrite Hperm. symmetry. apply sorted_pairs_permutation.
Qed.

Lemma canonical_query_string_sorted_witness :
  ["a=1"; "b=2"] ≡ₚ Py.split "&" "b=2&a=1"
  /\ StronglySorted pair_le ["a=1"; "b=2"]
  /\ _generate_canonical_query_string (IsStr "b=2&a=1") = Return "a=1&b=2".
Proof.
  assert (Hperm : ["a=1"; "b=2"] ≡ₚ Py.split "&" "b=2&a=1") by apply perm_swap.
  assert (Hsorted : StronglySorted pair_le ["a=1"; "b=2"]).
  { repeat constructor. }
  refine (conj Hperm (conj Hsorted _)).
  destruct (proj1 (canonical_query_string_sorted "b=2&a=1")) as (sp & Heq & _ & _ & Huniq).
  rewrite Heq, <- (Huniq _ Hperm Hsorted). reflexivity.
Defined.

(** Two pairs of the same name whose values contain "=": by name and then
    value, and as whole strings too, "a=b-=x" comes before "a=b=c"; the code
    compares the components "b" and "b-" and leaves the pairs as they
    are. *)
Lemma canonical_query_string_counterexample :
  _generate_canonical_query_string (IsStr "a=b=c&a=b-=x") = Return "a=b=c&a=b-=x"
  /\ claimed_canonical_query_string "a=b=c&a=b-=x" = "a=b-=x&a=b=c"
  /\ whole_pair_canonical_query_string "a=b=c&a=b-=x" = "a=b-=x&a=b=c"
  /\ _generate_canonical_query_string (IsStr "a=b=c&a=b-=x")
     <> Return (claimed_canonical_query_string "a=b=c&a=b-=x").
Proof.
  vm_compute. split; [reflexivity | split; [reflexivity | split; [reflexivity | discriminate]]].
Qed.

Example canonical_query_string_mixed :
  _generate_canonical_query_string (IsBytes (Py.encode "b=2&a=1&a-=b&c&a=0"))
  = Return "a=0&a=1&a-=b&b=2&c".
Proof. vm_compute. reflexivity. Qed.

(** ** The header mapping *)

Lemma same_key_refl (k : string) : CIMultiDict.same_key k k = true.
Proof. unfold CIMultiDict.same_key. apply bool_decide_eq_true_2. reflexivity. Qed.

Lemma filter_others_none (keep : string * header_value -> bool) (key : string)
    (h : CIMultiDict.t) :
  (forall kv, CIMultiDict.same_key kv.1 key = true -> keep kv = false) ->
  List.filter keep (CIMultiDict.others key h) = List.filter keep h.
Proof.
  intros Hkeep. unfold CIMultiDict.others.
  induction h as [|kv h IH]; simpl; [reflexivity |].
  destruct (CIMultiDict.same_key kv.1 key) eqn:Hk; simpl.
  - rewrite (Hkeep kv Hk). exact IH.
  - rewrite IH. reflexivity.
Qed.

(** An assignment to [key] leaves the entries of the other names as they
    are. *)
Lemma filter_setitem_frame (keep : string * header_value -> bool) (key : string)
    (v : header_value) (h : CIMultiDict.t) :
  (forall kv, CIMultiDict.same_key kv.1 key = true -> keep kv = false) ->
  List.filter keep (CIMultiDict.setitem key v h) = List.filter keep h.
Proof.
  intros Hkeep.
  assert (Hnew : keep (key, v) = false) by (apply Hkeep, same_key_refl).
  induction h as [|[k w] h IH]; simpl.
  - rewrite Hnew. reflexivity.
  - destruct (CIMultiDict.same_key k key) eqn:Hk; simpl.
    + rewrite Hnew, (Hkeep (k, w) Hk). apply filter_others_none, Hkeep.
    + rewrite IH. reflexivity.
Qed.

Lemma entries_for_others (key : string) (h : CIMultiDict.t) :
  entries_for key (CIMultiDict.others key h) = [].
Proof.
  unfold entries_for, CIMultiDict.others.
  induction h as [|kv h IH]; simpl; [reflexivity |].
  destruct (CIMultiDict.same_key kv.1 key) eqn:Hk; simpl; [exact IH |].
  rewrite Hk. exact IH.
Qed.

(** After an assignment to [key], the mapping has one entry for it. *)
Lemma entries_for_setitem (key : string) (v : header_value) (h : CIMultiDict.t) :
  entries_for key (CIMultiDict.setitem key v h) = [(key, v)].
Proof.
  induction h as [|[k w] h IH]; unfold entries_for in *; simpl.
  - rewrite same_key_refl. reflexivity.
  - destruct (CIMultiDict.same_key k key) eqn:Hk; simpl.
    + rewrite same_key_refl. f_equal. apply entries_for_others.
    + rewrite Hk. exact IH.
Qed.

Lemma get_setitem (key : string) (v : header_value) (h : CIMultiDict.t) :
  CIMultiDict.get key (CIMultiDict.setitem key v h) = Some v.
Proof.
  induction h as [|[k w] h IH]; simpl.
  - rewrite same_key_refl. reflexivity.
  - destruct (CIMultiDict.same_key k key) eqn:Hk; simpl.
    + rewrite same_key_refl. reflexivity.
    + rewrite Hk. exact IH.
Qed.

Lemma same_key_trans_false (k key key' : string) :
  CIMultiDict.same_key key key' = false ->
  CIMultiDict.same_key k key = true ->
  CIMultiDict.same_key k key' = false.
Proof.
  unfold CIMultiDict.same_key. intros Hne Hk.
  apply bool_decide_eq_false in Hne. apply bool_decide_eq_true in Hk.
  apply bool_decide_eq_false. congruence.
Qed.

Lemma entries_for_setitem_ne (key key' : string) (v : header_value) (h : CIMultiDict.t) :
  CIMultiDict.same_key key key' = false ->
  entries_for key' (CIMultiDict.setitem key v h) = entries_for key' h.
Proof.
  intros Hne. apply filter_setitem_frame. intros kv Hk.
  eapply same_key_trans_false; eassumption.
Qed.

Lemma get_setitem_ne (key key' : string) (v : header_value) (h : CIMultiDict.t) :
  CIMultiDict.same_key key key' = false ->
  CIMultiDict.get key' (CIMultiDict.setitem key v h) = CIMultiDict.get key' h.
Proof.
  intros Hne.
  assert (Hothers : forall h, CIMultiDict.get key' (CIMultiDict.others key h)
                              = CIMultiDict.get key' h).
  { clear h. intros h. unfold CIMultiDict.others.
    induction h as [|[k w] h IH]; simpl; [reflexivity |].
    destruct (CIMultiDict.same_key k key) eqn:Hk; simpl.
    - rewrite (same_key_trans_false _ _ _ Hne Hk). exact IH.
    - rewrite IH. reflexivity. }
  induction h as [|[k w] h IH]; simpl.
  - rewrite Hne. reflexivity.
  - destruct (CIMultiDict.same_key k key) eqn:Hk; simpl.
    + rewrite Hne, (same_key_trans_false _ _ _ Hne Hk). apply Hothers.
    + rewrite IH. reflexivity.
Qed.

(** ** The signer *)

Lemma sign_request_returns `{Collaborators} (service_name method url region : string)
    (headers : CIMultiDict.t) (content : bytes_or_str)
    (access_key_id secret_access_key : string) (date : datetime)
    (store headers' : CIMultiDict.t) :
  sign_request service_name method url region headers content
    access_key_id secret_access_key date = (store, Return headers') ->
  exists u authorization,
    urlparse url = Return u
    /\ store = headers'
    /\ headers'
       = CIMultiDict.setitem "Authorization" (Str authorization)
           (if CIMultiDict.contains "x-amz-content-sha256" headers
            then headers
            else CIMultiDict.setitem "x-amz-content-sha256"
                   (Str (if bool_decide (scheme u = "http") then sha256_hash content
                         else "UNSIGNED-PAYLOAD"))
                   headers).
Proof.
  unfold sign_request. destruct (urlparse url) as [u|e]; [|intros [= _ ?]; discriminate].
  match goal with
  | |- context [match ?m with Return _ => _ | Raise _ => _ end] => destruct m as [authorization|e]
  end; [|intros [= _ ?]; discriminate].
  intros [= <- <-]. exists u, authorization.
  destruct (CIMultiDict.contains "x-amz-content-sha256" headers); simpl; auto.
Qed.

(** The value that a call that returns has computed, step by step. *)
Lemma sign_request_authorization `{Collaborators} (service_name method url region : string)
    (headers : CIMultiDict.t) (content : bytes_or_str)
    (access_key_id secret_access_key : string) (date : datetime)
    (store headers' : CIMultiDict.t) :
  sign_request service_name method url region headers content
    access_key_id secret_access_key date = (store, Return headers') ->
  exists u signer_date amz_date canonical_request_hash signed_headers,
    urlparse url = Return u
    /\ to_signer_date date = Return signer_date
    /\ to_amz_date date = Return amz_date
    /\ _generate_canonical_request_hash method u
         (if CIMultiDict.contains "x-amz-content-sha256" headers
          then headers
          else CIMultiDict.setitem "x-amz-content-sha256"
                 (Str (if bool_decide (scheme u = "http") then sha256_hash content
                       else "UNSIGNED-PAYLOAD"))
                 headers)
         (if bool_decide (scheme u = "http") then sha256_hash content
          else "UNSIGNED-PAYLOAD")
       = Return (canonical_request_hash, signed_headers)
    /\ headers'
       = CIMultiDict.setitem "Authorization"
           (Str ("AWS4-HMAC-SHA256 Credential=" ++ access_key_id ++ "/"
                   ++ (signer_date ++ "/" ++ region ++ "/" ++ service_name
                         ++ "/aws4_request")
                   ++ ", SignedHeaders=" ++ signed_headers ++ ", Signature="
                   ++ generate_signature
                        (generate_signing_key secret_access_key signer_date region
                           service_name)
                        ("AWS4-HMAC-SHA256" ++ LF ++ amz_date ++ LF
                           ++ (signer_date ++ "/" ++ region ++ "/" ++ service_name
                                 ++ "/aws4_request")
                           ++ LF ++ canonical_request_hash)))
           (if CIMultiDict.contains "x-amz-content-sha256" headers
            then headers
            else CIMultiDict.setitem "x-amz-content-sha256"
                   (Str (if bool_decide (scheme u = "http") then sha256_hash content
                         else "UNSIGNED-PAYLOAD"))
                   headers).
Proof.
  unfold sign_request. destruct (urlparse url) as [u|e]; [|intros [= _ ?]; discriminate].
  cbv zeta.
  replace (if negb (CIMultiDict.contains "x-amz-content-sha256" headers)
           then CIMultiDict.setitem "x-amz-content-sha256"
                  (Str (if bool_decide (scheme u = "http") then sha256_hash content
                        else "UNSIGNED-PAYLOAD")) headers
           else headers)
    with (if CIMultiDict.contains "x-amz-content-sha256" headers
          then headers
          else CIMultiDict.setitem "x-amz-content-sha256"
                 (Str (if bool_decide (scheme u = "http") then sha256_hash content
                       else "UNSIGNED-PAYLOAD")) headers)
    by (destruct (CIMultiDict.contains "x-amz-content-sha256" headers); reflexivity).
  destruct (to_signer_date date) as [signer_date|e]; [|intros [= _ ?]; discriminate].
  cbn [mbind mret result_bind result_ret].
  destruct (_generate_canonical_request_hash method u _ _)
    as [[canonical_request_hash signed_headers]|e] eqn:Hhash;
    [|intros [= _ ?]; discriminate].
  cbn [mbind mret result_bind result_ret].
  destruct (to_amz_date date) as [amz_date|e]; [|intros [= _ ?]; discriminate].
  cbn [mbind mret result_bind result_ret].
  intros [= _ <-].
  exists u, signer_date, amz_date, canonical_request_hash, signed_headers.
  refine (conj eq_refl (conj eq_refl (conj eq_refl (conj Hhash _)))).
  reflexivity.
Qed.

(** C7.  When [sign_request] returns, the mapping returned is the caller's
    mapping, changed in place, and differs from the input in two names only:
    it has one Authorization entry, with the computed value, which is the
    text made of the access key id, the scope of the signer date, the
    signed-header list and the signature, under the derived key, of the
    four lines of the string to sign, whose last is the hash of the
    canonical request of the method, the URL and the headers with their
    payload hash entry; its x-amz-content-sha256 entries are those of the
    input when there were any, and else one entry with the computed content
    hash; the entries of every other name are those of the input, in the
    same order. *)
Theorem sign_request_frame `{Collaborators} (service_name method url region : string)
    (headers : CIMultiDict.t) (content : bytes_or_str)
    (access_key_id secret_access_key : string) (date : datetime)
    (store headers' : CIMultiDict.t) :
  sign_request service_name method url region headers content
    access_key_id secret_access_key date = (store, Return headers') ->
  exists u signer_date amz_date canonical_request_hash signed_headers authorization,
    urlparse url = Return u
    /\ store = headers'
    /\ to_signer_date date = Return signer_date
    /\ to_amz_date date = Return amz_date
    /\ (let content_sha256 :=
          if bool_decide (scheme u = "http") then sha256_hash content
          else "UNSIGNED-PAYLOAD" in
        _generate_canonical_request_hash method u
          (if CIMultiDict.contains "x-amz-content-sha256" headers
           then headers
           else CIMultiDict.setitem "x-amz-content-sha256" (Str content_sha256) headers)
          content_sha256
        = Return (canonical_request_hash, signed_headers))
    /\ (let scope :=
          (signer_date ++ "/" ++ region ++ "/" ++ service_name ++ "/aws4_request")%string in
        let string_to_sign :=
          ("AWS4-HMAC-SHA256" ++ LF ++ amz_date ++ LF ++ scope ++ LF
             ++ canonical_request_hash)%string in
        let signature :=
          generate_signature
            (generate_signing_key secret_access_key signer_date region service_name)
            string_to_sign in
        authorization
        = ("AWS4-HMAC-SHA256 Credential=" ++ access_key_id ++ "/" ++ scope
             ++ ", SignedHeaders=" ++ signed_headers
             ++ ", Signature=" ++ signature)%string)
    /\ entries_for "Authorization" headers' = [("Authorization", Str authorization)]
    /\ CIMultiDict.get "Authorization" headers' = Some (Str authorization)
    /\ (CIMultiDict.contains "x-amz-content-sha256" headers = true ->
        entries_for "x-amz-content-sha256" headers'
        = entries_for "x-amz-content-sha256" headers
        /\ CIMultiDict.get "x-amz-content-sha256" headers'
           = CIMultiDict.get "x-amz-content-sha256" headers)
    /\ (CIMultiDict.contains "x-amz-content-sha256" headers = false ->
        let content_sha256 :=
          if bool_decide (scheme u = "http") then sha256_hash content
          else "UNSIGNED-PAYLOAD" in
        entries_for "x-amz-content-sha256" headers'
        = [("x-amz-content-sha256", Str content_sha256)]
        /\ CIMultiDict.get "x-amz-content-sha256" headers' = Some (Str content_sha256))
    /\ other_entries headers' = other_entries headers.
Proof.
  intros Hsign.
  destruct (sign_request_returns _ _ _ _ _ _ _ _ _ _ _ Hsign) as (u0 & a & Hu0 & Hstore & _).
  destruct (sign_request_authorization _ _ _ _ _ _ _ _ _ _ _ Hsign)
    as (u & signer_date & amz_date & canonical_request_hash & signed_headers
        & Hu & Hsigner & Hamz & Hhash & Hh).
  exists u, signer_date, amz_date, canonical_request_hash, signed_headers.
  eexists.
  refine (conj Hu (conj Hstore (conj Hsigner (conj Hamz (conj Hhash (conj eq_refl _)))))).
  clear Hsign Hstore Hu0 Hhash. rewrite Hh. clear Hh.
  assert (Hne : CIMultiDict.same_key "Authorization" "x-amz-content-sha256" = false)
    by reflexivity.
  split; [apply entries_for_setitem | split; [apply get_setitem |]].
  split; [| split].
  - intros Hc. rewrite Hc. split; [apply entries_for_setitem_ne | apply get_setitem_ne]; exact Hne.
  - intros Hc. rewrite Hc. simpl.
    rewrite (entries_for_setitem_ne _ _ _ _ Hne), (get_setitem_ne _ _ _ _ Hne).
    split; [apply entries_for_setitem | apply get_setitem].
  - unfold other_entries. rewrite filter_setitem_frame.
    + destruct (CIMultiDict.contains "x-amz-content-sha256" headers); [reflexivity |].
      apply filter_setitem_frame. intros kv Hk. rewrite Hk. apply andb_false_r.
    + intros kv Hk. rewrite Hk. reflexivity.
Qed.

Lemma sign_request_frame_witness :
  let out :=
    sign_request (H := simple_collaborators) "service" "PUT"
      "http://host/my/path?foo=bar" "ksa" unsigned_headers
      (IsBytes (Py.encode "somecontent")) "access-key" "secret-key" test_date in
  out = (out.1, Return out.1)
  /\ other_entries out.1 = unsigned_headers
  /\ CIMultiDict.get "x-amz-content-sha256" out.1
     = Some (Str "d5a3477d91583e65a7aba6f6db7a53e2de739bc7bf8f4a08f0df0457b637f1fb")
  /\ exists signature,
       CIMultiDict.get "Authorization" out.1
       = Some (Str ("AWS4-HMAC-SHA256 Credential=access-key/20230809/ksa/service/aws4_request, SignedHeaders=baz;foo;x-amz-content-sha256;x-amz-date, Signature="
                      ++ signature))
       /\ String.length signature = 64%nat.
Proof.
  intros out.
  assert (Hout : out = (out.1, Return out.1)) by (vm_compute; reflexivity).
  destruct (sign_request_frame (H := simple_collaborators) _ _ _ _ _ _ _ _ _ _ _ Hout)
    as (u & signer_date & amz_date & hash & signed_headers & a
        & Hu & _ & Hsigner & Hamz & Hhash & Ha & _ & Hget & _ & Habsent & Hother).
  injection Hu as <-. injection Hsigner as <-. injection Hamz as <-.
  vm_compute in Hhash. injection Hhash as <- <-.
  cbv zeta in Ha. subst a.
  refine (conj Hout (conj Hother (conj _ _))).
  - apply (Habsent eq_refl).
  - eexists. split.
    + rewrite Hget. reflexivity.
    + unfold generate_signature, _hmac_hash.
      rewrite hex_length, hmac_sha256_length. reflexivity.
Defined.

(** ** The separator of the Authorization header *)

Lemma strip_comma_space (c : ascii) (s : string) :
  Py.strip_prefix ", " (String c s)
  = if Ascii.eqb "," c
    then match s with
         | String d r => if Ascii.eqb " " d then Some r else None
         | EmptyString => None
         end
    else None.
Proof. simpl. destruct (Ascii.eqb "," c); [|reflexivity]. destruct s; reflexivity. Qed.

Lemma contains_cons (sub : string) (c : ascii) (s : string) :
  Py.contains sub (String c s)
  = match Py.strip_prefix sub (String c s) with
    | Some _ => true
    | None => Py.contains sub s
    end.
Proof. reflexivity. Qed.

Lemma contains_comma_space_cons (c : ascii) (s : string) :
  Py.contains ", " (String c s) = false ->
  Py.strip_prefix ", " (String c s) = None /\ Py.contains ", " s = false.
Proof.
  rewrite contains_cons. destruct (Py.strip_prefix ", " (String c s)); [discriminate |].
  intros Hs. split; [reflexivity | exact Hs].
Qed.

(** Before a character that is not a space, the text [p] meets no ", " that
    it does not contain. *)
Lemma strip_comma_space_app (c : ascii) (p : string) (e : ascii) (rest : string) :
  Ascii.eqb " " e = false ->
  Py.strip_prefix ", " (String c p) = None ->
  Py.strip_prefix ", " (String c (p ++ String e rest)) = None.
Proof.
  intros He. rewrite !strip_comma_space. destruct (Ascii.eqb "," c); [|reflexivity].
  destruct p as [|d p].
  - intros _. rewrite append_nil_l, He. reflexivity.
  - rewrite append_cons. destruct (Ascii.eqb " " d); [discriminate | reflexivity].
Qed.

Lemma split_comma_space_cons (c : ascii) (s : string) :
  Py.strip_prefix ", " (String c s) = None ->
  Py.split ", " (String c s)
  = match Py.split ", " s with
    | p :: ps => String c p :: ps
    | [] => [String c ""]
    end.
Proof. unfold Py.split. intros Hs. simpl Py.split_aux at 1. simpl in Hs. rewrite Hs. reflexivity. Qed.

Lemma split_comma_space_app (p rest : string) :
  Py.contains ", " p = false ->
  Py.split ", " (p ++ ", " ++ rest) = p :: Py.split ", " rest.
Proof.
  induction p as [|c p IH]; intros Hp.
  - reflexivity.
  - apply contains_comma_space_cons in Hp as [Hc Hp].
    rewrite append_cons, split_comma_space_cons, (IH Hp); [reflexivity |].
    change (", " ++ rest)%string with (String "," (String " " rest)).
    apply strip_comma_space_app; [reflexivity | exact Hc].
Qed.

Lemma split_comma_space_none (p : string) :
  Py.contains ", " p = false -> Py.split ", " p = [p].
Proof.
  induction p as [|c p IH]; intros Hp; [reflexivity |].
  apply contains_comma_space_cons in Hp as [Hc Hp].
  rewrite (split_comma_space_cons _ _ Hc), (IH Hp). reflexivity.
Qed.

Lemma contains_comma_space_app (a : string) (e : ascii) (b : string) :
  Ascii.eqb " " e = false ->
  Py.contains ", " a = false ->
  Py.contains ", " (String e b) = false ->
  Py.contains ", " (a ++ String e b) = false.
Proof.
  intros He Ha Hb. induction a as [|c a IH]; [exact Hb |].
  apply contains_comma_space_cons in Ha as [Hc Ha].
  rewrite append_cons, contains_cons, (strip_comma_space_app _ _ _ _ He Hc).
  apply IH, Ha.
Qed.

Lemma has_char_comma_contains (s : string) :
  Py.has_char "," s = false -> Py.contains ", " s = false.
Proof.
  induction s as [|c s IH]; [reflexivity |]. simpl Py.has_char. intros Hs.
  apply orb_false_iff in Hs as [Hc Hs].
  rewrite contains_cons, strip_comma_space, Hc. apply IH, Hs.
Qed.

Lemma has_char_app (c : ascii) (a b : string) :
  Py.has_char c (a ++ b) = Py.has_char c a || Py.has_char c b.
Proof.
  induction a as [|d a IH]; [reflexivity |].
  rewrite append_cons. simpl. rewrite IH. apply orb_assoc.
Qed.

(** ** Splitting and joining at a character *)

Lemma partition_char_app (c : ascii) (p rest : string) :
  Py.has_char c p = false ->
  Py.partition (String c "") (p ++ String c rest) = (p, String c "", rest).
Proof.
  induction p as [|d p IH]; intros Hp.
  - rewrite append_nil_l. simpl. rewrite Ascii.eqb_refl. reflexivity.
  - simpl in Hp. apply orb_false_iff in Hp as [Hcd Hp].
    rewrite append_cons. simpl. rewrite Hcd. fold (Py.partition (String c "")).
    rewrite (IH Hp). reflexivity.
Qed.

Lemma split_join_char (c : ascii) (l : list string) :
  l <> [] ->
  Forall (fun x => Py.has_char c x = false) l ->
  Py.split (String c "") (Py.join (String c "") l) = l.
Proof.
  intros Hne Hall. induction Hall as [|x l Hx Hall IH]; [contradiction |].
  destruct l as [|y l].
  - simpl. apply split_char_no_char, Hx.
  - rewrite join_cons_cons. change (String c "" ++ Py.join (String c "") (y :: l))%string
      with (String c (Py.join (String c "") (y :: l))).
    rewrite (split_char_app _ _ _ Hx), IH; [reflexivity | discriminate].
Qed.

(** ** Digits and hexadecimal text *)

Lemma hex_digits_no_comma (b : byte) :
  Ascii.eqb "," (Hashlib.hex_digit (Byte.to_N b / 16)) = false
  /\ Ascii.eqb "," (Hashlib.hex_digit (Byte.to_N b mod 16)) = false.
Proof. destruct b; split; reflexivity. Qed.

Lemma hex_no_comma (bs : list byte) : Py.has_char "," (Hashlib.hex bs) = false.
Proof.
  induction bs as [|b bs IH]; [reflexivity |].
  destruct (hex_digits_no_comma b) as [Hhi Hlo].
  simpl. rewrite Hhi, Hlo. exact IH.
Qed.

Lemma digit_char (c : ascii) (n : Z) :
  (N_of_ascii c < 48)%N ->
  Ascii.eqb c (ascii_of_N (48 + Z.to_N (n mod 10))) = false.
Proof.
  intros Hc. apply Ascii.eqb_neq. intros ->.
  rewrite N_ascii_embedding in Hc; [lia |].
  pose proof (Z.mod_pos_bound n 10 eq_refl). lia.
Qed.

Lemma zfill_no_char (c : ascii) (w : nat) (n : Z) :
  (N_of_ascii c < 48)%N -> Py.has_char c (DT.zfill w n) = false.
Proof.
  intros Hc. revert n. induction w as [|w IH]; intros n; [reflexivity |].
  simpl. rewrite has_char_app, IH. simpl. rewrite (digit_char c n Hc). reflexivity.
Qed.

Lemma strftime_Ymd_no_char (c : ascii) (v : datetime) :
  (N_of_ascii c < 48)%N -> Py.has_char c (DT.strftime_Ymd v) = false.
Proof.
  intros Hc. unfold DT.strftime_Ymd, DT.strftime_Y.
  repeat match goal with |- context [if ?b then _ else _] => destruct b end;
    rewrite !has_char_app, !zfill_no_char by exact Hc; reflexivity.
Qed.

Lemma sha256_hash_not_unsigned (content : bytes_or_str) :
  sha256_hash content <> "UNSIGNED-PAYLOAD".
Proof.
  intros Heq. apply (f_equal String.length) in Heq.
  unfold sha256_hash, Hashlib.sha256_hexdigest in Heq.
  rewrite hex_length, sha256_length in Heq. discriminate.
Qed.

(** ** The Authorization header of the signer, parsed *)

Lemma parse_authorization_of_signer (credential signed_headers signature : string) :
  Py.contains ", " credential = false ->
  Py.contains ", " signed_headers = false ->
  Py.contains ", " signature = false ->
  _parse_authorization
    ("AWS4-HMAC-SHA256 Credential=" ++ credential ++ ", SignedHeaders=" ++ signed_headers
       ++ ", Signature=" ++ signature)
  = Return ("AWS4-HMAC-SHA256", credential, signed_headers, signature).
Proof.
  intros Hc Hsh Hsig. rewrite parse_authorization_by_fields.
  change (Py.partition " "
            ("AWS4-HMAC-SHA256 Credential=" ++ credential ++ ", SignedHeaders="
               ++ signed_headers ++ ", Signature=" ++ signature))
    with ("AWS4-HMAC-SHA256", " ",
          ("Credential=" ++ credential ++ ", SignedHeaders=" ++ signed_headers
             ++ ", Signature=" ++ signature)%string).
  cbn [fst snd].
  assert (Hsplit :
    Py.split ", " ("Credential=" ++ credential ++ ", SignedHeaders=" ++ signed_headers
                     ++ ", Signature=" ++ signature)
    = ["Credential=" ++ credential; "SignedHeaders=" ++ signed_headers;
       "Signature=" ++ signature]%string).
  { change ("Credential=" ++ credential ++ ", SignedHeaders=" ++ signed_headers
              ++ ", Signature=" ++ signature)%string
      with ("Credential=" ++ (credential ++ ", " ++ ("SignedHeaders=" ++ signed_headers
              ++ ", " ++ "Signature=" ++ signature)))%string.
    rewrite <- append_assoc, split_comma_space_app by exact Hc.
    rewrite <- append_assoc, split_comma_space_app by exact Hsh.
    rewrite split_comma_space_none by exact Hsig. reflexivity. }
  rewrite Hsplit. reflexivity.
Qed.

Lemma scope_split (date region service_name : string) :
  Py.has_char "/" date = false ->
  Py.has_char "/" region = false ->
  Py.has_char "/" service_name = false ->
  Py.split "/" (date ++ "/" ++ region ++ "/" ++ service_name ++ "/aws4_request")
  = [date; region; service_name; "aws4_request"].
Proof.
  intros Hd Hr Hs.
  change (date ++ "/" ++ region ++ "/" ++ service_name ++ "/aws4_request")%string
    with (date ++ String "/" (region ++ String "/" (service_name ++ String "/" "aws4_request")))%string.
  rewrite !split_char_app by assumption. reflexivity.
Qed.

(** ** The canonical headers of a signed request, recreated *)

Lemma last_value_others (name key : string) (h : CIMultiDict.t) :
  Py.lower key <> name ->
  last_value name (CIMultiDict.others key h) = last_value name h.
Proof.
  intros Hne. unfold CIMultiDict.others, CIMultiDict.same_key.
  induction h as [|[k w] h IH]; simpl; [reflexivity |].
  case_bool_decide as Hk; simpl.
  - rewrite IH. destruct (last_value name h); [reflexivity |].
    rewrite bool_decide_eq_false_2; [reflexivity | congruence].
  - rewrite IH. reflexivity.
Qed.

Lemma last_value_setitem_ne (name key : string) (v : header_value) (h : CIMultiDict.t) :
  Py.lower key <> name ->
  last_value name (CIMultiDict.setitem key v h) = last_value name h.
Proof.
  intros Hne. induction h as [|[k w] h IH]; simpl.
  - rewrite bool_decide_eq_false_2 by exact Hne. reflexivity.
  - unfold CIMultiDict.same_key. case_bool_decide as Hk; simpl.
    + rewrite (last_value_others _ _ _ Hne). destruct (last_value name h); [reflexivity |].
      rewrite !bool_decide_eq_false_2; [reflexivity | congruence | exact Hne].
    + rewrite IH. reflexivity.
Qed.

Lemma get_Some_elem (key : string) (h : CIMultiDict.t) (v : header_value) :
  CIMultiDict.get key h = Some v ->
  exists k, (k, v) ∈ h /\ Py.lower k = Py.lower key.
Proof.
  induction h as [|[k w] h IH]; simpl; [discriminate |].
  unfold CIMultiDict.same_key. case_bool_decide as Hk.
  - intros [= ->]. exists k. split; [left | exact Hk].
  - intros Hv. destruct (IH Hv) as [k' [Hin Hlow]]. exists k'. split; [right; exact Hin | exact Hlow].
Qed.

Lemma elem_of_setitem (key : string) (v : header_value) (h : CIMultiDict.t)
    (kw : string * header_value) :
  kw ∈ CIMultiDict.setitem key v h -> kw ∈ h \/ kw = (key, v).
Proof.
  induction h as [|[k w] h IH]; simpl.
  - intros Hin. apply list_elem_of_singleton in Hin. right. exact Hin.
  - destruct (CIMultiDict.same_key k key).
    + intros Hin. apply elem_of_cons in Hin as [-> | Hin]; [right; reflexivity |].
      left. right. unfold CIMultiDict.others in Hin.
      apply list_elem_of_In, filter_In in Hin as [Hin _]. apply list_elem_of_In, Hin.
    + intros Hin. apply elem_of_cons in Hin as [-> | Hin]; [left; left |].
      destruct (IH Hin) as [Hh | ->]; [left; right; exact Hh | right; reflexivity].
Qed.

Lemma contains_comma_space_join (l : list string) :
  Forall (fun x => Py.contains ", " x = false) l ->
  Py.contains ", " (Py.join ";" l) = false.
Proof.
  induction 1 as [|x l Hx Hall IH]; [reflexivity |].
  destruct l as [|y l]; [exact Hx |].
  rewrite join_cons_cons. change (";" ++ Py.join ";" (y :: l))%string
    with (String ";" (Py.join ";" (y :: l))).
  apply contains_comma_space_app; [reflexivity | exact Hx |].
  rewrite contains_cons. exact IH.
Qed.

(** In restricted mode, with the signed-header list that full mode made for
    the mapping [h], the mapping [h] with its Authorization entry set gives
    the dict of full mode again. *)
Lemma restricted_dict_of_signed (h : CIMultiDict.t) (authorization : header_value) :
  (forall key values, (key, values) ∈ h -> Py.has_char ";" (Py.lower key) = false) ->
  is_Some (CIMultiDict.get "x-amz-content-sha256" h) ->
  restricted_dict (CIMultiDict.setitem "Authorization" authorization h)
    (Py.split ";" (Py.join ";" (map fst (sorted_items (full_dict h)))))
  = full_dict h.
Proof.
  intros Hnames [w Hw].
  set (names := map fst (sorted_items (full_dict h))).
  assert (Hsplit : Py.split ";" (Py.join ";" names) = names).
  { apply split_join_char.
    - destruct (get_Some_elem _ _ _ Hw) as [k [Hin Hlow]].
      assert (Hmem : "x-amz-content-sha256" ∈ names).
      { apply full_mode_names. split.
        - intros Hex. repeat (apply elem_of_cons in Hex as [Hex | Hex]; [discriminate |]).
          inversion Hex.
        - exists k, w. split; [exact Hin | exact Hlow]. }
      intros Hnil. rewrite Hnil in Hmem. inversion Hmem.
    - apply Forall_forall. intros name Hname.
      apply full_mode_names in Hname as [_ (key & values & Hin & <-)].
      eapply Hnames, Hin. }
  rewrite Hsplit. apply map_eq. intros name.
  rewrite restricted_dict_lookup, full_dict_lookup.
  case_bool_decide as Hin.
  - pose proof Hin as Hin'. apply full_mode_names in Hin' as [Hex _].
    rewrite bool_decide_eq_true_2 by exact Hex.
    rewrite last_value_setitem_ne; [reflexivity |].
    intros <-. apply Hex. left.
  - case_bool_decide as Hex; [|reflexivity].
    destruct (last_value name h) as [values|] eqn:Hl; [|reflexivity].
    exfalso. apply Hin. apply full_mode_names. split; [exact Hex |].
    destruct (last_value_elem _ _ _ Hl) as [key [Hkey Hlow]]. eauto.
Qed.

(** ** The round trip *)

Lemma contains_comma_space_slash (a b : string) :
  Py.contains ", " a = false ->
  Py.contains ", " b = false ->
  Py.contains ", " (a ++ "/" ++ b) = false.
Proof.
  intros Ha Hb. change ("/" ++ b)%string with (String "/" b).
  apply contains_comma_space_app; [reflexivity | exact Ha | exact Hb].
Qed.

Section RoundTrip.

Context `{Collaborators}.
Variables (service_name method url region : string).
Variables (headers : CIMultiDict.t) (content : bytes_or_str).
Variables (access_key secret_key : string) (date : datetime).
Variables (u : ParseResult) (canonical_query_string : string) (utc : datetime).

Hypothesis Hurl : urlparse url = Return u.
Hypothesis Hquery : _generate_canonical_query_string (query u) = Return canonical_query_string.
Hypothesis Hutc : _to_utc date = Return utc.

(** What the signer computes. *)
Let content_sha256 : string :=
  if bool_decide (scheme u = "http") then sha256_hash content else "UNSIGNED-PAYLOAD".
Let headers1 : CIMultiDict.t :=
  if CIMultiDict.contains "x-amz-content-sha256" headers then headers
  else CIMultiDict.setitem "x-amz-content-sha256" (Str content_sha256) headers.
Let items : list (string * string) := sorted_items (full_dict headers1).
Let signed_headers : string := Py.join ";" (map fst items).
Let request_scope : string :=
  DT.strftime_Ymd utc ++ "/" ++ region ++ "/" ++ service_name ++ "/aws4_request".
Let request_hash : string :=
  sha256_hash
    (IsStr (canonical_request method (_quote (path_or_slash u)) canonical_query_string
              (Py.join LF (map header_line items)) signed_headers content_sha256)).
Let request_string_to_sign : string :=
  "AWS4-HMAC-SHA256" ++ LF ++ DT.strftime_YmdTHMSZ utc ++ LF ++ request_scope ++ LF
    ++ request_hash.
Let request_signature : string :=
  generate_signature
    (generate_signing_key secret_key (DT.strftime_Ymd utc) region service_name)
    request_string_to_sign.
Let authorization : string :=
  "AWS4-HMAC-SHA256 Credential=" ++ (access_key ++ "/" ++ request_scope)
    ++ ", SignedHeaders=" ++ signed_headers ++ ", Signature=" ++ request_signature.
Let signed : CIMultiDict.t :=
  CIMultiDict.setitem "Authorization" (Str authorization) headers1.

Lemma sign_request_value :
  sign_request service_name method url region headers content
    access_key secret_key date
  = (signed, Return signed).
Proof.
  unfold sign_request. rewrite Hurl.
  unfold to_signer_date, to_amz_date. rewrite Hutc. cbn [mbind mret result_bind result_ret].
  unfold _generate_canonical_request_hash, _generate_canonical_headers.
  rewrite Hquery. cbn [mbind mret result_bind result_ret negb].
  assert (Hauth :
    ("AWS4-HMAC-SHA256 Credential=" ++ access_key ++ "/" ++ request_scope
       ++ ", SignedHeaders=" ++ signed_headers ++ ", Signature=" ++ request_signature)%string
    = authorization).
  { unfold authorization. rewrite !append_assoc. reflexivity. }
  unfold signed, headers1, content_sha256 in *.
  destruct (CIMultiDict.contains "x-amz-content-sha256" headers);
    cbn [negb]; rewrite <- Hauth; reflexivity.
Qed.

Lemma get_signed (key : string) :
  CIMultiDict.same_key "Authorization" key = false ->
  CIMultiDict.same_key "x-amz-content-sha256" key = false ->
  CIMultiDict.get key signed = CIMultiDict.get key headers.
Proof.
  intros Ha Hc. unfold signed, headers1. rewrite (get_setitem_ne _ _ _ _ Ha).
  destruct (CIMultiDict.contains "x-amz-content-sha256" headers); [reflexivity |].
  apply get_setitem_ne, Hc.
Qed.

Lemma get_authorization_signed :
  CIMultiDict.get "Authorization" signed = Some (Str authorization).
Proof. unfold signed. apply get_setitem. Qed.

Lemma get_content_sha256_signed :
  CIMultiDict.get "x-amz-content-sha256" signed
  = match CIMultiDict.get "x-amz-content-sha256" headers with
    | Some w => Some w
    | None => Some (Str content_sha256)
    end.
Proof.
  unfold signed, headers1, CIMultiDict.contains.
  rewrite get_setitem_ne by reflexivity.
  destruct (CIMultiDict.get "x-amz-content-sha256" headers) as [w|] eqn:Hw;
    [exact Hw | apply get_setitem].
Qed.

Hypothesis Hsha :
  forall w, CIMultiDict.get "x-amz-content-sha256" headers = Some w ->
            w <> Str "UNSIGNED-PAYLOAD" <-> scheme u = "http".

Lemma content_sha256_of_signed :
  (if bool_decide (default (Str "UNSIGNED-PAYLOAD")
                     (CIMultiDict.get "x-amz-content-sha256" signed)
                   <> Str "UNSIGNED-PAYLOAD")
   then sha256_hash content
   else "UNSIGNED-PAYLOAD")
  = content_sha256.
Proof.
  rewrite get_content_sha256_signed. unfold content_sha256.
  destruct (CIMultiDict.get "x-amz-content-sha256" headers) as [w|] eqn:Hw; simpl.
  - pose proof (Hsha w eq_refl) as Hiff.
    case_bool_decide as Hu; case_bool_decide as Hne; try reflexivity; tauto.
  - destruct (decide (scheme u = "http")) as [Hu | Hu].
    + rewrite !(bool_decide_eq_true_2 (scheme u = "http") Hu).
      rewrite bool_decide_eq_true_2; [reflexivity |].
      intros Heq. apply (sha256_hash_not_unsigned content).
      exact (f_equal (fun v => match v with Str s => s | Seq _ => "" end) Heq).
    + rewrite !(bool_decide_eq_false_2 (scheme u = "http") Hu).
      rewrite bool_decide_eq_false_2; [reflexivity |]. intros Hne. apply Hne. reflexivity.
Qed.

Hypothesis Hnames :
  forall key values, (key, values) ∈ headers ->
    Py.has_char ";" (Py.lower key) = false /\ Py.contains ", " (Py.lower key) = false.

Lemma headers1_names (key : string) (values : header_value) :
  (key, values) ∈ headers1 ->
  Py.has_char ";" (Py.lower key) = false /\ Py.contains ", " (Py.lower key) = false.
Proof.
  unfold headers1. destruct (CIMultiDict.contains "x-amz-content-sha256" headers).
  - apply Hnames.
  - intros Hin. apply elem_of_setitem in Hin as [Hin | [= -> _]].
    + eapply Hnames, Hin.
    + split; reflexivity.
Qed.

Lemma headers1_content_sha256 :
  is_Some (CIMultiDict.get "x-amz-content-sha256" headers1).
Proof.
  unfold headers1, CIMultiDict.contains.
  destruct (CIMultiDict.get "x-amz-content-sha256" headers) as [w|] eqn:Hw.
  - rewrite Hw. eauto.
  - rewrite get_setitem. eauto.
Qed.

Lemma recreate_canonical_headers_signed :
  _recreate_canonical_headers signed signed_headers = Py.join LF (map header_line items).
Proof.
  unfold _recreate_canonical_headers, signed, signed_headers, items.
  rewrite restricted_dict_of_signed; [reflexivity | | apply headers1_content_sha256].
  intros key values Hin. eapply headers1_names, Hin.
Qed.

Lemma signed_headers_no_comma_space : Py.contains ", " signed_headers = false.
Proof.
  unfold signed_headers. apply contains_comma_space_join, Forall_forall.
  intros name Hname. apply full_mode_names in Hname as [_ (key & values & Hin & <-)].
  eapply headers1_names, Hin.
Qed.

Variables (now : Z) (amz_date : string) (parsed : datetime) (off : Z).

Hypothesis Hamz : amz_date = DT.strftime_YmdTHMSZ utc.
Hypothesis Hdate : CIMultiDict.get "x-amz-date" headers = Some (Str amz_date).
Hypothesis Hparse : parser_parse amz_date = Return parsed.
Hypothesis Htz : tzinfo parsed = Some off.
Hypothesis Hdrift : (Z.abs (now - DT.instant parsed off) <= 5 * 1000000)%Z.
Hypothesis Hak : Py.has_char "/" access_key = false /\ Py.contains ", " access_key = false.
Hypothesis Hregion : Py.has_char "/" region = false /\ Py.contains ", " region = false.
Hypothesis Hservice :
  Py.has_char "/" service_name = false /\ Py.contains ", " service_name = false.

Lemma request_scope_split :
  Py.split "/" request_scope
  = [DT.strftime_Ymd utc; region; service_name; "aws4_request"].
Proof.
  apply scope_split; [apply strftime_Ymd_no_char; reflexivity | apply Hregion | apply Hservice].
Qed.

Lemma generate_challenge_signed :
  generate_challenge now method u signed content
  = Return {| scope := request_scope; string_to_sign := request_string_to_sign;
              signature := request_signature; access_key_id := Some access_key |}.
Proof.
  unfold generate_challenge, CIMultiDict.getitem.
  rewrite get_authorization_signed. cbn [mbind mret result_bind result_ret].
  unfold authorization at 1. rewrite parse_authorization_of_signer.
  - cbn [mbind mret result_bind result_ret]. rewrite content_sha256_of_signed.
    unfold Py.split_max1. change ("/" ++ request_scope)%string with (String "/" request_scope).
    rewrite (partition_char_app "/" _ _ (proj1 Hak)).
    cbn [unpack2 mbind mret result_bind result_ret].
    rewrite request_scope_split. cbn [removelast unpack3 mbind mret result_bind result_ret].
    rewrite (_parse_key_date_fresh now signed amz_date parsed off); try assumption.
    + cbn [mbind mret result_bind result_ret].
      unfold _recreate_canonical_request_hash.
      rewrite recreate_canonical_headers_signed, Hquery.
      cbn [mbind mret result_bind result_ret].
      unfold request_string_to_sign, request_hash. rewrite Hamz. reflexivity.
    + rewrite get_signed by reflexivity. exact Hdate.
  - apply contains_comma_space_slash; [apply Hak |].
    unfold request_scope. repeat apply contains_comma_space_slash;
      try apply Hregion; try apply Hservice.
    + apply has_char_comma_contains, strftime_Ymd_no_char. reflexivity.
    + reflexivity.
  - apply signed_headers_no_comma_space.
  - apply has_char_comma_contains. unfold request_signature, generate_signature, _hmac_hash.
    apply hex_no_comma.
Qed.

Lemma round_trip_returns :
  round_trip now service_name method url region headers content
    access_key secret_key date
  = Return ().
Proof.
  unfold round_trip. rewrite sign_request_value. cbn [snd mbind mret result_bind result_ret].
  rewrite Hurl. cbn [mbind mret result_bind result_ret].
  rewrite generate_challenge_signed. cbn [mbind mret result_bind result_ret].
  rewrite validate_challenge_unfold. cbn [scope string_to_sign signature].
  rewrite request_scope_split. cbn [removelast].
  rewrite bool_decide_eq_false_2; [reflexivity |].
  intros Hne. apply Hne. reflexivity.
Qed.

End RoundTrip.

(** C1, as amended.  Signing a request, extracting the challenge of the
    signed request and validating it with the same secret succeeds when
    - the URL parses, and its query is a string or decodable bytes;
    - the timestamp formats, and the headers given to the signer carry it in
      their x-amz-date entry in the AMZ format, which the date parser reads
      as an instant within 5 seconds of the time of the extraction;
    - an x-amz-content-sha256 entry given to the signer, if any, is other
      than UNSIGNED-PAYLOAD exactly when the scheme is http;
    - no header name contains ";" or ", ", and none of the access key id,
      the region and the service name contains "/" or ", ". *)
Theorem round_trip_succeeds `{Collaborators} (now : Z)
    (service_name method url region : string)
    (headers : CIMultiDict.t) (content : bytes_or_str)
    (access_key secret_key : string) (date : datetime)
    (u : ParseResult) (canonical_query amz_date : string)
    (parsed : datetime) (off : Z) :
  urlparse url = Return u ->
  _generate_canonical_query_string (query u) = Return canonical_query ->
  to_amz_date date = Return amz_date ->
  CIMultiDict.get "x-amz-date" headers = Some (Str amz_date) ->
  parser_parse amz_date = Return parsed ->
  tzinfo parsed = Some off ->
  (Z.abs (now - DT.instant parsed off) <= 5 * 1000000)%Z ->
  (forall w, CIMultiDict.get "x-amz-content-sha256" headers = Some w ->
             w <> Str "UNSIGNED-PAYLOAD" <-> scheme u = "http") ->
  (forall key values, (key, values) ∈ headers ->
     Py.has_char ";" (Py.lower key) = false /\ Py.contains ", " (Py.lower key) = false) ->
  Py.has_char "/" access_key = false /\ Py.contains ", " access_key = false ->
  Py.has_char "/" region = false /\ Py.contains ", " region = false ->
  Py.has_char "/" service_name = false /\ Py.contains ", " service_name = false ->
  round_trip now service_name method url region headers content
    access_key secret_key date
  = Return ().
Proof.
  intros Hurl Hquery Hamz Hdate Hparse Htz Hdrift Hsha Hnames Hak Hregion Hservice.
  unfold to_amz_date in Hamz.
  destruct (_to_utc date) as [utc|e] eqn:Hutc; [|discriminate].
  injection Hamz as <-.
  eapply round_trip_returns; eauto.
Qed.

Lemma round_trip_succeeds_witness :
  round_trip (H := simple_collaborators) (test_now + 5000000)%Z "service" "PUT"
    "http://host/my/path?foo=bar" "ksa" unsigned_headers
    (IsBytes (Py.encode "somecontent")) "access-key" "secret-key" test_date
  = Return ().
Proof.
  apply (round_trip_succeeds (H := simple_collaborators) (test_now + 5000000)%Z
           "service" "PUT" "http://host/my/path?foo=bar" "ksa" unsigned_headers
           (IsBytes (Py.encode "somecontent")) "access-key" "secret-key" test_date
           {| scheme := "http"; path := "/my/path"; query := IsStr "foo=bar" |}
           "foo=bar" "20230809T010203Z" (Datetime 2023 8 9 1 2 3 0 (Some 0%Z)) 0%Z).
  - reflexivity.
  - reflexivity.
  - reflexivity.
  - reflexivity.
  - reflexivity.
  - reflexivity.
  - vm_compute. discriminate.
  - intros w Hw. discriminate Hw.
  - intros key values Hin.
    repeat (apply elem_of_cons in Hin as [Hin | Hin];
            [injection Hin as -> ->; split; reflexivity |]).
    inversion Hin.
  - split; reflexivity.
  - split; reflexivity.
  - split; reflexivity.
Defined.

(** The round trip of a request without an x-amz-date header: the signer
    does not add one, and the extraction of the challenge requires it. *)
Lemma round_trip_counterexample :
  round_trip (H := simple_collaborators) test_now "service" "PUT"
    "http://host/my/path?foo=bar" "ksa"
    [("foo", Str "hello    world"); ("BaZ", Str "wut")]
    (IsBytes (Py.encode "somecontent")) "access-key" "secret-key" test_date
  = Raise (MissingHeaderError "Missing supported date header").
Proof. vm_compute. reflexivity. Qed.

Example round_trip_of_test_request :
  round_trip (H := simple_collaborators) test_now "service" "PUT"
    "http://host/my/path?foo=bar" "ksa" unsigned_headers
    (IsBytes (Py.encode "somecontent")) "access-key" "secret-key" test_date
  = Return ().
Proof. vm_compute. reflexivity. Qed.

(** * Further properties of the module *)

(** ** Hashes *)

Lemma hex_all_lower_hex (bs : list byte) : all_chars is_lower_hex (Hashlib.hex bs) = true.
Proof.
  induction bs as [|b bs IH]; [reflexivity |].
  simpl. rewrite IH. destruct b; reflexivity.
Qed.

Lemma sha256_hash_bytes (b : list byte) :
  sha256_hash (IsBytes b) = Hashlib.sha256_hexdigest b.
Proof. destruct b; reflexivity. Qed.

Lemma sha256_hash_str (s : string) :
  sha256_hash (IsStr s) = Hashlib.sha256_hexdigest (Py.encode s).
Proof. destruct s; reflexivity. Qed.

(** X1.  [sha256_hash] gives 64 characters of lower-case hexadecimal text
    for every payload; an absent payload, the empty bytes and the empty
    string all hash as the empty message; a string hashes as its UTF-8
    bytes. *)
Theorem sha256_hash_format (data : bytes_or_str) :
  String.length (sha256_hash data) = 64%nat
  /\ all_chars is_lower_hex (sha256_hash data) = true
  /\ sha256_hash IsNone = sha256_hash (IsBytes [])
  /\ sha256_hash (IsStr "") = sha256_hash (IsBytes [])
  /\ sha256_hash (IsBytes [])
     = "e3b0c44298fc1c149afbf4c8996fb92427ae41e4649b934ca495991b7852b855"
  /\ (forall s, sha256_hash (IsStr s) = sha256_hash (IsBytes (Py.encode s))).
Proof.
  refine (conj _ (conj _ (conj eq_refl (conj eq_refl (conj _ _))))).
  - unfold sha256_hash, Hashlib.sha256_hexdigest. rewrite hex_length, sha256_length. reflexivity.
  - unfold sha256_hash, Hashlib.sha256_hexdigest. apply hex_all_lower_hex.
  - vm_compute. reflexivity.
  - intros s. rewrite sha256_hash_str, sha256_hash_bytes. reflexivity.
Qed.

(** X2.  A signature is 64 characters of lower-case hexadecimal text,
    whatever the key and the string to sign: the hexadecimal text of the
    32 bytes of the HMAC-SHA256 of the string under the key. *)
Theorem generate_signature_format (signing_key : list byte) (string_to_sign : string) :
  String.length (generate_signature signing_key string_to_sign) = 64%nat
  /\ all_chars is_lower_hex (generate_signature signing_key string_to_sign) = true
  /\ generate_signature signing_key string_to_sign
     = Hashlib.hex (_hmac_hash signing_key (Py.encode string_to_sign) false)
  /\ List.length (_hmac_hash signing_key (Py.encode string_to_sign) false) = 32%nat.
Proof.
  unfold generate_signature, _hmac_hash.
  rewrite hex_length, hmac_sha256_length.
  refine (conj eq_refl (conj _ (conj eq_refl eq_refl))). apply hex_all_lower_hex.
Qed.

(** ** The canonical path *)

Lemma contains_false_cons (sub : string) (c : ascii) (s : string) :
  Py.contains sub (String c s) = false ->
  Py.strip_prefix sub (String c s) = None /\ Py.contains sub s = false.
Proof.
  rewrite contains_cons. destruct (Py.strip_prefix sub (String c s)); [discriminate |].
  intros Hs. split; [reflexivity | exact Hs].
Qed.

Lemma replace_without_occurrence (old new s : string) :
  Py.contains old s = false -> Py.replace old new s = s.
Proof.
  unfold Py.replace. induction s as [|c s IH]; [reflexivity |].
  intros Hs. apply contains_false_cons in Hs as [Hc Hs].
  simpl Py.replace_aux. simpl in Hc. rewrite Hc, (IH Hs). reflexivity.
Qed.

Lemma quote_bytes_kept (c : ascii) (s : string) :
  quote_kept c = true ->
  quote_bytes "/" (Py.encode (String c s)) = String c (quote_bytes "/" (Py.encode s)).
Proof.
  destruct c as [[] [] [] [] [] [] [] []]; intros Hc; try discriminate Hc; reflexivity.
Qed.

Lemma quote_bytes_step (b : byte) (bs : list byte) :
  Py.contains "%7E" (quote_bytes "/" (b :: bs)) = Py.contains "%7E" (quote_bytes "/" bs)
  /\ all_chars quote_result_char (quote_bytes "/" (b :: bs))
     = all_chars quote_result_char (quote_bytes "/" bs).
Proof. destruct b; split; reflexivity. Qed.

Lemma quote_bytes_result (bs : list byte) :
  Py.contains "%7E" (quote_bytes "/" bs) = false
  /\ all_chars quote_result_char (quote_bytes "/" bs) = true.
Proof.
  induction bs as [|b bs [IH1 IH2]]; [split; reflexivity |].
  destruct (quote_bytes_step b bs) as [-> ->]. split; assumption.
Qed.

(** X3.  [_quote] leaves a path of letters, digits, [_.-~] and "/" as it
    is. *)
Theorem _quote_keeps_unreserved (resource : string) :
  all_chars quote_kept resource = true -> _quote resource = resource.
Proof.
  intros Hall. unfold _quote, urllib_parse_quote.
  assert (Hq : quote_bytes "/" (Py.encode resource) = resource).
  { induction resource as [|c s IH]; [reflexivity |].
    simpl in Hall. apply andb_true_iff in Hall as [Hc Hs].
    rewrite (quote_bytes_kept c s Hc), (IH Hs). reflexivity. }
  rewrite Hq. apply replace_without_occurrence.
  rewrite <- Hq. apply quote_bytes_result.
Qed.

Lemma _quote_keeps_unreserved_witness :
  all_chars quote_kept "/my/path-1.0/~user_a" = true
  /\ _quote "/my/path-1.0/~user_a" = "/my/path-1.0/~user_a".
Proof.
  refine (conj eq_refl _). apply (_quote_keeps_unreserved "/my/path-1.0/~user_a"). reflexivity.
Defined.

(** X4.  The result of [_quote] is made of letters, digits, [_.-~], "/" and
    "%" only, whatever the path, and never holds an escaped tilde "%7E". *)
Theorem _quote_result (resource : string) :
  all_chars quote_result_char (_quote resource) = true
  /\ Py.contains "%7E" (_quote resource) = false.
Proof.
  unfold _quote, urllib_parse_quote.
  destruct (quote_bytes_result (Py.encode resource)) as [H7E Hall].
  rewrite (replace_without_occurrence _ _ _ H7E). split; assumption.
Qed.

Example _quote_space_and_percent : _quote "/a b/100%~" = "/a%20b/100%25~".
Proof. reflexivity. Qed.

(** ** The calendar *)

Lemma forall_range_spec (p : Z -> bool) (n : positive) (lo z : Z) :
  forall_range p lo n = true -> (lo <= z < lo + Zpos n)%Z -> p z = true.
Proof.
  revert lo. induction n as [n IH | n IH |]; intros lo; simpl.
  - rewrite !andb_true_iff. intros [[Hlo H1] H2] Hz.
    destruct (Z.eq_dec z lo) as [-> | Hne]; [exact Hlo |].
    destruct (Z_lt_ge_dec z (lo + 1 + Zpos n)) as [Hlt | Hge].
    + apply (IH (lo + 1)%Z H1). lia.
    + apply (IH (lo + 1 + Zpos n)%Z H2). lia.
  - rewrite !andb_true_iff. intros [H1 H2] Hz.
    destruct (Z_lt_ge_dec z (lo + Zpos n)) as [Hlt | Hge].
    + apply (IH lo H1). lia.
    + apply (IH (lo + Zpos n)%Z H2). lia.
  - intros Hlo Hz. assert (z = lo) as -> by lia. exact Hlo.
Qed.

Lemma day_round_trip_era :
  forall_range day_round_trip (-719468) 146097 = true.
Proof. vm_compute. reflexivity. Qed.

Lemma date_round_trip_era :
  forall_range
    (fun y => forall_range (fun m => forall_range (date_round_trip y m) 1 31) 1 12)
    0 400 = true.
Proof. vm_compute. reflexivity. Qed.

Lemma civil_from_days_shift (z k : Z) :
  DT.civil_from_days (z + 146097 * k)
  = let '(y, m, d) := DT.civil_from_days z in ((y + 400 * k)%Z, m, d).
Proof.
  unfold DT.civil_from_days. cbv zeta.
  replace (z + 146097 * k + 719468)%Z with (z + 719468 + k * 146097)%Z by lia.
  rewrite Z.div_add by lia.
  set (a := (z + 719468)%Z). set (e := (a / 146097)%Z).
  replace (a + k * 146097 - (e + k) * 146097)%Z with (a - e * 146097)%Z by lia.
  set (doe := (a - e * 146097)%Z).
  set (yoe := ((doe - doe / 1460 + doe / 36524 - doe / 146096) / 365)%Z).
  set (doy := (doe - (365 * yoe + yoe / 4 - yoe / 100))%Z).
  set (mp := ((5 * doy + 2) / 153)%Z).
  set (mm := if (mp <? 10)%Z then (mp + 3)%Z else (mp - 9)%Z).
  destruct (mm <=? 2)%Z; f_equal; f_equal; lia.
Qed.

Lemma days_from_civil_shift (y m d k : Z) :
  DT.days_from_civil (y + 400 * k) m d = (DT.days_from_civil y m d + 146097 * k)%Z.
Proof.
  unfold DT.days_from_civil. cbv zeta.
  set (y1 := (if (m <=? 2)%Z then (y - 1)%Z else y)).
  replace (if (m <=? 2)%Z then (y + 400 * k - 1)%Z else (y + 400 * k)%Z)
    with (y1 + k * 400)%Z by (unfold y1; destruct (m <=? 2)%Z; lia).
  rewrite Z.div_add by lia.
  set (e := (y1 / 400)%Z).
  replace (y1 + k * 400 - (e + k) * 400)%Z with (y1 - e * 400)%Z by lia.
  lia.
Qed.

Lemma is_leap_shift (y k : Z) : is_leap (y + 400 * k) = is_leap y.
Proof.
  unfold is_leap.
  replace ((y + 400 * k) mod 4)%Z with (y mod 4)%Z
    by (replace (400 * k)%Z with (100 * k * 4)%Z by lia; symmetry; apply Z.mod_add; lia).
  replace ((y + 400 * k) mod 100)%Z with (y mod 100)%Z
    by (replace (400 * k)%Z with (4 * k * 100)%Z by lia; symmetry; apply Z.mod_add; lia).
  replace ((y + 400 * k) mod 400)%Z with (y mod 400)%Z
    by (replace (400 * k)%Z with (k * 400)%Z by lia; symmetry; apply Z.mod_add; lia).
  reflexivity.
Qed.

Lemma days_in_month_shift (y m k : Z) : days_in_month (y + 400 * k) m = days_in_month y m.
Proof. unfold days_in_month. rewrite is_leap_shift. reflexivity. Qed.

(** A day number gives a date of the calendar, which gives the day number
    back. *)
Lemma days_of_civil_from_days (z : Z) :
  let '(y, m, d) := DT.civil_from_days z in
  DT.days_from_civil y m d = z /\ valid_date y m d.
Proof.
  set (k := ((z + 719468) / 146097)%Z).
  set (z0 := (z - 146097 * k)%Z).
  assert (Hz0 : (-719468 <= z0 < -719468 + 146097)%Z).
  { pose proof (Z.mod_pos_bound (z + 719468) 146097 eq_refl) as Hb.
    rewrite Z.mod_eq in Hb by lia. fold k in Hb. unfold z0. lia. }
  pose proof (forall_range_spec _ _ _ _ day_round_trip_era Hz0) as Hok.
  assert (Hz : z = (z0 + 146097 * k)%Z) by (unfold z0; lia).
  clearbody z0 k. subst z.
  rewrite civil_from_days_shift. unfold day_round_trip in Hok.
  destruct (DT.civil_from_days z0) as [[y m] d].
  rewrite !andb_true_iff in Hok. destruct Hok as [[[[Hd Hm1] Hm2] Hd1] Hd2].
  rewrite days_from_civil_shift. unfold valid_date. rewrite days_in_month_shift.
  apply Z.eqb_eq in Hd. lia.
Qed.

(** A date of the calendar gives a day number, which gives the date back. *)
Lemma civil_of_days_from_civil (y m d : Z) :
  valid_date y m d -> DT.civil_from_days (DT.days_from_civil y m d) = (y, m, d).
Proof.
  intros [Hm Hd].
  set (k := (y / 400)%Z). set (y0 := (y - 400 * k)%Z).
  assert (Hy0 : (0 <= y0 < 0 + 400)%Z).
  { pose proof (Z.mod_pos_bound y 400 eq_refl) as Hb.
    rewrite Z.mod_eq in Hb by lia. fold k in Hb. unfold y0. lia. }
  assert (Hy : y = (y0 + 400 * k)%Z) by (unfold y0; lia).
  clearbody y0 k. subst y. rewrite days_in_month_shift in Hd.
  pose proof (forall_range_spec _ _ _ _ date_round_trip_era Hy0) as Hok. cbv beta in Hok.
  assert (Hm' : (1 <= m < 1 + 12)%Z) by lia.
  pose proof (forall_range_spec _ _ _ _ Hok Hm') as Hok'. cbv beta in Hok'.
  assert (Hd' : (1 <= d < 1 + 31)%Z).
  { unfold days_in_month in Hd. destruct (m =? 2)%Z; [destruct (is_leap y0) |];
      [lia | lia |]. destruct (_ || _); lia. }
  pose proof (forall_range_spec _ _ _ _ Hok' Hd') as Hrt. unfold date_round_trip in Hrt.
  rewrite days_from_civil_shift, civil_from_days_shift.
  destruct (DT.civil_from_days (DT.days_from_civil y0 m d)) as [[y' m'] d'].
  apply orb_true_iff in Hrt as [Hbad | Hrt].
  - apply negb_true_iff, Z.leb_gt in Hbad. lia.
  - rewrite !andb_true_iff in Hrt. destruct Hrt as [[Hy' Hm''] Hd''].
    apply Z.eqb_eq in Hy', Hm'', Hd''. subst. reflexivity.
Qed.

(** ** Dates *)

Lemma string_length_append (s t : string) :
  String.length (s ++ t) = (String.length s + String.length t)%nat.
Proof.
  induction s as [|c s IH]; [reflexivity |]. rewrite append_cons. simpl. rewrite IH. reflexivity.
Qed.

Lemma all_chars_append (p : ascii -> bool) (s t : string) :
  all_chars p (s ++ t) = all_chars p s && all_chars p t.
Proof.
  induction s as [|c s IH]; [reflexivity |]. rewrite append_cons. simpl.
  rewrite IH. apply andb_assoc.
Qed.

Lemma zfill_length (w : nat) (n : Z) : String.length (DT.zfill w n) = w.
Proof.
  revert n. induction w as [|w IH]; intros n; [reflexivity |].
  simpl. rewrite string_length_append, IH. simpl. lia.
Qed.

Lemma zfill_digits (w : nat) (n : Z) : all_chars is_digit (DT.zfill w n) = true.
Proof.
  revert n. induction w as [|w IH]; intros n; [reflexivity |].
  simpl. rewrite all_chars_append, IH. simpl.
  pose proof (Z.mod_pos_bound n 10 eq_refl) as Hb.
  unfold is_digit. rewrite N_ascii_embedding by lia.
  rewrite andb_true_r. apply andb_true_iff. split; apply N.leb_le; lia.
Qed.

Lemma strftime_Y_length (y : Z) :
  (1 <= String.length (DT.strftime_Y y) <= 4)%nat
  /\ ((1000 <= y)%Z -> String.length (DT.strftime_Y y) = 4%nat).
Proof.
  unfold DT.strftime_Y.
  repeat match goal with
         | |- context [if ?b then _ else _] => destruct b eqn:?
         end;
    rewrite zfill_length; (split; [lia |]); intros Hy; try reflexivity;
    repeat match goal with H : (_ <? _)%Z = true |- _ => apply Z.ltb_lt in H end; lia.
Qed.

Lemma strftime_Y_digits (y : Z) : all_chars is_digit (DT.strftime_Y y) = true.
Proof.
  unfold DT.strftime_Y.
  repeat match goal with |- context [if ?b then _ else _] => destruct b end;
    apply zfill_digits.
Qed.

Example strftime_of_early_years :
  DT.strftime_Ymd (Datetime 999 1 1 0 0 0 0 None) = "9990101"
  /\ DT.strftime_YmdTHMSZ (Datetime 1 2 3 4 5 6 0 None) = "10203T040506Z"
  /\ DT.strftime_YmdTHMSZ (Datetime 2023 8 9 1 2 3 0 None) = "20230809T010203Z".
Proof. repeat split. Qed.

(** X5.  The two date formats go together: when [to_amz_date] returns, it
    returns a date, "T", 6 digits and "Z", where the date is what
    [to_signer_date] returns: digits only, the year of the value in UTC
    as it is written, without padding, then two digits for the month and
    two for the day, that is 8 digits from the year 1000 on and between 5
    and 7 before; a naive datetime always formats; the only failure of
    either is the [OverflowError] of the conversion of an aware datetime to
    UTC, and they fail together. *)
Theorem date_formats (value : datetime) :
  (forall amz_date,
      to_amz_date value = Return amz_date ->
      exists utc date time,
        _to_utc value = Return utc
        /\ to_signer_date value = Return date
        /\ amz_date = (date ++ "T" ++ time ++ "Z")%string
        /\ (5 <= String.length date <= 8)%nat
        /\ ((1000 <= year utc)%Z -> String.length date = 8%nat)
        /\ ((1 <= year utc < 1000)%Z -> (String.length date < 8)%nat)
        /\ String.length time = 6%nat
        /\ all_chars is_digit date = true /\ all_chars is_digit time = true)
  /\ (tzinfo value = None ->
      to_amz_date value = Return (DT.strftime_YmdTHMSZ value)
      /\ to_signer_date value = Return (DT.strftime_Ymd value))
  /\ (forall e, to_amz_date value = Raise e <-> to_signer_date value = Raise e)
  /\ (forall e, to_amz_date value = Raise e -> e = OverflowError /\ tzinfo value <> None).
Proof.
  unfold to_amz_date, to_signer_date.
  refine (conj _ (conj _ (conj _ _))).
  - intros amz_date Hamz.
    destruct (_to_utc value) as [v|e]; [|discriminate].
    injection Hamz as <-.
    exists v, (DT.strftime_Ymd v),
           (DT.zfill 2 (hour v) ++ DT.zfill 2 (minute v) ++ DT.zfill 2 (second v))%string.
    pose proof (strftime_Y_length (year v)) as [Hlen Hfour].
    unfold DT.strftime_YmdTHMSZ, DT.strftime_Ymd.
    rewrite !string_length_append, !zfill_length, !all_chars_append, !zfill_digits,
      strftime_Y_digits.
    refine (conj eq_refl (conj eq_refl (conj _ (conj _ (conj _ (conj _
              (conj eq_refl (conj eq_refl eq_refl)))))))).
    + rewrite !append_assoc. reflexivity.
    + lia.
    + intros Hy. rewrite (Hfour Hy). reflexivity.
    + intros Hy. assert (String.length (DT.strftime_Y (year v)) < 4)%nat; [|lia].
      unfold DT.strftime_Y.
      repeat match goal with
             | |- context [if ?b then _ else _] => destruct b eqn:?
             end;
        rewrite zfill_length; lia.
  - unfold _to_utc. intros Htz. rewrite Htz. split; reflexivity.
  - intros e. destruct (_to_utc value) as [v|e'];
      split; intros He; try discriminate He; exact He.
  - intros e. unfold _to_utc. destruct (tzinfo value) as [off|]; [|discriminate].
    unfold DT.astimezone_utc. destruct (DT.civil_from_days _) as [[y m] d].
    destruct (_ && _); [discriminate |]. intros [= <-]. split; [reflexivity | discriminate].
Qed.

Lemma date_formats_witness :
  to_amz_date (Datetime 2023 8 9 1 2 3 0 (Some 7200000000%Z)) = Return "20230808T230203Z"
  /\ to_signer_date (Datetime 2023 8 9 1 2 3 0 (Some 7200000000%Z)) = Return "20230808".
Proof.
  assert (Hamz : to_amz_date (Datetime 2023 8 9 1 2 3 0 (Some 7200000000%Z))
                 = Return "20230808T230203Z") by reflexivity.
  refine (conj Hamz _).
  destruct (proj1 (date_formats (Datetime 2023 8 9 1 2 3 0 (Some 7200000000%Z))) _ Hamz)
    as (utc & date & time & Hutc & Hdate & Heq & _ & Hlen & _).
  vm_compute in Hutc. injection Hutc as <-.
  assert (Hlen8 : String.length date = 8%nat)
    by (apply Hlen; intros Hgt; discriminate Hgt).
  rewrite Hdate. f_equal.
  destruct date as [|c1 [|c2 [|c3 [|c4 [|c5 [|c6 [|c7 [|c8 [|c9 date]]]]]]]]];
    try discriminate Hlen8.
  injection Heq as -> -> -> -> -> -> -> -> _. reflexivity.
Defined.

(** X6.  [_to_utc] turns an aware datetime into the naive datetime of the
    same instant in UTC: the microseconds of the result, counted from the
    epoch on its fields, are those of the value less its offset; the result
    is a date of the calendar in the years 1 to 9999 with a time of day; its
    microsecond field is that of the value when the offset is a whole
    number of seconds, and need not be otherwise. *)
Theorem _to_utc_keeps_instant (value u : datetime) (off : Z) :
  tzinfo value = Some off ->
  _to_utc value = Return u ->
  tzinfo u = None
  /\ (DT.wall_seconds u * 1000000 + microsecond u
      = DT.wall_seconds value * 1000000 + microsecond value - off)%Z
  /\ (0 <= microsecond u < 1000000)%Z
  /\ ((off mod 1000000 = 0)%Z -> (0 <= microsecond value < 1000000)%Z ->
      microsecond u = microsecond value)
  /\ (1 <= year u <= 9999)%Z
  /\ valid_date (year u) (month u) (day u)
  /\ (0 <= hour u < 24 /\ 0 <= minute u < 60 /\ 0 <= second u < 60)%Z.
Proof.
  intros Htz. unfold _to_utc, DT.astimezone_utc. rewrite Htz.
  set (t := (DT.wall_seconds value * 1000000 + microsecond value - off)%Z).
  set (s := (t / 1000000)%Z).
  pose proof (days_of_civil_from_days (s / 86400)) as Hdays.
  destruct (DT.civil_from_days (s / 86400)) as [[y m] d]. destruct Hdays as [Hdays Hvalid].
  destruct ((1 <=? y)%Z && (y <=? 9999)%Z) eqn:Hy; [|discriminate].
  simpl. intros [= <-]. unfold DT.wall_seconds. simpl.
  apply andb_true_iff in Hy as [Hy1 Hy2]. apply Z.leb_le in Hy1, Hy2.
  rewrite Hdays.
  pose proof (Z.mod_pos_bound s 86400 eq_refl) as Hr.
  pose proof (Z.div_mod s 86400 ltac:(lia)) as Hs.
  pose proof (Z.mod_pos_bound t 1000000 eq_refl) as Hus.
  pose proof (Z.div_mod t 1000000 ltac:(lia)) as Ht.
  fold s in Ht.
  set (r := (s mod 86400)%Z) in *. set (q := (s / 86400)%Z) in *.
  set (us := (t mod 1000000)%Z) in *.
  refine (conj eq_refl (conj _ (conj Hus (conj _ (conj (conj Hy1 Hy2) (conj Hvalid _)))))).
  - assert (Hsec : (q * 86400 + r / 3600 * 3600 + r mod 3600 / 60 * 60 + r mod 60 = s)%Z).
    { clearbody r q. Z.to_euclidean_division_equations. lia. }
    rewrite Hsec. clearbody us s. lia.
  - intros Hoff Hmicro. unfold us, t.
    clearbody s. clear - Hoff Hmicro.
    Z.to_euclidean_division_equations. lia.
  - clearbody r. Z.to_euclidean_division_equations. lia.
Qed.

Lemma _to_utc_keeps_instant_witness :
  let value := Datetime 2024 3 1 0 30 0 7 (Some 3600000250%Z) in
  let u := Datetime 2024 2 29 23 29 59 999757 None in
  _to_utc value = Return u
  /\ (DT.wall_seconds u * 1000000 + microsecond u
      = DT.wall_seconds value * 1000000 + microsecond value - 3600000250)%Z.
Proof.
  intros value u.
  assert (Hu : _to_utc value = Return u) by reflexivity.
  refine (conj Hu _).
  apply (_to_utc_keeps_instant value u 3600000250%Z eq_refl Hu).
Defined.

(** X7.  An aware datetime in UTC whose fields are those of a datetime of
    Python is formatted as the naive datetime of the same fields. *)
Theorem utc_datetime_formats_as_naive (value : datetime) :
  valid_datetime value ->
  tzinfo value = Some 0%Z ->
  _to_utc value = Return (DT.replace_tzinfo_none value)
  /\ to_amz_date value = Return (DT.strftime_YmdTHMSZ value)
  /\ to_signer_date value = Return (DT.strftime_Ymd value).
Proof.
  intros (Hyear & Hdate & Hh & Hmi & Hs & Hus) Htz.
  assert (Hutc : _to_utc value = Return (DT.replace_tzinfo_none value)).
  { unfold _to_utc, DT.astimezone_utc. rewrite Htz.
    set (ws := DT.wall_seconds value).
    assert (Ht1 : ((ws * 1000000 + microsecond value - 0) / 1000000 = ws)%Z)
      by (clearbody ws; Z.to_euclidean_division_equations; lia).
    assert (Ht2 : ((ws * 1000000 + microsecond value - 0) mod 1000000
                   = microsecond value)%Z)
      by (clearbody ws; Z.to_euclidean_division_equations; lia).
    rewrite Ht1, Ht2. unfold ws, DT.wall_seconds.
    set (days := DT.days_from_civil (year value) (month value) (day value)).
    set (r := (hour value * 3600 + minute value * 60 + second value)%Z).
    replace (days * 86400 + hour value * 3600 + minute value * 60 + second value)%Z
      with (r + days * 86400)%Z by (unfold r; lia).
    assert (Hr : (0 <= r < 86400)%Z) by (unfold r; lia).
    rewrite Z.div_add, Z.mod_add by lia.
    rewrite (Z.div_small r), (Z.mod_small r) by lia. rewrite Z.add_0_l.
    unfold days. rewrite (civil_of_days_from_civil _ _ _ Hdate).
    assert (Hy : ((1 <=? year value)%Z && (year value <=? 9999)%Z) = true).
    { apply andb_true_iff. split; apply Z.leb_le; lia. }
    rewrite Hy. simpl. unfold DT.replace_tzinfo_none. simpl.
    assert (Hreq : r = (hour value * 3600 + minute value * 60 + second value)%Z)
      by reflexivity.
    assert (Hhour : (r / 3600 = hour value)%Z) by (clearbody r; Z.to_euclidean_division_equations; lia).
    assert (Hmin : (r mod 3600 / 60 = minute value)%Z) by (clearbody r; Z.to_euclidean_division_equations; lia).
    assert (Hsec : (r mod 60 = second value)%Z) by (clearbody r; Z.to_euclidean_division_equations; lia).
    rewrite Hhour, Hmin, Hsec. reflexivity. }
  unfold to_amz_date, to_signer_date. rewrite Hutc.
  refine (conj eq_refl (conj eq_refl eq_refl)).
Qed.

Lemma utc_datetime_formats_as_naive_witness :
  to_amz_date (Datetime 2024 2 29 23 59 59 0 (Some 0%Z)) = Return "20240229T235959Z".
Proof.
  apply (utc_datetime_formats_as_naive (Datetime 2024 2 29 23 59 59 0 (Some 0%Z))).
  - unfold valid_datetime, valid_date. simpl. vm_compute. intuition discriminate.
  - reflexivity.
Defined.

(** ** Restricted mode *)

Lemma restricted_names (headers : CIMultiDict.t) (signed_headers_ : list string)
    (name : string) :
  name ∈ map fst (sorted_items (restricted_dict headers signed_headers_))
  <-> name ∈ signed_headers_
      /\ exists key values, (key, values) ∈ headers /\ Py.lower key = name.
Proof.
  rewrite sorted_items_keys, restricted_dict_lookup.
  rewrite <- last_value_is_Some. case_bool_decide as Hin.
  - rewrite fmap_is_Some. tauto.
  - split; [intros [v Hv]; discriminate | tauto].
Qed.

Lemma restricted_dict_ext (h1 h2 : CIMultiDict.t) (l1 l2 : list string) :
  (forall name, name ∈ l1 <-> name ∈ l2) ->
  (forall name, name ∈ l1 -> last_value name h1 = last_value name h2) ->
  restricted_dict h1 l1 = restricted_dict h2 l2.
Proof.
  intros Hl Hv. apply map_eq. intros name. rewrite !restricted_dict_lookup.
  case_bool_decide as H1; case_bool_decide as H2.
  - rewrite (Hv name H1). reflexivity.
  - exfalso. apply H2, Hl, H1.
  - exfalso. apply H1, Hl, H2.
  - reflexivity.
Qed.

(** X8.  Restricted mode takes the entries whose lower-case name is in the
    signed-header list as it is written, and nothing else: a listed name
    without an entry is passed over without an error, the list of excluded
    names of full mode plays no part, and the names come out in strictly
    ascending order. *)
Theorem restricted_mode_entries (headers : CIMultiDict.t) (signed_headers : string) :
  let items := sorted_items (restricted_dict headers (Py.split ";" signed_headers)) in
  _recreate_canonical_headers headers signed_headers = Py.join LF (map header_line items)
  /\ StronglySorted string_lt (map fst items)
  /\ (forall name,
        name ∈ map fst items
        <-> name ∈ Py.split ";" signed_headers
            /\ exists key values, (key, values) ∈ headers /\ Py.lower key = name)
  /\ (forall name v,
        (name, v) ∈ items -> Py.lower name = name /\ exists values,
          last_value name headers = Some values /\ v = canonical_value values).
Proof.
  intros items.
  refine (conj eq_refl (conj (sorted_items_ascending _) (conj (restricted_names _ _) _))).
  intros name v Hin. apply sorted_items_lookup in Hin.
  rewrite restricted_dict_lookup in Hin.
  destruct (bool_decide _); [|discriminate].
  destruct (last_value name headers) as [values|] eqn:Hl; [|discriminate].
  injection Hin as <-. destruct (last_value_elem _ _ _ Hl) as [key [_ <-]].
  split; [apply lower_idemp | eauto].
Qed.

Lemma restricted_mode_entries_witness :
  let headers : CIMultiDict.t :=
    [("Authorization", Str "x"); ("BaZ", Str "wut"); ("foo", Str "a  b")] in
  _recreate_canonical_headers headers "authorization;missing;foo;BaZ"
  = ("authorization:x" ++ LF ++ "foo:a b")%string
  /\ "authorization" ∈ map fst (sorted_items
                                  (restricted_dict headers
                                     (Py.split ";" "authorization;missing;foo;BaZ")))
  /\ "missing" ∉ map fst (sorted_items
                            (restricted_dict headers
                               (Py.split ";" "authorization;missing;foo;BaZ"))).
Proof.
  intros headers.
  destruct (restricted_mode_entries headers "authorization;missing;foo;BaZ")
    as (Heq & _ & Hmem & _).
  refine (conj _ (conj _ _)).
  - rewrite Heq. vm_compute. reflexivity.
  - apply Hmem. split; [vm_compute; left |].
    exists "Authorization", (Str "x"). split; [left | reflexivity].
  - intros Hin. apply Hmem in Hin as [_ (key & values & Hin & Hlow)].
    repeat (apply elem_of_cons in Hin as [[= -> ->] | Hin]; [discriminate Hlow |]).
    inversion Hin.
Defined.

(** X9.  Restricted mode reads the headers that are signed and no other:
    two mappings whose last entries agree for every listed name, and two
    lists with the same names in any order and number, give the same
    canonical headers. *)
Theorem restricted_mode_reads_signed_only (h1 h2 : CIMultiDict.t)
    (signed1 signed2 : string) :
  (forall name, name ∈ Py.split ";" signed1 <-> name ∈ Py.split ";" signed2) ->
  (forall name, name ∈ Py.split ";" signed1 -> last_value name h1 = last_value name h2) ->
  _recreate_canonical_headers h1 signed1 = _recreate_canonical_headers h2 signed2.
Proof.
  intros Hl Hv. unfold _recreate_canonical_headers.
  rewrite (restricted_dict_ext h1 h2 _ _ Hl Hv). reflexivity.
Qed.

Lemma restricted_mode_reads_signed_only_witness :
  _recreate_canonical_headers
    [("foo", Str "1"); ("x-amz-content-sha256", Str "one"); ("bar", Str "2")] "bar;foo"
  = _recreate_canonical_headers
      [("bar", Str "2"); ("Foo", Str "1"); ("x-amz-content-sha256", Str "other");
       ("extra", Str "3")] "foo;bar;foo".
Proof.
  apply restricted_mode_reads_signed_only.
  - intros name. change (Py.split ";" "bar;foo") with ["bar"; "foo"].
    change (Py.split ";" "foo;bar;foo") with ["foo"; "bar"; "foo"].
    rewrite !elem_of_cons, !elem_of_nil. tauto.
  - intros name Hin. change (Py.split ";" "bar;foo") with ["bar"; "foo"] in Hin.
    repeat (apply elem_of_cons in Hin as [-> | Hin]; [reflexivity |]).
    inversion Hin.
Defined.

(** The signed-header list of full mode, read back by restricted mode. *)
Lemma recreate_of_generated (headers : CIMultiDict.t) :
  (forall key values, (key, values) ∈ headers -> Py.has_char ";" (Py.lower key) = false) ->
  _recreate_canonical_headers headers (_generate_canonical_headers headers).2
  = (_generate_canonical_headers headers).1.
Proof.
  intros Hnames. unfold _recreate_canonical_headers, _generate_canonical_headers.
  cbn [fst snd]. f_equal. f_equal. f_equal.
  set (names := map fst (sorted_items (full_dict headers))).
  assert (Hmem : forall name, name ∈ names
            <-> (name ∉ excluded_headers)
                /\ exists key values, (key, values) ∈ headers /\ Py.lower key = name)
    by apply full_mode_names.
  apply map_eq. intros name. rewrite restricted_dict_lookup, full_dict_lookup.
  destruct names as [|n names'] eqn:Hn.
  - change (Py.split ";" (Py.join ";" [])) with [""].
    assert (Hnone : forall k, (k ∉ excluded_headers) -> last_value k headers = None).
    { intros k Hk. destruct (last_value k headers) as [v|] eqn:Hl; [|reflexivity].
      exfalso. assert (Hin : k ∈ ([] : list string)); [|inversion Hin].
      apply Hmem. split; [exact Hk |].
      destruct (last_value_elem _ _ _ Hl) as [key Hkey]. eauto. }
    case_bool_decide as H1; case_bool_decide as H2; try reflexivity.
    + apply list_elem_of_singleton in H1 as ->. exfalso.
      repeat (apply elem_of_cons in H2 as [H2 | H2]; [discriminate |]). inversion H2.
    + rewrite (Hnone name H2). reflexivity.
  - rewrite <- Hn in Hmem |- *. rewrite split_join_char.
    + case_bool_decide as H1; case_bool_decide as H2; try reflexivity.
      * exfalso. apply Hmem in H1 as [H1 _]. exact (H1 H2).
      * destruct (last_value name headers) as [v|] eqn:Hl; [|reflexivity].
        exfalso. apply H1, Hmem. split; [exact H2 |].
        destruct (last_value_elem _ _ _ Hl) as [key Hkey]. eauto.
    + rewrite Hn. discriminate.
    + apply Forall_forall. intros k Hk. apply Hmem in Hk as [_ (key & values & Hin & <-)].
      eapply Hnames, Hin.
Qed.

(** X10.  With the signed-header list that full mode made for a mapping,
    restricted mode gives the canonical headers of full mode again, as long
    as no header name contains ";". *)
Theorem recreate_matches_generate (headers : CIMultiDict.t) :
  (forall key values, (key, values) ∈ headers -> Py.has_char ";" (Py.lower key) = false) ->
  _recreate_canonical_headers headers (_generate_canonical_headers headers).2
  = (_generate_canonical_headers headers).1.
Proof. exact (recreate_of_generated headers). Qed.

Lemma recreate_matches_generate_witness :
  _recreate_canonical_headers test_headers (_generate_canonical_headers test_headers).2
  = (_generate_canonical_headers test_headers).1.
Proof.
  apply recreate_matches_generate. intros key values Hin. unfold test_headers in Hin.
  repeat (apply elem_of_cons in Hin as [[= -> ->] | Hin]; [reflexivity |]).
  inversion Hin.
Defined.

(** ** The canonical query string, continued *)

Lemma split_char_no_sep (c : ascii) (s : string) :
  Forall (fun x => Py.has_char c x = false) (Py.split (String c "") s).
Proof.
  induction s as [|d s IH]; [repeat constructor |].
  rewrite split_char_cons. destruct (Ascii.eqb c d) eqn:Hcd.
  - constructor; [reflexivity | exact IH].
  - destruct (Py.split (String c "") s) as [|p ps]; [repeat constructor; simpl; rewrite Hcd; reflexivity |].
    apply Forall_cons in IH as [Hp Hps]. constructor; [|exact Hps].
    simpl. rewrite Hcd. exact Hp.
Qed.

Lemma canonical_pairs_unique (pairs l : list string) :
  l ≡ₚ pairs -> StronglySorted pair_le l ->
  map (Py.join "=") (merge_sort list_le (map (Py.split "=") pairs)) = l.
Proof.
  intros Hperm Hsorted. apply (StronglySorted_unique pair_le).
  - apply sorted_pairs_sorted.
  - exact Hsorted.
  - rewrite Hperm. apply sorted_pairs_permutation.
Qed.

(** X11.  The canonical query string does not depend on the order of the
    pairs in the query: two queries with the same pairs, each as many times,
    have the same canonical string. *)
Theorem canonical_query_string_order (q1 q2 : string) :
  Py.split "&" q1 ≡ₚ Py.split "&" q2 ->
  _generate_canonical_query_string (IsStr q1) = _generate_canonical_query_string (IsStr q2).
Proof.
  intros Hperm. rewrite !canonical_query_string_str. f_equal. f_equal.
  apply canonical_pairs_unique; [|apply sorted_pairs_sorted].
  rewrite sorted_pairs_permutation. symmetry. exact Hperm.
Qed.

Lemma canonical_query_string_order_witness :
  _generate_canonical_query_string (IsStr "b=2&a=1&c")
  = _generate_canonical_query_string (IsStr "c&b=2&a=1").
Proof.
  apply canonical_query_string_order.
  change (Py.split "&" "b=2&a=1&c") with ["b=2"; "a=1"; "c"].
  change (Py.split "&" "c&b=2&a=1") with ["c"; "b=2"; "a=1"].
  symmetry. apply (Permutation_cons_append ["b=2"; "a=1"] "c").
Defined.

(** X12.  Canonicalising is idempotent: the canonical query string of a
    canonical query string is that string. *)
Theorem canonical_query_string_idempotent (q c : string) :
  _generate_canonical_query_string (IsStr q) = Return c ->
  _generate_canonical_query_string (IsStr c) = Return c.
Proof.
  rewrite !canonical_query_string_str. intros [= <-].
  set (sp := map (Py.join "=") (merge_sort list_le (map (Py.split "=") (Py.split "&" q)))).
  assert (Hperm : sp ≡ₚ Py.split "&" q) by apply sorted_pairs_permutation.
  assert (Hsplit : Py.split "&" (Py.join "&" sp) = sp).
  { apply split_join_char.
    - intros Hnil. rewrite Hnil in Hperm. apply Permutation_nil_l in Hperm.
      exact (split_aux_nonempty "&" 0 q (eq_sym Hperm)).
    - rewrite Hperm. apply split_char_no_sep. }
  rewrite Hsplit. f_equal. f_equal.
  apply canonical_pairs_unique; [reflexivity | apply sorted_pairs_sorted].
Qed.

Lemma canonical_query_string_idempotent_witness :
  _generate_canonical_query_string (IsStr "b=2&a=b=c&a=1") = Return "a=1&a=b=c&b=2"
  /\ _generate_canonical_query_string (IsStr "a=1&a=b=c&b=2") = Return "a=1&a=b=c&b=2".
Proof.
  assert (H1 : _generate_canonical_query_string (IsStr "b=2&a=b=c&a=1")
               = Return "a=1&a=b=c&b=2") by (vm_compute; reflexivity).
  refine (conj H1 _). exact (canonical_query_string_idempotent _ _ H1).
Defined.

Lemma decode_encode (s : string) : Py.decode (Py.encode s) = Some s.
Proof.
  unfold Py.decode. induction s as [|c s IH]; [reflexivity |].
  change (Py.encode (String c s)) with (Py.encode_char c ++ Py.encode s).
  assert (Hc : forall bs,
            Py.decode_aux None (Py.encode_char c ++ bs)
            = s' ← Py.decode_aux None bs; Some (String c s')).
  { intros bs. destruct c as [[] [] [] [] [] [] [] []]; reflexivity. }
  rewrite Hc, IH. reflexivity.
Qed.

Lemma encode_nil (s : string) : Py.encode s = [] -> s = "".
Proof.
  destruct s as [|c s]; [reflexivity |].
  change (Py.encode (String c s)) with (Py.encode_char c ++ Py.encode s).
  unfold Py.encode_char. destruct (_ <? _)%N; discriminate.
Qed.

(** The bytes that the embedding decodes are well-formed UTF-8. *)
Lemma decode_aux_valid (b : list byte) :
  (forall s, Py.decode_aux None b = Some s -> Py.utf8_valid b = true)
  /\ (forall hi s, (hi = 2 \/ hi = 3)%N -> Py.decode_aux (Some hi) b = Some s ->
        match b with
        | y :: b2 => Py.in_range 128 191 y && Py.utf8_valid b2
        | [] => false
        end = true).
Proof.
  induction b as [|x b [IH1 IH2]]; [split; [reflexivity | discriminate] |].
  split.
  - intros s. cbn [Py.decode_aux Py.utf8_valid].
    destruct (Byte.to_N x <? 128)%N eqn:Hlow.
    + destruct (Py.decode_aux None b) as [s'|]; [|discriminate]. intros _. eapply IH1; reflexivity.
    + destruct ((Byte.to_N x =? 194) || (Byte.to_N x =? 195))%N eqn:Hlead; [|discriminate].
      intros Hs.
      assert (Hx : Py.in_range 194 223 x = true).
      { unfold Py.in_range. apply orb_true_iff in Hlead as [Hx | Hx];
          apply N.eqb_eq in Hx; rewrite Hx; reflexivity. }
      rewrite Hx. eapply IH2; [|exact Hs].
      apply orb_true_iff in Hlead as [Hx' | Hx']; apply N.eqb_eq in Hx'; rewrite Hx'; auto.
  - intros hi s Hhi. cbn [Py.decode_aux]. unfold Py.in_range.
    destruct ((128 <=? Byte.to_N x) && (Byte.to_N x <? 192))%N eqn:Hcont; [|discriminate].
    destruct (Py.decode_aux None b) as [s'|]; [|discriminate]. intros _.
    apply andb_true_iff in Hcont as [H1 H2]. apply N.leb_le in H1. apply N.ltb_lt in H2.
    rewrite (IH1 s' eq_refl), andb_true_r.
    apply andb_true_iff. split; apply N.leb_le; lia.
Qed.

Lemma decode_valid (b : list byte) (s : string) :
  Py.decode b = Some s -> Py.utf8_valid b = true.
Proof. apply (proj1 (decode_aux_valid b)). Qed.

(** X13.  A query given as bytes is read as its UTF-8 text: the bytes of a
    string give the canonical query string of the string, and bytes that
    decode to a string give that of the string; bytes that are not
    well-formed UTF-8 raise [UnicodeDecodeError]; when the function raises,
    it raises that error, on bytes. *)
Theorem canonical_query_string_bytes :
  (forall s, _generate_canonical_query_string (IsBytes (Py.encode s))
             = _generate_canonical_query_string (IsStr s))
  /\ (forall b s, Py.decode b = Some s ->
                  Py.utf8_valid b = true
                  /\ _generate_canonical_query_string (IsBytes b)
                     = _generate_canonical_query_string (IsStr s))
  /\ (forall b, Py.utf8_valid b = false ->
                _generate_canonical_query_string (IsBytes b) = Raise UnicodeDecodeError)
  /\ (forall query e, _generate_canonical_query_string query = Raise e ->
                      e = UnicodeDecodeError /\ exists b, query = IsBytes b /\ b <> []).
Proof.
  assert (Hdecoded : forall b s, Py.decode b = Some s ->
            _generate_canonical_query_string (IsBytes b)
            = _generate_canonical_query_string (IsStr s)).
  { intros b s Hd. destruct b as [|x b].
    - injection Hd as <-. reflexivity.
    - unfold _generate_canonical_query_string. rewrite Hd.
      destruct s as [|c s]; reflexivity. }
  refine (conj _ (conj _ (conj _ _))).
  - intros s. apply Hdecoded, decode_encode.
  - intros b s Hd. split; [exact (decode_valid b s Hd) | exact (Hdecoded b s Hd)].
  - intros b Hb. destruct b as [|x b]; [discriminate Hb |].
    unfold _generate_canonical_query_string.
    destruct (Py.decode (x :: b)) as [s|] eqn:Hd; [|reflexivity].
    rewrite (decode_valid _ _ Hd) in Hb. discriminate.
  - intros query e. destruct query as [|[|x b]|[|c s]]; try discriminate.
    unfold _generate_canonical_query_string.
    destruct (Py.decode (x :: b)) eqn:Hd; [discriminate |].
    intros [= <-]. split; [reflexivity |]. exists (x :: b). split; [reflexivity | discriminate].
Qed.

Lemma canonical_query_string_bytes_witness :
  Py.utf8_valid [xff] = false
  /\ _generate_canonical_query_string (IsBytes [xff]) = Raise UnicodeDecodeError
  /\ _generate_canonical_query_string (IsBytes [x62; x3d; xc3; xa9; x26; x61; x3d; x31])
     = _generate_canonical_query_string (IsStr ("b=" ++ String "233"%char "&a=1")%string).
Proof.
  refine (conj eq_refl (conj _ _)).
  - apply (proj1 (proj2 (proj2 canonical_query_string_bytes)) [xff]). reflexivity.
  - apply (proj1 (proj2 canonical_query_string_bytes)
             [x62; x3d; xc3; xa9; x26; x61; x3d; x31]
             ("b=" ++ String "233"%char "&a=1")%string).
    reflexivity.
Defined.

(** ** The extraction of a challenge, continued *)

Lemma partition_char_inv (c : ascii) (s a m b : string) :
  Py.partition (String c "") s = (a, m, b) ->
  (m = String c "" /\ s = (a ++ String c b)%string /\ Py.has_char c a = false)
  \/ (m = "" /\ b = "" /\ s = a /\ Py.has_char c a = false).
Proof.
  revert a. induction s as [|d s IH]; intros a; simpl.
  - intros [= <- <- <-]. right. repeat split.
  - destruct (Ascii.eqb c d) eqn:Hcd.
    + apply Ascii.eqb_eq in Hcd as <-. intros [= <- <- <-]. left. repeat split.
    + fold (Py.partition (String c "")).
      destruct (Py.partition (String c "") s) as [[a' m'] b'].
      intros [= <- <- <-]. simpl. rewrite Hcd.
      destruct (IH a' eq_refl) as [(-> & -> & Ha) | (-> & -> & -> & Ha)].
      * left. repeat split. exact Ha.
      * right. repeat split. exact Ha.
Qed.

Lemma split_max1_two (s a b : string) :
  Py.split_max1 "/" s = [a; b] ->
  s = (a ++ "/" ++ b)%string /\ Py.has_char "/" a = false.
Proof.
  unfold Py.split_max1.
  destruct (Py.partition "/" s) as [[a' m] b'] eqn:Hp.
  destruct (partition_char_inv _ _ _ _ _ Hp) as [(-> & -> & Ha) | (-> & -> & -> & Ha)].
  - intros [= <- <-]. split; [reflexivity | exact Ha].
  - discriminate.
Qed.

(** The steps that a successful extraction went through. *)
Lemma generate_challenge_inv `{Collaborators} (now : Z) (method : string)
    (url : ParseResult) (headers : CIMultiDict.t) (content : bytes_or_str) (c : Challenge) :
  generate_challenge now method url headers content = Return c ->
  exists authorization auth_type credential signed_headers ak date region service_name
         key_date hash,
    CIMultiDict.get "Authorization" headers = Some (Str authorization)
    /\ _parse_authorization authorization
       = Return (auth_type, credential, signed_headers, signature c)
    /\ Py.split_max1 "/" credential = [ak; scope c]
    /\ removelast (Py.split "/" (scope c)) = [date; region; service_name]
    /\ _parse_key_date now headers = Return key_date
    /\ _recreate_canonical_request_hash method url headers signed_headers
         (if bool_decide (default (Str "UNSIGNED-PAYLOAD")
                            (CIMultiDict.get "x-amz-content-sha256" headers)
                          <> Str "UNSIGNED-PAYLOAD")
          then sha256_hash content else "UNSIGNED-PAYLOAD")
       = Return hash
    /\ access_key_id c = Some ak
    /\ string_to_sign c = (auth_type ++ LF ++ key_date ++ LF ++ scope c ++ LF ++ hash)%string.
Proof.
  unfold generate_challenge, CIMultiDict.getitem. intros Hc.
  destruct (CIMultiDict.get "Authorization" headers) as [[a|l]|] eqn:Hget; simpl in Hc;
    try discriminate.
  destruct (_parse_authorization a) as [[[[auth_type credential] signed_headers] sig]|e]
    eqn:Hparse; simpl in Hc; try discriminate.
  unfold unpack2 in Hc.
  destruct (Py.split_max1 "/" credential) as [|ak [|sc [|x l]]] eqn:Hcred;
    simpl in Hc; try discriminate.
  unfold unpack3 in Hc.
  destruct (removelast (Py.split "/" sc)) as [|date [|region [|service [|x l]]]] eqn:Hsc;
    simpl in Hc; try discriminate.
  destruct (_parse_key_date now headers) as [key_date|e] eqn:Hkd; simpl in Hc;
    try discriminate.
  match type of Hc with
  | context [_recreate_canonical_request_hash ?m ?u ?h ?s ?cs] =>
      destruct (_recreate_canonical_request_hash m u h s cs) as [hash|e] eqn:Hhash
  end; simpl in Hc; try discriminate.
  injection Hc as <-. simpl.
  exists a, auth_type, credential, signed_headers, ak, date, region, service, key_date, hash.
  repeat split; assumption || reflexivity.
Qed.

(** X14.  A challenge that [generate_challenge] returns has a scope of four
    components, so that [validate_challenge] either returns or raises
    [InvalidSignatureError] on it, under every secret; it never fails on its
    scope. *)
Theorem extracted_challenge_is_validated `{Collaborators} (now : Z) (method : string)
    (url : ParseResult) (headers : CIMultiDict.t) (content : bytes_or_str)
    (c : Challenge) (secret : string) :
  generate_challenge now method url headers content = Return c ->
  List.length (Py.split "/" (scope c)) = 4%nat
  /\ (validate_challenge c secret = Return ()
      \/ validate_challenge c secret = Raise (InvalidSignatureError "Invalid signature")).
Proof.
  intros Hc.
  destruct (generate_challenge_inv _ _ _ _ _ _ Hc)
    as (a & t & cred & sh & ak & date & region & service & kd & hash
        & _ & _ & _ & Hscope & _).
  split.
  - pose proof (removelast_length (Py.split "/" (scope c))) as Hlen.
    rewrite Hscope in Hlen. simpl in Hlen.
    pose proof (split_aux_nonempty "/" 0 (scope c)) as Hne. fold (Py.split "/" (scope c)) in Hne.
    destruct (Py.split "/" (scope c)); [contradiction | simpl in *; lia].
  - rewrite validate_challenge_unfold, Hscope.
    destruct (bool_decide _); [right | left]; reflexivity.
Qed.

Lemma extracted_challenge_is_validated_witness :
  validate_challenge (test_challenge (Some "access-key")) "another-secret" = Return ()
  \/ validate_challenge (test_challenge (Some "access-key")) "another-secret"
     = Raise (InvalidSignatureError "Invalid signature").
Proof.
  apply (extracted_challenge_is_validated (H := simple_collaborators) test_now "PUT"
           test_url test_headers (IsBytes (Py.encode "somecontent"))).
  vm_compute. reflexivity.
Defined.

Lemma canonical_request_hash_length (method : string) (url : ParseResult)
    (headers : CIMultiDict.t) (signed_headers content_sha256 hash : string) :
  _recreate_canonical_request_hash method url headers signed_headers content_sha256
  = Return hash ->
  String.length hash = 64%nat.
Proof.
  unfold _recreate_canonical_request_hash.
  destruct (_generate_canonical_query_string (query url)); [|discriminate].
  simpl. intros [= <-]. rewrite sha256_hash_str.
  unfold Hashlib.sha256_hexdigest. rewrite hex_length, sha256_length. reflexivity.
Qed.

(** X15.  What an extracted challenge holds.  Its scope and access key id
    are the two sides of the first "/" of the Credential field, its
    signature is the Signature field as written, and its string to sign is
    the four lines: the text before the first space of the Authorization
    value, whatever it is; the x-amz-date header as written; the scope; a
    hash of 64 characters.  Neither the algorithm name nor the signature is
    examined. *)
Theorem generate_challenge_fields `{Collaborators} (now : Z) (method : string)
    (url : ParseResult) (headers : CIMultiDict.t) (content : bytes_or_str) (c : Challenge) :
  generate_challenge now method url headers content = Return c ->
  exists authorization auth_type signed_headers ak key_date hash,
    CIMultiDict.get "Authorization" headers = Some (Str authorization)
    /\ auth_type = (Py.partition " " authorization).1.1
    /\ _parse_authorization authorization
       = Return (auth_type, (ak ++ "/" ++ scope c)%string, signed_headers, signature c)
    /\ Py.has_char "/" ak = false
    /\ access_key_id c = Some ak
    /\ CIMultiDict.get "x-amz-date" headers = Some (Str key_date)
    /\ string_to_sign c = (auth_type ++ LF ++ key_date ++ LF ++ scope c ++ LF ++ hash)%string
    /\ String.length hash = 64%nat.
Proof.
  intros Hc.
  destruct (generate_challenge_inv _ _ _ _ _ _ Hc)
    as (a & t & cred & sh & ak & date & region & service & kd & hash
        & Hget & Hparse & Hcred & _ & Hkd & Hhash & Hak & Hsts).
  apply split_max1_two in Hcred as [-> Hslash].
  exists a, t, sh, ak, kd, hash.
  refine (conj Hget (conj _ (conj Hparse (conj Hslash (conj Hak (conj _ (conj Hsts _))))))).
  - rewrite parse_authorization_by_fields in Hparse. cbv zeta in Hparse.
    destruct (field "credential" _); [|discriminate].
    destruct (field "signedheaders" _); [|discriminate].
    destruct (field "signature" _); [|discriminate].
    injection Hparse as <- _ _ _. reflexivity.
  - unfold _parse_key_date in Hkd.
    destruct (CIMultiDict.get "x-amz-date" headers) as [[k|l]|]; try discriminate.
    destruct (parser_parse k) as [p|e]; simpl in Hkd; [|discriminate].
    destruct (tzinfo p); [|discriminate].
    destruct (abs_total_seconds_gt _ _); [discriminate |]. injection Hkd as <-. reflexivity.
  - eapply canonical_request_hash_length, Hhash.
Qed.

Lemma generate_challenge_fields_witness :
  exists hash,
    string_to_sign (test_challenge (Some "access-key"))
    = ("AWS4-HMAC-SHA256" ++ LF ++ "20230809T010203Z" ++ LF
         ++ "20230809/ksa/service/aws4_request" ++ LF ++ hash)%string
    /\ String.length hash = 64%nat.
Proof.
  assert (Hc : generate_challenge (H := simple_collaborators) test_now "PUT" test_url
                 test_headers (IsBytes (Py.encode "somecontent"))
               = Return (test_challenge (Some "access-key"))) by (vm_compute; reflexivity).
  destruct (generate_challenge_fields _ _ _ _ _ _ Hc)
    as (a & t & sh & ak & kd & hash & Hget & Ht & _ & _ & _ & Hkd & Hsts & Hlen).
  injection Hget as <-. injection Hkd as <-. subst t.
  exists hash. split; [exact Hsts | exact Hlen].
Defined.

(** ** The payload hash header *)

Lemma recreate_canonical_headers_setitem (key : string) (v : header_value)
    (h : CIMultiDict.t) (signed_headers : string) :
  Py.lower key ∉ Py.split ";" signed_headers ->
  _recreate_canonical_headers (CIMultiDict.setitem key v h) signed_headers
  = _recreate_canonical_headers h signed_headers.
Proof.
  intros Hnot. unfold _recreate_canonical_headers. cbv zeta.
  rewrite (restricted_dict_ext (CIMultiDict.setitem key v h) h
             (Py.split ";" signed_headers) (Py.split ";" signed_headers)); [reflexivity | |].
  - intros name. reflexivity.
  - intros name Hin. apply last_value_setitem_ne. intros <-. exact (Hnot Hin).
Qed.

Lemma parse_key_date_setitem `{Collaborators} (now : Z) (key : string) (v : header_value)
    (h : CIMultiDict.t) :
  CIMultiDict.same_key key "x-amz-date" = false ->
  _parse_key_date now (CIMultiDict.setitem key v h) = _parse_key_date now h.
Proof.
  intros Hne. unfold _parse_key_date. rewrite (get_setitem_ne _ _ _ _ Hne). reflexivity.
Qed.

(** X16.  The x-amz-content-sha256 header of an inbound request is a switch
    and nothing more.  Without the header, or with the value
    UNSIGNED-PAYLOAD, the body plays no part in the challenge.  With any
    other value the body is hashed, and the value itself is compared with
    nothing: unless the header is among the signed headers, two requests
    that differ in that value only give the same challenge. *)
Theorem content_sha256_header_is_a_switch `{Collaborators} (now : Z) (method : string)
    (url : ParseResult) (headers : CIMultiDict.t)
    (authorization auth_type credential signed_headers signature : string) :
  CIMultiDict.get "Authorization" headers = Some (Str authorization) ->
  _parse_authorization authorization
  = Return (auth_type, credential, signed_headers, signature) ->
  (forall content content',
      CIMultiDict.get "x-amz-content-sha256" headers = None
      \/ CIMultiDict.get "x-amz-content-sha256" headers = Some (Str "UNSIGNED-PAYLOAD") ->
      generate_challenge now method url headers content
      = generate_challenge now method url headers content')
  /\ (forall value value' content,
        "x-amz-content-sha256" ∉ Py.split ";" signed_headers ->
        value <> Str "UNSIGNED-PAYLOAD" ->
        value' <> Str "UNSIGNED-PAYLOAD" ->
        generate_challenge now method url
          (CIMultiDict.setitem "x-amz-content-sha256" value headers) content
        = generate_challenge now method url
            (CIMultiDict.setitem "x-amz-content-sha256" value' headers) content).
Proof.
  intros Hget Hparse. split.
  - intros content content' Hswitch. unfold generate_challenge.
    rewrite bool_decide_eq_false_2; [reflexivity |].
    intros Hne. apply Hne. destruct Hswitch as [-> | ->]; reflexivity.
  - intros value value' content Hnot Hv Hv'.
    assert (Hstep : forall v, v <> Str "UNSIGNED-PAYLOAD" ->
              generate_challenge now method url
                (CIMultiDict.setitem "x-amz-content-sha256" v headers) content
              = '(access_key_id, scope) ← unpack2 (Py.split_max1 "/" credential);
                '(date, region, service_name) ← unpack3 (removelast (Py.split "/" scope));
                key_date ← _parse_key_date now headers;
                canonical_request_hash ←
                  _recreate_canonical_request_hash method url headers signed_headers
                    (sha256_hash content);
                mret {| scope := scope;
                        string_to_sign :=
                          (auth_type ++ LF ++ key_date ++ LF ++ scope ++ LF
                             ++ canonical_request_hash)%string;
                        signature := signature;
                        access_key_id := Some access_key_id |}).
    { intros v Hne. unfold generate_challenge, CIMultiDict.getitem.
      rewrite (get_setitem_ne "x-amz-content-sha256" "Authorization") by reflexivity.
      rewrite Hget.
      cbn [mbind mret result_bind result_ret]. rewrite Hparse.
      cbn [mbind mret result_bind result_ret].
      rewrite get_setitem. cbn [default from_option id].
      rewrite bool_decide_eq_true_2 by exact Hne.
      rewrite parse_key_date_setitem by reflexivity.
      unfold _recreate_canonical_request_hash.
      rewrite recreate_canonical_headers_setitem by exact Hnot. reflexivity. }
    rewrite (Hstep value Hv), (Hstep value' Hv'). reflexivity.
Qed.

Lemma content_sha256_header_is_a_switch_witness :
  generate_challenge (H := simple_collaborators) test_now "PUT" test_url
    (CIMultiDict.setitem "x-amz-content-sha256" (Str "anything") test_headers)
    (IsBytes (Py.encode "somecontent"))
  = generate_challenge (H := simple_collaborators) test_now "PUT" test_url
      (CIMultiDict.setitem "x-amz-content-sha256" (Str "") test_headers)
      (IsBytes (Py.encode "somecontent")).
Proof.
  refine (proj2 (content_sha256_header_is_a_switch (H := simple_collaborators) test_now "PUT"
                   test_url test_headers _ "AWS4-HMAC-SHA256"
                   "access-key/20230809/ksa/service/aws4_request" "baz;foo"
                   "342103018e8cccefa7bd30ec2f41cbb9f9c5e5c9e9e9b434b773b95dc7dd5cbc"
                   eq_refl _) (Str "anything") (Str "") _ _ _ _).
  - vm_compute. reflexivity.
  - change (Py.split ";" "baz;foo") with ["baz"; "foo"].
    rewrite !not_elem_of_cons. repeat split; try discriminate. apply not_elem_of_nil.
  - discriminate.
  - discriminate.
Defined.

(** ** The errors of the extraction *)

Lemma split_max1_none (s : string) :
  Py.has_char "/" s = false -> Py.split_max1 "/" s = [s].
Proof.
  intros Hs. unfold Py.split_max1.
  destruct (Py.partition "/" s) as [[a m] b] eqn:Hp.
  destruct (partition_char_inv _ _ _ _ _ Hp) as [(-> & -> & Ha) | (-> & -> & -> & Ha)].
  - rewrite has_char_app in Hs. simpl in Hs. rewrite orb_true_r in Hs. discriminate.
  - reflexivity.
Qed.

(** X17.  The order of the checks of [generate_challenge].  A request
    without an Authorization header is a [KeyError] for that name.  With a
    header that has its three fields: a Credential without "/" and a scope
    of other than four components are [ValueError]s, both raised before the
    date header is looked at; with four components a missing x-amz-date is
    a [MissingHeaderError]. *)
Theorem generate_challenge_errors `{Collaborators} (now : Z) (method : string)
    (url : ParseResult) (headers : CIMultiDict.t) (content : bytes_or_str) :
  (CIMultiDict.get "Authorization" headers = None ->
   generate_challenge now method url headers content = Raise (KeyError "Authorization"))
  /\ (forall authorization auth_type credential signed_headers signature,
        CIMultiDict.get "Authorization" headers = Some (Str authorization) ->
        _parse_authorization authorization
        = Return (auth_type, credential, signed_headers, signature) ->
        (Py.has_char "/" credential = false ->
         generate_challenge now method url headers content = Raise ValueError)
        /\ (forall ak scope,
              credential = (ak ++ "/" ++ scope)%string ->
              Py.has_char "/" ak = false ->
              (List.length (Py.split "/" scope) <> 4%nat ->
               generate_challenge now method url headers content = Raise ValueError)
              /\ (List.length (Py.split "/" scope) = 4%nat ->
                  CIMultiDict.get "x-amz-date" headers = None ->
                  generate_challenge now method url headers content
                  = Raise (MissingHeaderError "Missing supported date header")))).
Proof.
  split.
  - intros Hget. unfold generate_challenge, CIMultiDict.getitem. rewrite Hget. reflexivity.
  - intros a t cred sh sig Hget Hparse.
    assert (Hgc : generate_challenge now method url headers content
                  = '(access_key_id, scope) ← unpack2 (Py.split_max1 "/" cred);
                    '(date, region, service_name) ←
                      unpack3 (removelast (Py.split "/" scope));
                    key_date ← _parse_key_date now headers;
                    canonical_request_hash ←
                      _recreate_canonical_request_hash method url headers sh
                        (if bool_decide (default (Str "UNSIGNED-PAYLOAD")
                                           (CIMultiDict.get "x-amz-content-sha256" headers)
                                         <> Str "UNSIGNED-PAYLOAD")
                         then sha256_hash content else "UNSIGNED-PAYLOAD");
                    mret {| scope := scope;
                            string_to_sign :=
                              (t ++ LF ++ key_date ++ LF ++ scope ++ LF
                                 ++ canonical_request_hash)%string;
                            signature := sig;
                            access_key_id := Some access_key_id |}).
    { unfold generate_challenge, CIMultiDict.getitem. rewrite Hget.
      cbn [mbind mret result_bind result_ret]. rewrite Hparse. reflexivity. }
    split.
    + intros Hslash. rewrite Hgc, (split_max1_none _ Hslash). reflexivity.
    + intros ak sc -> Hak.
      assert (Hsplit : Py.split_max1 "/" (ak ++ "/" ++ sc) = [ak; sc]).
      { unfold Py.split_max1.
        change (ak ++ "/" ++ sc)%string with (ak ++ String "/" sc)%string.
        rewrite (partition_char_app "/" ak sc Hak). reflexivity. }
      rewrite Hgc, Hsplit. cbn [unpack2 mbind mret result_bind result_ret].
      pose proof (removelast_length (Py.split "/" sc)) as Hlen.
      split.
      * intros Hne.
        destruct (removelast (Py.split "/" sc)) as [|x1 [|x2 [|x3 [|x4 l]]]];
          try reflexivity.
        simpl in Hlen. lia.
      * intros Hfour Hdate. rewrite Hfour in Hlen.
        destruct (removelast (Py.split "/" sc)) as [|x1 [|x2 [|x3 [|x4 l]]]];
          try discriminate.
        cbn [unpack3 mbind mret result_bind result_ret].
        unfold _parse_key_date. rewrite Hdate. reflexivity.
Qed.

Lemma generate_challenge_errors_witness :
  generate_challenge (H := simple_collaborators) test_now "PUT" test_url
    [("Authorization", Str "AWS4-HMAC-SHA256 Credential=key, SignedHeaders=, Signature=")]
    IsNone
  = Raise ValueError.
Proof.
  refine (proj1 (proj2 (generate_challenge_errors (H := simple_collaborators) test_now "PUT"
                          test_url
                          [("Authorization",
                            Str "AWS4-HMAC-SHA256 Credential=key, SignedHeaders=, Signature=")]
                          IsNone)
                   "AWS4-HMAC-SHA256 Credential=key, SignedHeaders=, Signature="
                   "AWS4-HMAC-SHA256" "key" "" "" eq_refl _) _).
  - vm_compute. reflexivity.
  - reflexivity.
Defined.

(** ** The scope of a challenge *)

(** X18.  [validate_challenge] reads the scope up to its last "/" only:
    the last component, "aws4_request" in a signed request, is split off
    and dropped, so that two challenges that differ in it alone have the
    same outcome. *)
Theorem validate_challenge_ignores_terminal (c1 c2 : Challenge) (secret : string) :
  removelast (Py.split "/" (scope c1)) = removelast (Py.split "/" (scope c2)) ->
  string_to_sign c1 = string_to_sign c2 ->
  signature c1 = signature c2 ->
  validate_challenge c1 secret = validate_challenge c2 secret.
Proof.
  intros Hscope Hsts Hsig.
  rewrite !validate_challenge_unfold, Hscope, Hsts, Hsig. reflexivity.
Qed.

Lemma validate_challenge_ignores_terminal_witness :
  validate_challenge (test_challenge None) "secret-key"
  = validate_challenge
      {| scope := "20230809/ksa/service/another_request";
         string_to_sign := test_string_to_sign;
         signature := "342103018e8cccefa7bd30ec2f41cbb9f9c5e5c9e9e9b434b773b95dc7dd5cbc";
         access_key_id := None |} "secret-key".
Proof.
  apply (validate_challenge_ignores_terminal (test_challenge None)); reflexivity.
Defined.

(** ** The signer, continued *)

(** What a call that gets through its three fallible steps computes. *)
Lemma sign_request_computes `{Collaborators} (service_name method url region : string)
    (headers : CIMultiDict.t) (content : bytes_or_str)
    (access_key secret_key : string) (date : datetime)
    (u : ParseResult) (canonical_query_string : string) (utc : datetime) :
  urlparse url = Return u ->
  _generate_canonical_query_string (query u) = Return canonical_query_string ->
  _to_utc date = Return utc ->
  let headers1 := signer_headers u content headers in
  let signed :=
    CIMultiDict.setitem "Authorization"
      (Str (signer_authorization service_name method region access_key secret_key u
              canonical_query_string utc (signer_content_sha256 u content)
              (full_dict headers1)))
      headers1 in
  sign_request service_name method url region headers content access_key secret_key date
  = (signed, Return signed).
Proof.
  intros Hurl Hquery Hutc.
  exact (sign_request_value service_name method url region headers content
           access_key secret_key date u canonical_query_string utc Hurl Hquery Hutc).
Qed.

(** The steps of a call, whatever its outcome. *)
Lemma sign_request_steps `{Collaborators} (service_name method url region : string)
    (headers : CIMultiDict.t) (content : bytes_or_str)
    (access_key secret_key : string) (date : datetime) :
  match urlparse url with
  | Raise e =>
      sign_request service_name method url region headers content access_key secret_key date
      = (headers, Raise e)
  | Return u =>
      match _to_utc date, _generate_canonical_query_string (query u) with
      | Raise e, _ | Return _, Raise e =>
          sign_request service_name method url region headers content
            access_key secret_key date
          = (signer_headers u content headers, Raise e)
      | Return utc, Return canonical_query_string =>
          exists signed,
            sign_request service_name method url region headers content
              access_key secret_key date
            = (signed, Return signed)
      end
  end.
Proof.
  destruct (urlparse url) as [u|e] eqn:Hurl.
  - destruct (_to_utc date) as [utc|e] eqn:Hutc.
    + destruct (_generate_canonical_query_string (query u)) as [cq|e] eqn:Hquery.
      * eexists. exact (sign_request_computes _ _ _ _ _ _ _ _ _ _ _ _ Hurl Hquery Hutc).
      * unfold sign_request. rewrite Hurl. unfold to_signer_date. rewrite Hutc.
        cbn [mbind mret result_bind result_ret].
        unfold _generate_canonical_request_hash, _generate_canonical_headers.
        rewrite Hquery. cbn [mbind mret result_bind result_ret].
        unfold signer_headers, signer_content_sha256.
        destruct (CIMultiDict.contains "x-amz-content-sha256" headers); reflexivity.
    + unfold sign_request. rewrite Hurl. unfold to_signer_date. rewrite Hutc.
      cbn [mbind mret result_bind result_ret].
      unfold signer_headers, signer_content_sha256.
      destruct (CIMultiDict.contains "x-amz-content-sha256" headers); reflexivity.
  - unfold sign_request. rewrite Hurl. reflexivity.
Qed.

Lemma sign_request_inv `{Collaborators} (service_name method url region : string)
    (headers : CIMultiDict.t) (content : bytes_or_str)
    (access_key secret_key : string) (date : datetime) (store headers' : CIMultiDict.t) :
  sign_request service_name method url region headers content access_key secret_key date
  = (store, Return headers') ->
  exists u canonical_query_string utc,
    urlparse url = Return u
    /\ _generate_canonical_query_string (query u) = Return canonical_query_string
    /\ _to_utc date = Return utc.
Proof.
  intros Hs.
  pose proof (sign_request_steps service_name method url region headers content
                access_key secret_key date) as Hsteps.
  destruct (urlparse url) as [u|e] eqn:Hurl; [|rewrite Hsteps in Hs; discriminate].
  destruct (_to_utc date) as [utc|e] eqn:Hutc; [|rewrite Hsteps in Hs; discriminate].
  destruct (_generate_canonical_query_string (query u)) as [cq|e] eqn:Hquery;
    [|rewrite Hsteps in Hs; discriminate].
  exists u, cq, utc. exact (conj eq_refl (conj Hquery eq_refl)).
Qed.

Lemma others_idemp (key : string) (h : CIMultiDict.t) :
  CIMultiDict.others key (CIMultiDict.others key h) = CIMultiDict.others key h.
Proof.
  unfold CIMultiDict.others. induction h as [|kv h IH]; simpl; [reflexivity |].
  destruct (negb (CIMultiDict.same_key kv.1 key)) eqn:Hk; simpl; [|exact IH].
  rewrite Hk, IH. reflexivity.
Qed.

(** An assignment overwrites an earlier one to the same key. *)
Lemma setitem_setitem (key : string) (v v' : header_value) (h : CIMultiDict.t) :
  CIMultiDict.setitem key v (CIMultiDict.setitem key v' h) = CIMultiDict.setitem key v h.
Proof.
  induction h as [|[k w] h IH]; simpl.
  - rewrite same_key_refl. reflexivity.
  - destruct (CIMultiDict.same_key k key) eqn:Hk; simpl.
    + rewrite same_key_refl, others_idemp. reflexivity.
    + rewrite Hk, IH. reflexivity.
Qed.

(** Full mode does not see the Authorization entry. *)
Lemma full_dict_setitem_authorization (v : header_value) (h : CIMultiDict.t) :
  full_dict (CIMultiDict.setitem "Authorization" v h) = full_dict h.
Proof.
  apply map_eq. intros name. rewrite !full_dict_lookup.
  case_bool_decide as Hname; [|reflexivity].
  rewrite last_value_setitem_ne; [reflexivity |].
  intros <-. apply Hname. change (Py.lower "Authorization") with "authorization".
  unfold excluded_headers. apply elem_of_cons. left. reflexivity.
Qed.

Lemma signer_headers_content_sha256 (u : ParseResult) (content : bytes_or_str)
    (headers : CIMultiDict.t) :
  CIMultiDict.contains "x-amz-content-sha256" (signer_headers u content headers) = true.
Proof.
  unfold signer_headers, CIMultiDict.contains.
  destruct (CIMultiDict.get "x-amz-content-sha256" headers) as [w|] eqn:Hw.
  - rewrite Hw. reflexivity.
  - rewrite get_setitem. reflexivity.
Qed.

Lemma signer_headers_fixed (u : ParseResult) (content : bytes_or_str)
    (headers : CIMultiDict.t) :
  CIMultiDict.contains "x-amz-content-sha256" headers = true ->
  signer_headers u content headers = headers.
Proof. intros Hc. unfold signer_headers. rewrite Hc. reflexivity. Qed.

(** X19.  Signing is idempotent: when [sign_request] returns, a second call
    on the mapping it returned, with the same other arguments, returns that
    mapping unchanged.  The Authorization entry of the first call is not
    signed by the second, and the payload hash entry is kept. *)
Theorem sign_request_idempotent `{Collaborators} (service_name method url region : string)
    (headers : CIMultiDict.t) (content : bytes_or_str)
    (access_key secret_key : string) (date : datetime) (store headers' : CIMultiDict.t) :
  sign_request service_name method url region headers content access_key secret_key date
  = (store, Return headers') ->
  sign_request service_name method url region headers' content access_key secret_key date
  = (headers', Return headers').
Proof.
  intros Hs.
  destruct (sign_request_inv _ _ _ _ _ _ _ _ _ _ _ Hs) as (u & cq & utc & Hurl & Hquery & Hutc).
  rewrite (sign_request_computes _ _ _ _ headers _ _ _ _ _ _ _ Hurl Hquery Hutc) in Hs.
  cbv zeta in Hs. injection Hs as _ <-.
  rewrite (sign_request_computes _ _ _ _ _ _ _ _ _ _ _ _ Hurl Hquery Hutc). cbv zeta.
  set (h1 := signer_headers u content headers).
  assert (Hfixed : forall v,
            signer_headers u content (CIMultiDict.setitem "Authorization" v h1)
            = CIMultiDict.setitem "Authorization" v h1).
  { intros v. apply signer_headers_fixed. unfold CIMultiDict.contains.
    rewrite get_setitem_ne by reflexivity.
    apply (signer_headers_content_sha256 u content headers). }
  rewrite Hfixed, full_dict_setitem_authorization, setitem_setitem. reflexivity.
Qed.

Lemma sign_request_idempotent_witness :
  let signed :=
    (sign_request (H := simple_collaborators) "service" "PUT" "http://host/my/path?foo=bar"
       "ksa" unsigned_headers (IsBytes (Py.encode "somecontent")) "access-key" "secret-key"
       test_date).1 in
  sign_request (H := simple_collaborators) "service" "PUT" "http://host/my/path?foo=bar"
    "ksa" signed (IsBytes (Py.encode "somecontent")) "access-key" "secret-key" test_date
  = (signed, Return signed).
Proof.
  intros signed.
  apply (sign_request_idempotent (H := simple_collaborators) "service" "PUT"
           "http://host/my/path?foo=bar" "ksa" unsigned_headers
           (IsBytes (Py.encode "somecontent")) "access-key" "secret-key" test_date
           signed signed).
  vm_compute. reflexivity.
Defined.

(** X20.  What a failed call leaves behind.  When [sign_request] raises,
    the error is that of the URL parser, of the conversion of the timestamp
    or of the decoding of the query.  In the first case the caller's mapping
    is as it was; in the other two the x-amz-content-sha256 entry has been
    set already, if there was none.  An Authorization entry is never added
    or changed by a call that raises. *)
Theorem sign_request_failure `{Collaborators} (service_name method url region : string)
    (headers : CIMultiDict.t) (content : bytes_or_str)
    (access_key secret_key : string) (date : datetime) (store : CIMultiDict.t) (e : exn) :
  sign_request service_name method url region headers content access_key secret_key date
  = (store, Raise e) ->
  ((urlparse url = Raise e /\ store = headers)
   \/ (exists u,
         urlparse url = Return u
         /\ (to_signer_date date = Raise e
             \/ _generate_canonical_query_string (query u) = Raise e)
         /\ store
            = if CIMultiDict.contains "x-amz-content-sha256" headers then headers
              else CIMultiDict.setitem "x-amz-content-sha256"
                     (Str (if bool_decide (scheme u = "http") then sha256_hash content
                           else "UNSIGNED-PAYLOAD"))
                     headers))
  /\ entries_for "Authorization" store = entries_for "Authorization" headers.
Proof.
  intros Hs.
  pose proof (sign_request_steps service_name method url region headers content
                access_key secret_key date) as Hsteps.
  destruct (urlparse url) as [u|e0].
  - assert (Hframe : entries_for "Authorization" (signer_headers u content headers)
                     = entries_for "Authorization" headers).
    { unfold signer_headers.
      destruct (CIMultiDict.contains "x-amz-content-sha256" headers); [reflexivity |].
      apply entries_for_setitem_ne. reflexivity. }
    unfold to_signer_date.
    destruct (_to_utc date) as [utc|e1].
    + destruct (_generate_canonical_query_string (query u)) as [cq|e1] eqn:Hquery.
      * destruct Hsteps as [signed Hsigned]. rewrite Hsigned in Hs. discriminate.
      * rewrite Hsteps in Hs. injection Hs as <- <-. split; [|exact Hframe].
        right. exists u. refine (conj eq_refl (conj _ eq_refl)). right. exact Hquery.
    + rewrite Hsteps in Hs. injection Hs as <- <-. split; [|exact Hframe].
      right. exists u. refine (conj eq_refl (conj _ eq_refl)). left. reflexivity.
  - rewrite Hsteps in Hs. injection Hs as <- <-. split; [|reflexivity].
    left. split; reflexivity.
Qed.

Lemma sign_request_failure_witness :
  entries_for "x-amz-content-sha256"
    (sign_request (H := simple_collaborators) "service" "PUT" "https://host/" "ksa"
       unsigned_headers IsNone "access-key" "secret-key"
       (Datetime 1 1 1 0 0 0 0 (Some 3600000000%Z))).1
  = [("x-amz-content-sha256", Str "UNSIGNED-PAYLOAD")]
  /\ entries_for "Authorization"
       (sign_request (H := simple_collaborators) "service" "PUT" "https://host/" "ksa"
          unsigned_headers IsNone "access-key" "secret-key"
          (Datetime 1 1 1 0 0 0 0 (Some 3600000000%Z))).1
     = [].
Proof.
  split; [vm_compute; reflexivity |].
  apply (sign_request_failure (H := simple_collaborators) "service" "PUT" "https://host/"
           "ksa" unsigned_headers IsNone "access-key" "secret-key"
           (Datetime 1 1 1 0 0 0 0 (Some 3600000000%Z)) _ OverflowError).
  vm_compute. reflexivity.
Defined.

(** X21.  The Authorization value of a signed request.  When
    [sign_request] returns, the value is the text
    [AWS4-HMAC-SHA256 Credential=<key id>/<date>/<region>/<service>/aws4_request,
    SignedHeaders=<names>, Signature=<signature>], where the date is the
    digits that [to_signer_date] returns, 8 of them when the year of the
    timestamp in UTC is 1000 or later, the names are the lower-case names
    of the returned mapping outside the excluded ones, in strictly
    ascending order and joined by ";", x-amz-content-sha256 among them, and
    the signature is 64 lower-case hexadecimal digits.  The key id, region
    and service name are written as given. *)
Theorem sign_request_authorization_format `{Collaborators}
    (service_name method url region : string)
    (headers : CIMultiDict.t) (content : bytes_or_str)
    (access_key secret_key : string) (date : datetime) (store headers' : CIMultiDict.t) :
  sign_request service_name method url region headers content access_key secret_key date
  = (store, Return headers') ->
  exists signer_date names signature,
    to_signer_date date = Return signer_date
    /\ CIMultiDict.get "Authorization" headers'
       = Some (Str ("AWS4-HMAC-SHA256 Credential=" ++ access_key ++ "/" ++ signer_date
                      ++ "/" ++ region ++ "/" ++ service_name ++ "/aws4_request"
                      ++ ", SignedHeaders=" ++ Py.join ";" names
                      ++ ", Signature=" ++ signature))
    /\ (forall utc, _to_utc date = Return utc -> (1000 <= year utc)%Z ->
        String.length signer_date = 8%nat)
    /\ all_chars is_digit signer_date = true
    /\ StronglySorted string_lt names
    /\ (forall name,
          name ∈ names
          <-> (name ∉ excluded_headers)
              /\ exists key values, (key, values) ∈ headers' /\ Py.lower key = name)
    /\ "x-amz-content-sha256" ∈ names
    /\ String.length signature = 64%nat
    /\ all_chars is_lower_hex signature = true.
Proof.
  intros Hs.
  destruct (sign_request_inv _ _ _ _ _ _ _ _ _ _ _ Hs) as (u & cq & utc & Hurl & Hquery & Hutc).
  rewrite (sign_request_computes _ _ _ _ headers _ _ _ _ _ _ _ Hurl Hquery Hutc) in Hs.
  cbv zeta in Hs. injection Hs as _ <-.
  set (h1 := signer_headers u content headers).
  set (a := signer_authorization _ _ _ _ _ _ _ _ _ _).
  assert (Hnames : forall name,
            name ∈ map fst (sorted_items (full_dict h1))
            <-> (name ∉ excluded_headers)
                /\ exists key values,
                     (key, values) ∈ CIMultiDict.setitem "Authorization" (Str a) h1
                     /\ Py.lower key = name).
  { intros name.
    rewrite <- (full_dict_setitem_authorization (Str a) h1). apply full_mode_names. }
  exists (DT.strftime_Ymd utc), (map fst (sorted_items (full_dict h1))).
  eexists.
  refine (conj _ (conj _ (conj _ (conj _ (conj _ (conj Hnames (conj _ (conj _ _)))))))).
  - unfold to_signer_date. rewrite Hutc. reflexivity.
  - rewrite get_setitem. unfold a, signer_authorization. cbv zeta.
    rewrite !append_assoc. reflexivity.
  - intros utc' Hutc' Hy. rewrite Hutc in Hutc'. injection Hutc' as <-.
    unfold DT.strftime_Ymd. rewrite !string_length_append, !zfill_length.
    rewrite (proj2 (strftime_Y_length (year utc)) Hy). reflexivity.
  - unfold DT.strftime_Ymd.
    rewrite !all_chars_append, !zfill_digits, strftime_Y_digits. reflexivity.
  - apply sorted_items_ascending.
  - apply full_mode_names. split.
    + unfold excluded_headers. rewrite !not_elem_of_cons.
      repeat split; try discriminate. apply not_elem_of_nil.
    + pose proof (signer_headers_content_sha256 u content headers) as Hc.
      fold h1 in Hc. unfold CIMultiDict.contains in Hc.
      destruct (CIMultiDict.get "x-amz-content-sha256" h1) as [w|] eqn:Hw; [|discriminate].
      destruct (get_Some_elem _ _ _ Hw) as [k [Hin Hlow]]. exists k, w. split; assumption.
  - unfold generate_signature, _hmac_hash. rewrite hex_length, hmac_sha256_length. reflexivity.
  - unfold generate_signature, _hmac_hash. apply hex_all_lower_hex.
Qed.

Lemma sign_request_authorization_format_witness :
  exists signer_date names signature,
    CIMultiDict.get "Authorization"
      (sign_request (H := simple_collaborators) "service" "PUT"
         "http://host/my/path?foo=bar" "ksa" unsigned_headers
         (IsBytes (Py.encode "somecontent")) "access-key" "secret-key" test_date).1
    = Some (Str ("AWS4-HMAC-SHA256 Credential=" ++ "access-key" ++ "/" ++ signer_date
                   ++ "/" ++ "ksa" ++ "/" ++ "service" ++ "/aws4_request"
                   ++ ", SignedHeaders=" ++ Py.join ";" names
                   ++ ", Signature=" ++ signature))
    /\ String.length signature = 64%nat.
Proof.
  destruct (sign_request_authorization_format (H := simple_collaborators) "service" "PUT"
              "http://host/my/path?foo=bar" "ksa" unsigned_headers
              (IsBytes (Py.encode "somecontent")) "access-key" "secret-key" test_date
              _ _ eq_refl)
    as (d & names & sig & _ & Hget & _ & _ & _ & _ & _ & Hlen & _).
  exists d, names, sig. split; [exact Hget | exact Hlen].
Defined.

(** ** Unsigned payloads *)

Lemma sign_request_unsigned_payload `{Collaborators}
    (service_name method url region : string)
    (headers : CIMultiDict.t) (content content' : bytes_or_str)
    (access_key secret_key : string) (date : datetime) (u : ParseResult) :
  urlparse url = Return u ->
  scheme u <> "http" ->
  sign_request service_name method url region headers content access_key secret_key date
  = sign_request service_name method url region headers content' access_key secret_key date.
Proof.
  intros Hurl Hu. unfold sign_request. rewrite Hurl.
  rewrite !(bool_decide_eq_false_2 (scheme u = "http") Hu). reflexivity.
Qed.

(** X22.  Only a URL whose scheme is "http" has its body signed.  For any
    other scheme, "https" as well, the signer does not read the body: the
    signed mapping is the same for every body, and, under the conditions of
    the round trip, the challenge extracted from the signed request with
    any other body validates. *)
Theorem unsigned_payload_any_body `{Collaborators} (now : Z)
    (service_name method url region : string)
    (headers : CIMultiDict.t) (content content' : bytes_or_str)
    (access_key secret_key : string) (date : datetime)
    (u : ParseResult) (canonical_query amz_date : string)
    (parsed : datetime) (off : Z) :
  urlparse url = Return u ->
  scheme u <> "http" ->
  _generate_canonical_query_string (query u) = Return canonical_query ->
  to_amz_date date = Return amz_date ->
  CIMultiDict.get "x-amz-date" headers = Some (Str amz_date) ->
  parser_parse amz_date = Return parsed ->
  tzinfo parsed = Some off ->
  (Z.abs (now - DT.instant parsed off) <= 5 * 1000000)%Z ->
  (forall w, CIMultiDict.get "x-amz-content-sha256" headers = Some w ->
             w = Str "UNSIGNED-PAYLOAD") ->
  (forall key values, (key, values) ∈ headers ->
     Py.has_char ";" (Py.lower key) = false /\ Py.contains ", " (Py.lower key) = false) ->
  Py.has_char "/" access_key = false /\ Py.contains ", " access_key = false ->
  Py.has_char "/" region = false /\ Py.contains ", " region = false ->
  Py.has_char "/" service_name = false /\ Py.contains ", " service_name = false ->
  sign_request service_name method url region headers content access_key secret_key date
  = sign_request service_name method url region headers content' access_key secret_key date
  /\ (signed ← (sign_request service_name method url region headers content
                  access_key secret_key date).2;
      challenge ← generate_challenge now method u signed content';
      validate_challenge challenge secret_key)
     = Return ().
Proof.
  intros Hurl Hu Hquery Hamz Hdate Hparse Htz Hdrift Hsha Hnames Hak Hregion Hservice.
  pose proof (sign_request_unsigned_payload service_name method url region headers
                content content' access_key secret_key date u Hurl Hu) as Hsame.
  split; [exact Hsame |]. rewrite Hsame.
  unfold to_amz_date in Hamz.
  destruct (_to_utc date) as [utc|e] eqn:Hutc; [|discriminate].
  injection Hamz as <-.
  assert (Hrt : round_trip now service_name method url region headers content'
                  access_key secret_key date = Return ()).
  { eapply round_trip_returns; eauto.
    intros w Hw. rewrite (Hsha w Hw). split; [intros Hne; contradiction | intros Hhttp; contradiction]. }
  unfold round_trip in Hrt. rewrite Hurl in Hrt. exact Hrt.
Qed.

Lemma unsigned_payload_any_body_witness :
  (signed ← (sign_request (H := simple_collaborators) "service" "PUT"
               "https://host/my/path?foo=bar" "ksa" unsigned_headers
               (IsBytes (Py.encode "somecontent")) "access-key" "secret-key" test_date).2;
   challenge ← generate_challenge (H := simple_collaborators) test_now "PUT"
                 {| scheme := "https"; path := "/my/path"; query := IsStr "foo=bar" |}
                 signed (IsBytes (Py.encode "another body"));
   validate_challenge challenge "secret-key")
  = Return ().
Proof.
  apply (unsigned_payload_any_body (H := simple_collaborators) test_now
           "service" "PUT" "https://host/my/path?foo=bar" "ksa" unsigned_headers
           (IsBytes (Py.encode "somecontent")) (IsBytes (Py.encode "another body"))
           "access-key" "secret-key" test_date
           {| scheme := "https"; path := "/my/path"; query := IsStr "foo=bar" |}
           "foo=bar" "20230809T010203Z" (Datetime 2023 8 9 1 2 3 0 (Some 0%Z)) 0%Z).
  - reflexivity.
  - discriminate.
  - reflexivity.
  - reflexivity.
  - reflexivity.
  - reflexivity.
  - reflexivity.
  - vm_compute. discriminate.
  - intros w Hw. discriminate Hw.
  - intros key values Hin.
    repeat (apply elem_of_cons in Hin as [Hin | Hin];
            [injection Hin as -> ->; split; reflexivity |]).
    inversion Hin.
  - split; reflexivity.
  - split; reflexivity.
  - split; reflexivity.
Defined.

(** ** The errors of the extraction, continued *)

Lemma parse_authorization_raises (authorization : string) (e : exn) :
  _parse_authorization authorization = Raise e ->
  e = KeyError "credential" \/ e = KeyError "signedheaders" \/ e = KeyError "signature".
Proof.
  rewrite parse_authorization_by_fields. cbv zeta.
  destruct (field "credential" _); [|intros [= <-]; auto].
  destruct (field "signedheaders" _); [|intros [= <-]; auto].
  destruct (field "signature" _); [discriminate | intros [= <-]; auto].
Qed.

Lemma parse_key_date_raises `{Collaborators} (now : Z) (headers : CIMultiDict.t) (e : exn) :
  _parse_key_date now headers = Raise e ->
  e = MissingHeaderError "Missing supported date header"
  \/ e = TypeError
  \/ e = InvalidDateError "Replay/drift detected in date."
  \/ exists key_date,
       CIMultiDict.get "x-amz-date" headers = Some (Str key_date)
       /\ parser_parse key_date = Raise e.
Proof.
  unfold _parse_key_date.
  destruct (CIMultiDict.get "x-amz-date" headers) as [[k|l]|];
    [|intros [= <-]; auto | intros [= <-]; auto].
  destruct (parser_parse k) as [p|e0] eqn:Hp; cbn [mbind mret result_bind result_ret].
  - destruct (tzinfo p); [|intros [= <-]; auto].
    destruct (abs_total_seconds_gt _ _); [intros [= <-]; auto | discriminate].
  - intros [= <-]. right. right. right. exists k. split; [reflexivity | exact Hp].
Qed.

(** X23.  The errors of [generate_challenge].  A malformed request is
    reported by built-in exceptions: [KeyError] for a missing Authorization
    header or one of its three fields, [AttributeError] for an
    Authorization value that is not a string, [ValueError] for a
    Credential or scope of the wrong shape, [TypeError] for a date without
    a time zone or that is not a string, [UnicodeDecodeError] for the
    query; the date parser's own errors pass through.  When the date parser
    raises none of the module's exceptions, the only ones of the extraction
    are [MissingHeaderError] and [InvalidDateError]; it never raises
    [InvalidSignatureError]. *)
Theorem generate_challenge_raises `{Collaborators} (now : Z) (method : string)
    (url : ParseResult) (headers : CIMultiDict.t) (content : bytes_or_str) (e : exn) :
  generate_challenge now method url headers content = Raise e ->
  (e ∈ [KeyError "Authorization"; AttributeError; KeyError "credential";
        KeyError "signedheaders"; KeyError "signature"; ValueError;
        MissingHeaderError "Missing supported date header"; TypeError;
        InvalidDateError "Replay/drift detected in date."; UnicodeDecodeError]
   \/ exists key_date,
        CIMultiDict.get "x-amz-date" headers = Some (Str key_date)
        /\ parser_parse key_date = Raise e)
  /\ ((forall key_date e', parser_parse key_date = Raise e' -> is_AWS4Exception e' = false) ->
      is_AWS4Exception e = true ->
      e = MissingHeaderError "Missing supported date header"
      \/ e = InvalidDateError "Replay/drift detected in date.").
Proof.
  intros Hc.
  assert (Hcases :
    e ∈ [KeyError "Authorization"; AttributeError; KeyError "credential";
         KeyError "signedheaders"; KeyError "signature"; ValueError;
         MissingHeaderError "Missing supported date header"; TypeError;
         InvalidDateError "Replay/drift detected in date."; UnicodeDecodeError]
    \/ exists key_date,
         CIMultiDict.get "x-amz-date" headers = Some (Str key_date)
         /\ parser_parse key_date = Raise e).
  { unfold generate_challenge, CIMultiDict.getitem in Hc.
    destruct (CIMultiDict.get "Authorization" headers) as [[a|l]|];
      cbn [mbind mret result_bind result_ret] in Hc.
    - destruct (_parse_authorization a) as [[[[t cred] sh] sig]|e0] eqn:Hparse;
        cbn [mbind mret result_bind result_ret] in Hc.
      + destruct (unpack2 (Py.split_max1 "/" cred)) as [[ak sc]|e0] eqn:Hcred;
          cbn [mbind mret result_bind result_ret] in Hc.
        * destruct (unpack3 (removelast (Py.split "/" sc))) as [[[d r] s]|e0] eqn:Hsc;
            cbn [mbind mret result_bind result_ret] in Hc.
          -- destruct (_parse_key_date now headers) as [kd|e0] eqn:Hkd;
               cbn [mbind mret result_bind result_ret] in Hc.
             ++ unfold _recreate_canonical_request_hash in Hc.
                destruct (_generate_canonical_query_string (query url)) as [cq|e0] eqn:Hq;
                  cbn [mbind mret result_bind result_ret] in Hc; [discriminate |].
                injection Hc as <-. left.
                unfold _generate_canonical_query_string in Hq.
                match type of Hq with
                | context [Py.decode ?b] => destruct (Py.decode b)
                | _ => idtac
                end.
                all: revert Hq;
                  repeat match goal with
                         | |- context [match ?x with _ => _ end] => destruct x
                         end;
                  cbn [mbind mret result_bind result_ret]; intros Hq;
                  try discriminate; injection Hq as <-; set_solver.
             ++ injection Hc as <-.
                destruct (parse_key_date_raises _ _ _ Hkd) as [-> | [-> | [-> | Hp]]];
                  [left; set_solver .. | right; exact Hp].
          -- injection Hc as <-. left. unfold unpack3 in Hsc.
             destruct (removelast _) as [|x1 [|x2 [|x3 [|x4 l]]]];
               try discriminate; injection Hsc as <-; set_solver.
        * injection Hc as <-. left. unfold unpack2 in Hcred.
          destruct (Py.split_max1 "/" cred) as [|x1 [|x2 [|x3 l]]];
            try discriminate; injection Hcred as <-; set_solver.
      + injection Hc as <-. left.
        destruct (parse_authorization_raises _ _ Hparse) as [-> | [-> | ->]]; set_solver.
    - injection Hc as <-. left. set_solver.
    - injection Hc as <-. left. set_solver. }
  split; [exact Hcases |].
  intros Hparser Haws. destruct Hcases as [Hin | (k & _ & Hk)].
  - repeat (apply elem_of_cons in Hin as [-> | Hin]; [try discriminate; auto |]).
    inversion Hin.
  - rewrite (Hparser k e Hk) in Haws. discriminate.
Qed.

Lemma amz_parser_parse_raises (s : string) (e : exn) :
  amz_parser_parse s = Raise e -> e = ParserError.
Proof.
  unfold amz_parser_parse.
  repeat match goal with
         | |- context [match ?x with _ => _ end] => destruct x
         end;
    intros Hs; try discriminate; injection Hs as <-; reflexivity.
Qed.

Lemma generate_challenge_raises_witness :
  generate_challenge (H := simple_collaborators) (test_now + 6000000)%Z "PUT" test_url
    test_headers (IsBytes (Py.encode "somecontent"))
  = Raise (InvalidDateError "Replay/drift detected in date.")
  /\ (InvalidDateError "Replay/drift detected in date."
      = MissingHeaderError "Missing supported date header"
      \/ InvalidDateError "Replay/drift detected in date."
         = InvalidDateError "Replay/drift detected in date.").
Proof.
  assert (Hc : generate_challenge (H := simple_collaborators) (test_now + 6000000)%Z "PUT"
                 test_url test_headers (IsBytes (Py.encode "somecontent"))
               = Raise (InvalidDateError "Replay/drift detected in date."))
    by (vm_compute; reflexivity).
  split; [exact Hc |].
  apply (proj2 (generate_challenge_raises (H := simple_collaborators) _ _ _ _ _ _ Hc)).
  - intros k e' Hk. rewrite (amz_parser_parse_raises k e' Hk). reflexivity.
  - reflexivity.
Defined.

(** ** Signing and validating a string *)

Lemma scope_split_four (date region service_name terminal : string) :
  Py.has_char "/" date = false ->
  Py.has_char "/" region = false ->
  Py.has_char "/" service_name = false ->
  Py.has_char "/" terminal = false ->
  Py.split "/" (date ++ "/" ++ region ++ "/" ++ service_name ++ "/" ++ terminal)
  = [date; region; service_name; terminal].
Proof.
  intros Hd Hr Hs Ht.
  change (date ++ "/" ++ region ++ "/" ++ service_name ++ "/" ++ terminal)%string
    with (date ++ String "/" (region ++ String "/" (service_name ++ String "/" terminal)))%string.
  rewrite !split_char_app by assumption. rewrite (split_char_no_char "/" terminal Ht).
  reflexivity.
Qed.

(** X24.  A string signed with [generate_signing_key] and
    [generate_signature] validates under the same secret, when the date,
    region and service name of the scope, none of which has a "/", are
    those of the key; the challenge with any other signature text raises
    [InvalidSignatureError].  The comparison is of the texts: the same
    digest written in another way is another signature. *)
Theorem signature_validates (secret date region service_name terminal text : string)
    (key_id : option string) :
  Py.has_char "/" date = false ->
  Py.has_char "/" region = false ->
  Py.has_char "/" service_name = false ->
  Py.has_char "/" terminal = false ->
  let scope_ := (date ++ "/" ++ region ++ "/" ++ service_name ++ "/" ++ terminal)%string in
  let signature_ :=
    generate_signature (generate_signing_key secret date region service_name) text in
  validate_challenge
    {| scope := scope_; string_to_sign := text; signature := signature_;
       access_key_id := key_id |} secret
  = Return ()
  /\ forall signature',
       signature' <> signature_ ->
       validate_challenge
         {| scope := scope_; string_to_sign := text; signature := signature';
            access_key_id := key_id |} secret
       = Raise (InvalidSignatureError "Invalid signature").
Proof.
  intros Hd Hr Hs Ht scope_ signature_. split.
  - rewrite validate_challenge_unfold. cbn [scope string_to_sign signature].
    unfold scope_. rewrite scope_split_four by assumption. cbn [removelast].
    rewrite bool_decide_eq_false_2; [reflexivity |]. intros Hne. apply Hne. reflexivity.
  - intros signature' Hne.
    rewrite validate_challenge_unfold. cbn [scope string_to_sign signature].
    unfold scope_. rewrite scope_split_four by assumption. cbn [removelast].
    rewrite bool_decide_eq_true_2; [reflexivity |]. intros Heq. apply Hne. symmetry. exact Heq.
Qed.

Lemma signature_validates_witness :
  validate_challenge
    {| scope := "20230809/ksa/service/aws4_request";
       string_to_sign := test_string_to_sign;
       signature := "342103018E8CCCEFA7BD30EC2F41CBB9F9C5E5C9E9E9B434B773B95DC7DD5CBC";
       access_key_id := None |} "secret-key"
  = Raise (InvalidSignatureError "Invalid signature").
Proof.
  refine (proj2 (signature_validates "secret-key" "20230809" "ksa" "service" "aws4_request"
                   test_string_to_sign None eq_refl eq_refl eq_refl eq_refl)
            "342103018E8CCCEFA7BD30EC2F41CBB9F9C5E5C9E9E9B434B773B95DC7DD5CBC" _).
  vm_compute. discriminate.
Defined.

(** ** Repeated header names *)

Lemma last_value_app (name : string) (h1 h2 : CIMultiDict.t) :
  last_value name (h1 ++ h2)
  = match last_value name h2 with
    | Some v => Some v
    | None => last_value name h1
    end.
Proof.
  induction h1 as [|[k w] h1 IH]; simpl.
  - destruct (last_value name h2); reflexivity.
  - rewrite IH. destruct (last_value name h2); reflexivity.
Qed.

Lemma full_dict_ext (h1 h2 : CIMultiDict.t) :
  (forall name, last_value name h1 = last_value name h2) ->
  full_dict h1 = full_dict h2.
Proof.
  intros Hv. apply map_eq. intros name. rewrite !full_dict_lookup, Hv. reflexivity.
Qed.

(** X25.  Of the entries of a mapping under one name, in any letter case,
    the canonical headers take the last only: an entry that is followed by
    another of its name can be removed without a change to the canonical
    headers or the signed-header list, in full and in restricted mode. *)
Theorem repeated_header_last_entry (h1 h2 : CIMultiDict.t) (key key' : string)
    (values values' : header_value) :
  (key', values') ∈ h2 ->
  Py.lower key' = Py.lower key ->
  _generate_canonical_headers (h1 ++ (key, values) :: h2)
  = _generate_canonical_headers (h1 ++ h2)
  /\ forall signed_headers,
       _recreate_canonical_headers (h1 ++ (key, values) :: h2) signed_headers
       = _recreate_canonical_headers (h1 ++ h2) signed_headers.
Proof.
  intros Hin Hlow.
  assert (Hv : forall name,
            last_value name (h1 ++ (key, values) :: h2) = last_value name (h1 ++ h2)).
  { intros name. rewrite !last_value_app. simpl.
    destruct (last_value name h2) as [v|] eqn:Hl; [reflexivity |].
    rewrite bool_decide_eq_false_2; [reflexivity |].
    intros <-.
    assert (Hsome : is_Some (last_value (Py.lower key) h2)).
    { apply last_value_is_Some. exists key', values'. split; assumption. }
    rewrite Hl in Hsome. destruct Hsome as [v Hv]. discriminate. }
  split.
  - unfold _generate_canonical_headers. rewrite (full_dict_ext _ _ Hv). reflexivity.
  - intros signed_headers. unfold _recreate_canonical_headers. cbv zeta.
    rewrite (restricted_dict_ext (h1 ++ (key, values) :: h2) (h1 ++ h2)
               (Py.split ";" signed_headers) (Py.split ";" signed_headers));
      [reflexivity | intros name; reflexivity | intros name _; apply Hv].
Qed.

Lemma repeated_header_last_entry_witness :
  _generate_canonical_headers [("Foo", Str "first"); ("host", Str "h"); ("foo", Str "last")]
  = _generate_canonical_headers [("host", Str "h"); ("foo", Str "last")].
Proof.
  refine (proj1 (repeated_header_last_entry [] [("host", Str "h"); ("foo", Str "last")]
                   "Foo" "foo" (Str "first") (Str "last") _ eq_refl)).
  apply elem_of_cons. right. apply elem_of_cons. left. reflexivity.
Defined.

(** ** The canonical request of the signer and of the verifier *)

(** X26.  The verifier's hash of a request is the signer's: for a mapping
    without ";" in its header names, and the same method, URL and payload
    hash, [_recreate_canonical_request_hash] with the signed-header list
    that [_generate_canonical_request_hash] returned gives the hash that it
    returned, and they fail together. *)
Theorem request_hash_recreated (method : string) (url : ParseResult)
    (headers : CIMultiDict.t) (content_sha256 : string) :
  (forall key values, (key, values) ∈ headers -> Py.has_char ";" (Py.lower key) = false) ->
  match _generate_canonical_request_hash method url headers content_sha256 with
  | Return (hash, signed_headers) =>
      signed_headers = (_generate_canonical_headers headers).2
      /\ _recreate_canonical_request_hash method url headers signed_headers content_sha256
         = Return hash
  | Raise e =>
      _recreate_canonical_request_hash method url headers
        (_generate_canonical_headers headers).2 content_sha256
      = Raise e
  end.
Proof.
  intros Hnames. pose proof (recreate_of_generated headers Hnames) as Hrec.
  unfold _generate_canonical_request_hash, _recreate_canonical_request_hash.
  destruct (_generate_canonical_headers headers) as [canonical_headers signed_headers].
  cbn [fst snd] in *.
  destruct (_generate_canonical_query_string (query url)) as [canonical_query_string|e];
    cbn [mbind mret result_bind result_ret]; [split |]; rewrite ?Hrec; reflexivity.
Qed.

Lemma request_hash_recreated_witness :
  match _generate_canonical_request_hash "PUT" test_url unsigned_headers "UNSIGNED-PAYLOAD" with
  | Return (hash, signed_headers) =>
      signed_headers = (_generate_canonical_headers unsigned_headers).2
      /\ _recreate_canonical_request_hash "PUT" test_url unsigned_headers signed_headers
           "UNSIGNED-PAYLOAD"
         = Return hash
  | Raise e =>
      _recreate_canonical_request_hash "PUT" test_url unsigned_headers
        (_generate_canonical_headers unsigned_headers).2 "UNSIGNED-PAYLOAD"
      = Raise e
  end.
Proof.
  apply request_hash_recreated. intros key values Hin. unfold unsigned_headers in Hin.
  repeat (apply elem_of_cons in Hin as [[= -> ->] | Hin]; [reflexivity |]).
  inversion Hin.
Defined.
